(** * Fashion-MNIST tutorial notebook: a shallow embedding and its properties

  The notebook [notebook/Fashion-MNIST.ipynb] loads the Fashion-MNIST
  files, standardizes and reshapes the images, wraps them in batched
  loaders, trains a small convolutional network and reports accuracy.
  Each code cell is embedded below as a Rocq definition carrying the
  name it has in the notebook. *)

From Stdlib Require Import PrimFloat.
From Stdlib Require Uint63 Floats.
From Stdlib Require Import Strings.String Strings.Ascii Strings.Byte.
From Stdlib Require Import ZArith Lia Bool Arith Reals Lra.
From Stdlib Require Import List Permutation.
Import ListNotations.

(* ================================================================== *)
(** * Python: exceptions and fallible computations *)
(* ================================================================== *)

Module Py.

(** The exceptions the notebook's cells can raise: built-in ones, and
    [zlib.error], which is not a subclass of any of them. *)
Inductive exn : Set :=
| ValueError
| IndexError
| ZeroDivisionError
| OSError
| EOFError
| zlib_error
| RuntimeError.

Inductive result (A : Type) : Type :=
| Ok (a : A)
| Raise (e : exn).

Arguments Ok {A} a.
Arguments Raise {A} e.

Definition bind {A B} (r : result A) (k : A -> result B) : result B :=
  match r with
  | Ok a => k a
  | Raise e => Raise e
  end.

(** [os.path.join(a, b)] of [posixpath]: an absolute second component
    replaces the first, otherwise a separator is inserted unless the
    first component is empty or already ends with one. *)
Fixpoint endswith_sep (s : string) : bool :=
  match s with
  | EmptyString => false
  | String c EmptyString => Ascii.eqb c "/"
  | String _ s' => endswith_sep s'
  end.

Definition startswith_sep (s : string) : bool :=
  match s with
  | String c _ => Ascii.eqb c "/"
  | EmptyString => false
  end.

Definition os_path_join (a b : string) : string :=
  if startswith_sep b then b
  else if (String.length a =? 0)%nat || endswith_sep a then (a ++ b)%string
  else (a ++ "/" ++ b)%string.

End Py.

Import Py.

Declare Scope py_scope.
Delimit Scope py_scope with py.
Notation "x <- c1 ;; c2" := (Py.bind c1 (fun x => c2))
(at level 61, c1 at next level, right associativity) : py_scope.

(* ================================================================== *)
(** * NumPy: contiguous arrays *)
(* ================================================================== *)

Module Np.

(** A C-contiguous [ndarray]: its shape and its buffer in row-major
    order.  [reshape] and [torch.from_numpy] share the buffer and only
    change the shape, exactly as NumPy does for contiguous arrays. *)
Record ndarray (A : Type) : Type := mk_ndarray {
  shape : list nat;
  data : list A
}.

Arguments mk_ndarray {A} shape data.
Arguments shape {A} n.
Arguments data {A} n.

Definition prod (sh : list nat) : nat := fold_right Nat.mul 1 sh.

(** [a.size] *)
Definition size {A} (a : ndarray A) : nat := prod (shape a).

(** Every array NumPy builds owns as many elements as its shape says. *)
Definition wf {A} (a : ndarray A) : Prop := length (data a) = size a.

(** [len(a)]: the extent of the first axis. *)
Definition len {A} (a : ndarray A) : nat := hd 0 (shape a).

(** [np.frombuffer(buf, dtype=np.uint8, offset=offset)]: a one-axis
    view on the bytes after [offset]; an offset past the end of the
    buffer is a [ValueError]. *)
Definition frombuffer (buf : list byte) (offset : nat) : result (ndarray byte) :=
  if length buf <? offset then Raise ValueError
  else Ok (mk_ndarray [length buf - offset] (skipn offset buf)).

(** One entry of the tuple given to [reshape]: a fixed extent or [-1]. *)
Inductive dim : Set :=
| Infer
| Dim (n : nat).

Definition is_infer (d : dim) : bool :=
  match d with Infer => true | Dim _ => false end.

Definition known (newshape : list dim) : nat :=
  fold_right (fun d acc => match d with Infer => acc | Dim n => n * acc end) 1 newshape.

Definition resolve (missing : nat) (newshape : list dim) : list nat :=
  map (fun d => match d with Infer => missing | Dim n => n end) newshape.

(** [a.reshape(newshape)]: at most one [-1]; without one the extents
    must multiply to [a.size]; with one the known extents must be
    non-zero and divide [a.size].  The buffer is kept as it is. *)
Definition reshape {A} (a : ndarray A) (newshape : list dim) : result (ndarray A) :=
  match length (filter is_infer newshape) with
  | 0 =>
      if known newshape =? size a
      then Ok (mk_ndarray (resolve 0 newshape) (data a))
      else Raise ValueError
  | 1 =>
      if (known newshape =? 0) || negb (size a mod known newshape =? 0)
      then Raise ValueError
      else Ok (mk_ndarray (resolve (size a / known newshape) newshape) (data a))
  | _ => Raise ValueError
  end.

(** Row-major offset of a multi-index, [None] when the index has the
    wrong rank or leaves the bounds of an axis. *)
Fixpoint ravel (idx sh : list nat) (acc : nat) : option nat :=
  match idx, sh with
  | [], [] => Some acc
  | i :: idx', d :: sh' =>
      if i <? d then ravel idx' sh' (acc * d + i) else None
  | _, _ => None
  end.

(** [a[i0, i1, ...]] with a full, non-negative index. *)
Definition getitem {A} (a : ndarray A) (idx : list nat) : result A :=
  match ravel idx (shape a) 0 with
  | Some off =>
      match nth_error (data a) off with
      | Some v => Ok v
      | None => Raise IndexError
      end
  | None => Raise IndexError
  end.

(** The value of a [np.uint8] element. *)
Definition uint8 (b : byte) : Z := Z.of_N (Byte.to_N b).

End Np.

(* ================================================================== *)
(** * Cell "Functions": [load_fmnist] *)
(* ================================================================== *)

Module Reader.

Import Np.
Local Open Scope py_scope.

(** The file system as [gzip.open(path, 'rb').read()] sees it.  The
    library call is not part of the notebook: a path gives the
    decompressed content of a gzip file, or the exception the call
    raises, an [OSError] for a file that is missing, cannot be opened or
    is not a gzip file, [EOFError] for a truncated one, [zlib.error] for
    a corrupt stream. *)
Definition filesystem := string -> result (list byte).

Definition gzip_read (fs : filesystem) (path : string) : result (list byte) :=
  fs path.

Definition labels_path (path kind : string) : string :=
  os_path_join path (kind ++ "-labels-idx1-ubyte.gz")%string.

Definition images_path (path kind : string) : string :=
  os_path_join path (kind ++ "-images-idx3-ubyte.gz")%string.

Definition load_fmnist (fs : filesystem) (path kind : string)
  : result (ndarray byte * ndarray byte) :=
  lb <- gzip_read fs (labels_path path kind) ;;
  labels <- frombuffer lb 8 ;;
  img <- gzip_read fs (images_path path kind) ;;
  flat <- frombuffer img 16 ;;
  images <- reshape flat [Dim (len labels); Dim 784] ;;
  Ok (images, labels).

(** A label file and an image file that agree: an 8-byte header and
    [n] labels between 0 and 9, a 16-byte header and [n] images of
    784 bytes. *)
Definition valid_files (lb img : list byte) : Prop :=
  8 <= length lb /\
  length img = 16 + 784 * (length lb - 8) /\
  Forall (fun b => (0 <= uint8 b <= 9)%Z) (skipn 8 lb).

(** A small pair of files: two labels, two images. *)
Definition demo_labels_file : list byte := repeat x00 8 ++ [x03; x09].
Definition demo_images_file : list byte := repeat x00 16 ++ repeat x7f (2 * 784).

Definition demo_fs : filesystem :=
  fun p =>
    if String.eqb p "data/train-labels-idx1-ubyte.gz" then Ok demo_labels_file
    else if String.eqb p "data/train-images-idx3-ubyte.gz" then Ok demo_images_file
    else Raise OSError.

End Reader.

(* ================================================================== *)
(** * Cells "Functions" and "Preprocess Data": [standardize], [reshape] *)
(* ================================================================== *)

Module Preprocessor.

Import Np.

(** The arithmetic of [float64] elements.  [standardize] is written once
    over these operations and read in two ways: in the real numbers,
    where nothing is rounded, and in IEEE 754 binary64, the arithmetic
    NumPy runs. *)
Class Float64 (F : Type) : Type := {
  zero64 : F;
  add64 : F -> F -> F;
  sub64 : F -> F -> F;
  mul64 : F -> F -> F;
  div64 : F -> F -> F;
  sqrt64 : F -> F;
  count64 : nat -> F;
  eps64 : F
}.

#[global] Instance exact : Float64 R := {|
  zero64 := 0%R;
  add64 := Rplus;
  sub64 := Rminus;
  mul64 := Rmult;
  div64 := Rdiv;
  sqrt64 := R_sqrt.sqrt;
  count64 := INR;
  eps64 := 1e-5%R
|}.

(** [float(v)] for a whole number v below 2^63. *)
Definition float_of_Z (v : Z) : PrimFloat.float :=
  PrimFloat.of_uint63 (Uint63.of_Z v).

#[global, warnings="-inexact-float"]
Instance binary64 : Float64 PrimFloat.float := {|
  zero64 := 0%float;
  add64 := PrimFloat.add;
  sub64 := PrimFloat.sub;
  mul64 := PrimFloat.mul;
  div64 := PrimFloat.div;
  sqrt64 := PrimFloat.sqrt;
  count64 := fun n => float_of_Z (Z.of_nat n);
  eps64 := 1e-5%float
|}.

(** [ndarray.mean] and [ndarray.var] add the elements of the buffer
    with [np.add.reduce], library code that is not part of the
    notebook.  It adds every element once, but not always from left to
    right: a short buffer is added in order, a longer one in blocks
    with several accumulators whose sums are then added in pairs, and
    which way depends on the length, the type of the elements and the
    build of the library.  An [Order] is one way of adding: a tree of
    additions whose leaves are positions of the buffer and initial
    zeros of accumulators. *)
Inductive Order : Type :=
| Elem (i : nat)
| Zero
| Add (l r : Order).

Fixpoint positions (t : Order) : list nat :=
  match t with
  | Elem i => [i]
  | Zero => []
  | Add l r => positions l ++ positions r
  end.

(** What the library does is a parameter of [standardize]: for every
    length, the order in which the elements of the array are added for
    its mean and the order in which the squared deviations are added
    for its variance.  Each takes every position exactly once. *)
Class Reduce : Type := {
  sum_order : nat -> Order;
  squares_order : nat -> Order;
  sum_order_complete :
    forall n, Permutation (positions (sum_order n)) (seq 0 n);
  squares_order_complete :
    forall n, Permutation (positions (squares_order n)) (seq 0 n)
}.

(** Adding from left to right from an initial zero, as the library does
    on fewer than eight elements. *)
Fixpoint left_to_right (n : nat) : Order :=
  match n with
  | 0 => Zero
  | S n' => Add (left_to_right n') (Elem n')
  end.

Fixpoint left_to_right_complete (n : nat)
  : Permutation (positions (left_to_right n)) (seq 0 n) :=
  match n return Permutation (positions (left_to_right n)) (seq 0 n) with
  | 0 => perm_nil nat
  | S n' =>
      eq_ind_r (fun l => Permutation (positions (left_to_right n') ++ [n']) l)
               (Permutation_app_tail [n'] (left_to_right_complete n'))
               (seq_S n' 0)
  end.

#[global] Instance in_order : Reduce := {|
  sum_order := left_to_right;
  squares_order := left_to_right;
  sum_order_complete := left_to_right_complete;
  squares_order_complete := left_to_right_complete
|}.

Section Standardize.

Context {F : Type} {A64 : Float64 F} {Rd : Reduce}.

(** The value an order of additions gives on a buffer. *)
Fixpoint run (t : Order) (buf : list F) : F :=
  match t with
  | Elem i => nth i buf zero64
  | Zero => zero64
  | Add l r => add64 (run l buf) (run r buf)
  end.

(** [np.add.reduce] over a whole buffer. *)
Definition reduce (order : nat -> Order) (l : list F) : F :=
  run (order (length l)) l.

(** [a.astype(float)], implicit in [ndarray - ndarray.mean()] on the
    [uint8] images. *)
Definition astype_float (a : ndarray byte) : ndarray F :=
  mk_ndarray (shape a) (map (fun b => count64 (Z.to_nat (uint8 b))) (data a)).

(** The sum of all elements over their number. *)
Definition mean_by (order : nat -> Order) (a : ndarray F) : F :=
  div64 (reduce order (data a)) (count64 (size a)).

(** [a.mean()] *)
Definition mean (a : ndarray F) : F := mean_by sum_order a.

(** [a - m] and [a / d] with a scalar right operand (broadcasting). *)
Definition sub_scalar (a : ndarray F) (m : F) : ndarray F :=
  mk_ndarray (shape a) (map (fun v => sub64 v m) (data a)).

Definition div_scalar (a : ndarray F) (d : F) : ndarray F :=
  mk_ndarray (shape a) (map (fun v => div64 v d) (data a)).

Definition square (a : ndarray F) : ndarray F :=
  mk_ndarray (shape a) (map (fun v => mul64 v v) (data a)).

(** [a.var()]: the mean of the squared deviations from the mean. *)
Definition var (a : ndarray F) : F :=
  mean_by squares_order (square (sub_scalar a (mean a))).

Definition standardize (ndarray : ndarray F) : Np.ndarray F :=
  div_scalar (sub_scalar ndarray (mean ndarray))
             (sqrt64 (add64 (var ndarray) eps64)).

End Standardize.

(** The binary64 number of a whole number v with 1 <= v < 2^53, as the
    specification of the primitive floats writes it: a mantissa of 53
    bits and its exponent. *)
Definition canon (v : Z) : SpecFloat.spec_float :=
  SpecFloat.S754_finite false
    (Z.to_pos (v * 2 ^ (52 - Z.log2 v))) (Z.log2 v - 52).

Definition spec_of_Z (v : Z) : SpecFloat.spec_float :=
  if (v =? 0)%Z then SpecFloat.S754_zero false else canon v.

(** [X.reshape(-1, 1, 28, 28)] *)
Definition reshape_images {A} (X : ndarray A) : result (ndarray A) :=
  reshape X [Infer; Dim 1; Dim 28; Dim 28].

(** The inverse view, [X.reshape(-1, 784)]. *)
Definition flatten_images {A} (X : ndarray A) : result (ndarray A) :=
  reshape X [Infer; Dim 784].

(** A constant two-by-two array of reals, and a constant array of three
    binary64 numbers, each the double nearest to 0.1. *)
Definition demo_constant : ndarray R := mk_ndarray [2; 2] [7; 7; 7; 7]%R.

#[warnings="-inexact-float"]
Definition demo_tenths : ndarray PrimFloat.float :=
  mk_ndarray [3] [0.1; 0.1; 0.1]%float.

(** One white image, as [load_fmnist] returns it. *)
Definition demo_white : ndarray byte := mk_ndarray [1; 784] (repeat xff 784).

(** One flat image whose pixel k holds k. *)
Definition demo_flat : ndarray nat := mk_ndarray [1; 784]%nat (seq 0 784).

End Preprocessor.

(* ================================================================== *)
(** * Cell "Create Train & Test Datasets": the batched loaders *)
(* ================================================================== *)

Module DataLoader.

(** Modelled from the spec: [torch.utils.data.DataLoader] is a library
    class whose code is not part of the notebook.  The notebook builds
    it with [batch_size=4, shuffle=True] and leaves [drop_last] at its
    default.  Following the description of the batch iterator, one
    epoch draws a permutation [sampler] of the sample indices and
    yields consecutive slices of [batch_size] indices until the
    permutation is exhausted; the remainder, when there is one, is
    yielded as a last shorter batch unless [drop_last] is set.  The
    slices are collected the way a batch sampler does it: indices are
    appended to [batch], which is yielded and emptied when full. *)
Fixpoint batch_sampler (batch_size : nat) (drop_last : bool)
         (sampler : list nat) (batch : list nat) : list (list nat) :=
  match sampler with
  | [] =>
      if (0 <? length batch) && negb drop_last then [batch] else []
  | idx :: rest =>
      let batch' := batch ++ [idx] in
      if length batch' =? batch_size
      then batch' :: batch_sampler batch_size drop_last rest []
      else batch_sampler batch_size drop_last rest batch'
  end.

(** The notebook's configuration. *)
Definition batch_size : nat := 4.

(** Modelled from the spec: the index batches of one epoch of
    [train_loader] or [test_loader], for the permutation the shuffle
    of that epoch produced. *)
Definition epoch_batches (B : nat) (permutation : list nat) : list (list nat) :=
  batch_sampler B false permutation [].

(** The shuffle of an epoch over [N] samples. *)
Definition shuffle_of (N : nat) (permutation : list nat) : Prop :=
  Permutation permutation (seq 0 N).

(** The number of batches of an epoch that contain index [i]. *)
Definition batches_with (i : nat) (batches : list (list nat)) : nat :=
  length (filter (fun b => existsb (Nat.eqb i) b) batches).

(** The sizes of the batches: full batches first, the remainder last. *)
Definition batch_sizes (B total : nat) : list nat :=
  repeat B (total / B) ++ (if total mod B =? 0 then [] else [total mod B]).

(** A shuffle of ten samples. *)
Definition demo_permutation : list nat := rev (seq 0 10).

End DataLoader.


(* ================================================================== *)
(** * PyTorch: tensors and the layers of [torch.nn] the notebook uses *)
(* ================================================================== *)

Module Torch.

Import Np.

(** The arithmetic of tensor elements.  The layers and the loops below
    use nothing but these operations and assume no law about them, so
    they cover [float32] arithmetic as well as exact arithmetic. *)
Class Scalar (F : Type) : Type := {
  f0 : F;
  fadd : F -> F -> F;
  fmul : F -> F -> F;
  fltb : F -> F -> bool;
  fdiv_int : F -> Z -> F
}.

(** Integers as scalars, to run the definitions on examples. *)
#[global] Instance Scalar_Z : Scalar Z := {|
  f0 := 0%Z;
  fadd := Z.add;
  fmul := Z.mul;
  fltb := Z.ltb;
  fdiv_int := Z.div
|}.

(** A contiguous tensor has the layout of a NumPy array;
    [torch.from_numpy] shares it. *)
Definition Tensor (F : Type) : Type := ndarray F.

Section Layers.

Context {F : Type} {SF : Scalar F}.

Definition fmax (a b : F) : F := if fltb a b then b else a.

(** [F.relu]: every element x becomes x if 0 < x and 0 otherwise. *)
Definition relu_scalar (v : F) : F := if fltb f0 v then v else f0.

Definition relu (x : Tensor F) : Tensor F :=
  mk_ndarray (shape x) (map relu_scalar (data x)).

(** [x.view(shape)]: [reshape] on a contiguous tensor, failing with
    torch's [RuntimeError]. *)
Definition view (x : Tensor F) (newshape : list dim) : result (Tensor F) :=
  match reshape x newshape with
  | Ok y => Ok y
  | Raise _ => Raise RuntimeError
  end.

(** [nn.Conv2d(in_channels, out_channels, kernel_size)]: stride 1, no
    padding; [weight] has shape (out, in, k, k) and [bias] shape (out). *)
Record Conv2d : Type := mk_Conv2d {
  in_channels : nat;
  out_channels : nat;
  kernel_size : nat;
  weight : list F;
  bias : list F
}.

(** Output element (b, o, i, j): the bias of channel o plus the products
    of the kernel of channel o with the window of the input at (i, j). *)
Definition conv_at (c : Conv2d) (x : Tensor F) (C H W b o i j : nat) : F :=
  let k := kernel_size c in
  fold_left fadd
    (flat_map (fun ci =>
       flat_map (fun di =>
         map (fun dj =>
                fmul (nth (((o * C + ci) * k + di) * k + dj) (weight c) f0)
                     (nth (((b * C + ci) * H + (i + di)) * W + (j + dj)) (data x) f0))
             (seq 0 k))
         (seq 0 k))
       (seq 0 C))
    (nth o (bias c) f0).

(** The forward pass of the layer on a batch, a tensor of four axes.
    On a tensor of another number of axes [F.conv2d] of the PyTorch
    release the notebook is written for raises [ValueError] before
    anything else. *)
Definition Conv2d_forward (c : Conv2d) (x : Tensor F) : result (Tensor F) :=
  match shape x with
  | [B; C; H; W] =>
      let k := kernel_size c in
      if (C =? in_channels c) && (k <=? H) && (k <=? W) then
        let H' := H - k + 1 in
        let W' := W - k + 1 in
        Ok (mk_ndarray [B; out_channels c; H'; W']
              (flat_map (fun b =>
                 flat_map (fun o =>
                   flat_map (fun i =>
                     map (fun j => conv_at c x C H W b o i j) (seq 0 W'))
                     (seq 0 H'))
                   (seq 0 (out_channels c)))
                 (seq 0 B)))
      else Raise RuntimeError
  | _ => Raise ValueError
  end.

(** [nn.MaxPool2d(kernel_size, stride)], no padding. *)
Record MaxPool2d : Type := mk_MaxPool2d {
  pool_kernel_size : nat;
  pool_stride : nat
}.

Definition pool_at (p : MaxPool2d) (x : Tensor F) (C H W b c i j : nat) : F :=
  let k := pool_kernel_size p in
  let s := pool_stride p in
  let window :=
    flat_map (fun di =>
      map (fun dj => nth (((b * C + c) * H + (i * s + di)) * W + (j * s + dj)) (data x) f0)
          (seq 0 k))
      (seq 0 k) in
  match window with
  | [] => f0
  | v :: rest => fold_left fmax rest v
  end.

Definition MaxPool2d_forward (p : MaxPool2d) (x : Tensor F) : result (Tensor F) :=
  match shape x with
  | [B; C; H; W] =>
      let k := pool_kernel_size p in
      let s := pool_stride p in
      if (k <=? H) && (k <=? W) && (0 <? s) then
        let H' := (H - k) / s + 1 in
        let W' := (W - k) / s + 1 in
        Ok (mk_ndarray [B; C; H'; W']
              (flat_map (fun b =>
                 flat_map (fun c =>
                   flat_map (fun i =>
                     map (fun j => pool_at p x C H W b c i j) (seq 0 W'))
                     (seq 0 H'))
                   (seq 0 C))
                 (seq 0 B)))
      else Raise RuntimeError
  | _ => Raise RuntimeError
  end.

(** [nn.Linear(in_features, out_features)]: [lweight] has shape
    (out, in) and [lbias] shape (out). *)
Record Linear : Type := mk_Linear {
  in_features : nat;
  out_features : nat;
  lweight : list F;
  lbias : list F
}.

Definition linear_at (l : Linear) (x : Tensor F) (b o : nat) : F :=
  let n := in_features l in
  fold_left fadd
    (map (fun k => fmul (nth (b * n + k) (data x) f0)
                        (nth (o * n + k) (lweight l) f0))
         (seq 0 n))
    (nth o (lbias l) f0).

Definition Linear_forward (l : Linear) (x : Tensor F) : result (Tensor F) :=
  match shape x with
  | [B; n] =>
      if n =? in_features l then
        Ok (mk_ndarray [B; out_features l]
              (flat_map (fun b =>
                 map (fun o => linear_at l x b o) (seq 0 (out_features l)))
                 (seq 0 B)))
      else Raise RuntimeError
  | _ => Raise RuntimeError
  end.

(** [torch.max(outputs, 1)[1]]: for each row the index of its largest
    element, the first one among equals. *)
Fixpoint argmax_from (row : list F) (i : nat) (best : F) (best_i : nat) : nat :=
  match row with
  | [] => best_i
  | v :: rest =>
      if fltb best v then argmax_from rest (S i) v i
      else argmax_from rest (S i) best best_i
  end.

Definition argmax (row : list F) : nat :=
  match row with
  | [] => 0
  | v :: rest => argmax_from rest 1 v 0
  end.

Definition argmax_rows (x : Tensor F) : result (list nat) :=
  match shape x with
  | [B; n] =>
      Ok (map (fun b => argmax (firstn n (skipn (b * n) (data x)))) (seq 0 B))
  | _ => Raise RuntimeError
  end.

End Layers.

Arguments Conv2d F : clear implicits.
Arguments MaxPool2d : clear implicits.
Arguments Linear F : clear implicits.

End Torch.

(* ================================================================== *)
(** * Cell "Convolutional Neural Network": class [CNN] *)
(* ================================================================== *)

Module Model.

Import Np Torch.
Local Open Scope py_scope.

Section CNN.

Context {F : Type} {SF : Scalar F}.

(** [cnn.parameters()]: the weights and biases of the four layers. *)
Record Parameters : Type := mk_Parameters {
  conv1_weight : list F;
  conv1_bias : list F;
  conv2_weight : list F;
  conv2_bias : list F;
  fc1_weight : list F;
  fc1_bias : list F;
  fc2_weight : list F;
  fc2_bias : list F
}.

Record CNN : Type := mk_CNN {
  conv1 : Conv2d F;
  pool1 : MaxPool2d;
  conv2 : Conv2d F;
  pool2 : MaxPool2d;
  fc1 : Linear F;
  fc2 : Linear F
}.

(** [CNN.__init__], for given values of the parameters. *)
Definition CNN_init (p : Parameters) : CNN := {|
  conv1 := mk_Conv2d 1 10 5 (conv1_weight p) (conv1_bias p);
  pool1 := mk_MaxPool2d 2 2;
  conv2 := mk_Conv2d 10 20 5 (conv2_weight p) (conv2_bias p);
  pool2 := mk_MaxPool2d 2 2;
  fc1 := mk_Linear 320 50 (fc1_weight p) (fc1_bias p);
  fc2 := mk_Linear 50 10 (fc2_weight p) (fc2_bias p)
|}.

(** [CNN.forward] *)
Definition forward (self : CNN) (x : Tensor F) : result (Tensor F) :=
  c1 <- Conv2d_forward (conv1 self) x ;;
  x <- MaxPool2d_forward (pool1 self) (relu c1) ;;
  c2 <- Conv2d_forward (conv2 self) x ;;
  x <- MaxPool2d_forward (pool2 self) (relu c2) ;;
  x <- view x [Dim (len x); Infer] ;;
  h <- Linear_forward (fc1 self) x ;;
  let x := relu h in
  s <- Linear_forward (fc2 self) x ;;
  let x := relu s in
  Ok x.

(** The value of [x] in [forward] after the line of [fc1]. *)
Definition hidden (self : CNN) (x : Tensor F) : result (Tensor F) :=
  c1 <- Conv2d_forward (conv1 self) x ;;
  x <- MaxPool2d_forward (pool1 self) (relu c1) ;;
  c2 <- Conv2d_forward (conv2 self) x ;;
  x <- MaxPool2d_forward (pool2 self) (relu c2) ;;
  x <- view x [Dim (len x); Infer] ;;
  h <- Linear_forward (fc1 self) x ;;
  Ok (relu h).

(** Row [b] of a two-axis tensor with [n] columns. *)
Definition row (n b : nat) (x : Tensor F) : list F :=
  firstn n (skipn (b * n) (data x)).

(** The forward pass as the specification words it: the same chain of
    layers, returning the output of the last fully-connected layer as it
    is. *)
Definition spec_forward (self : CNN) (x : Tensor F) : result (Tensor F) :=
  c1 <- Conv2d_forward (conv1 self) x ;;
  x <- MaxPool2d_forward (pool1 self) (relu c1) ;;
  c2 <- Conv2d_forward (conv2 self) x ;;
  x <- MaxPool2d_forward (pool2 self) (relu c2) ;;
  x <- view x [Dim (len x); Infer] ;;
  h <- Linear_forward (fc1 self) x ;;
  Linear_forward (fc2 self) (relu h).

End CNN.

Arguments Parameters F : clear implicits.
Arguments CNN F : clear implicits.

(** Parameters that are zero except for the bias [b] of the last layer,
    and a batch of [B] black images. *)
Definition demo_parameters (b : Z) : Parameters Z := {|
  conv1_weight := repeat 0%Z (10 * 1 * 5 * 5);
  conv1_bias := repeat 0%Z 10;
  conv2_weight := repeat 0%Z (20 * 10 * 5 * 5);
  conv2_bias := repeat 0%Z 20;
  fc1_weight := repeat 0%Z (50 * 320);
  fc1_bias := repeat 0%Z 50;
  fc2_weight := repeat 0%Z (10 * 50);
  fc2_bias := repeat b 10
|}.

Definition demo_images (B : nat) : Tensor Z :=
  mk_ndarray [B; 1; 28; 28] (repeat 0%Z (B * 784)).

End Model.

(* ================================================================== *)
(** * Cells "Train Model" and "Total Accuracy & Accuracy By Class" *)
(* ================================================================== *)

Module Notebook.

Import Np Torch Model.

(** What the cells print, before formatting. *)
Inductive Line (F : Type) : Type :=
| LossLine (epoch batch : Z) (loss : F)
| TrainingComplete
| AccuracyLine (total percent : Z)
| ClassLine (class : string) (percent : Z).

Arguments LossLine {F} epoch batch loss.
Arguments TrainingComplete {F}.
Arguments AccuracyLine {F} total percent.
Arguments ClassLine {F} class percent.

(** A batch a loader yields: the stacked images and their labels. *)
Record Batch (F : Type) : Type := mk_Batch {
  inputs : Tensor F;
  labels : list nat
}.

Arguments mk_Batch {F} inputs labels.
Arguments inputs {F} b.
Arguments labels {F} b.

(** The library code the training loop drives and the notebook does not
    contain: the loss [nn.CrossEntropyLoss()], and the gradient buffers
    and momentum state [Autograd] that [optimizer.zero_grad()],
    [loss.backward()] and [optimizer.step()] of
    [optim.SGD(cnn.parameters(), lr=0.001, momentum=0.9)] act on. *)
Class Backend (F : Type) : Type := {
  Autograd : Type;
  criterion : Tensor F -> list nat -> result F;
  optimizer_zero_grad : Autograd -> Autograd;
  loss_backward : Parameters F -> Batch F -> Autograd -> Autograd;
  optimizer_step : Parameters F -> Autograd -> Parameters F * Autograd
}.

Section Cells.

Context {F : Type} {SF : Scalar F} {T : Backend F}.

(** The global variables of the notebook the two cells read and write.
    The per-class counters are Python floats that only ever hold whole
    numbers; they are kept as integers. *)
Record State : Type := mk_State {
  cnn : Parameters F;
  autograd : Autograd;
  running_loss : F;
  correct : Z;
  total : Z;
  correct_class : list Z;
  total_class : list Z;
  stdout : list (Line F)
}.

Definition set_model (p : Parameters F) (a : Autograd) (s : State) : State :=
  mk_State p a (running_loss s) (correct s) (total s)
           (correct_class s) (total_class s) (stdout s).

Definition set_autograd (a : Autograd) (s : State) : State :=
  set_model (cnn s) a s.

Definition set_running_loss (v : F) (s : State) : State :=
  mk_State (cnn s) (autograd s) v (correct s) (total s)
           (correct_class s) (total_class s) (stdout s).

Definition set_correct (v : Z) (s : State) : State :=
  mk_State (cnn s) (autograd s) (running_loss s) v (total s)
           (correct_class s) (total_class s) (stdout s).

Definition set_total (v : Z) (s : State) : State :=
  mk_State (cnn s) (autograd s) (running_loss s) (correct s) v
           (correct_class s) (total_class s) (stdout s).

Definition set_correct_class (v : list Z) (s : State) : State :=
  mk_State (cnn s) (autograd s) (running_loss s) (correct s) (total s)
           v (total_class s) (stdout s).

Definition set_total_class (v : list Z) (s : State) : State :=
  mk_State (cnn s) (autograd s) (running_loss s) (correct s) (total s)
           (correct_class s) v (stdout s).

Definition set_stdout (v : list (Line F)) (s : State) : State :=
  mk_State (cnn s) (autograd s) (running_loss s) (correct s) (total s)
           (correct_class s) (total_class s) v.

(** A statement: it changes the globals and completes or raises.  The
    globals keep the changes made before an exception. *)
Definition Cell (A : Type) : Type := State -> State * result A.

Definition ret {A} (a : A) : Cell A := fun s => (s, Ok a).

Definition bind {A B} (m : Cell A) (k : A -> Cell B) : Cell B :=
  fun s =>
    match m s with
    | (s', Ok a) => k a s'
    | (s', Raise e) => (s', Raise e)
    end.

Definition lift {A} (r : result A) : Cell A := fun s => (s, r).

Definition get : Cell State := fun s => (s, Ok s).

Definition modify (f : State -> State) : Cell unit := fun s => (f s, Ok tt).

Definition print (l : Line F) : Cell unit :=
  modify (fun s => set_stdout (stdout s ++ [l]) s).

Fixpoint for_each {X} (l : list X) (body : X -> Cell unit) : Cell unit :=
  match l with
  | [] => ret tt
  | x :: rest => bind (body x) (fun _ => for_each rest body)
  end.

(** [enumerate(l, start)] *)
Fixpoint enumerate {X} (l : list X) (start : Z) : list (Z * X) :=
  match l with
  | [] => []
  | x :: rest => (start, x) :: enumerate rest (start + 1)
  end.

(** [a % b] on integers: the sign of the divisor, as [Z.modulo]. *)
Definition py_mod (a b : Z) : result Z :=
  if (b =? 0)%Z then Raise ZeroDivisionError else Ok (a mod b)%Z.

(** [a / b] printed with [%d]: the quotient, truncated. *)
Definition py_div_percent (a b : Z) : result Z :=
  if (b =? 0)%Z then Raise ZeroDivisionError else Ok (Z.quot a b).

(** [l[i]] and [l[i] = v] on a Python list or a one-axis tensor. *)
Definition list_getitem {X} (l : list X) (i : nat) : result X :=
  match nth_error l i with
  | Some v => Ok v
  | None => Raise IndexError
  end.

Definition list_setitem {X} (l : list X) (i : nat) (v : X) : list X :=
  firstn i l ++ v :: skipn (S i) l.

(** [predicted == labels]: 1 where the entries agree and 0 elsewhere; the
    sizes must agree. *)
Definition tensor_eq (predicted labels : list nat) : result (list Z) :=
  if length predicted =? length labels
  then Ok (map (fun pl => if fst pl =? snd pl then 1%Z else 0%Z)
               (combine predicted labels))
  else Raise RuntimeError.

Definition tensor_sum (c : list Z) : Z := fold_left Z.add c 0%Z.

Notation "x <- c1 ;; c2" := (bind c1 (fun x => c2))
  (at level 61, c1 at next level, right associativity).
Notation "c1 ;; c2" := (bind c1 (fun _ => c2))
  (at level 61, right associativity).

(** [cnn(inputs)] with the current parameters. *)
Definition call_cnn (x : Tensor F) : Cell (Tensor F) :=
  fun s => (s, forward (CNN_init (cnn s)) x).

(** One pass of the body of the training loop. *)
Definition train_batch (minibatches epoch : Z) (i : Z) (data : Batch F) : Cell unit :=
  modify (fun s => set_autograd (optimizer_zero_grad (autograd s)) s) ;;
  outputs <- call_cnn (inputs data) ;;
  loss <- lift (criterion outputs (labels data)) ;;
  modify (fun s => set_autograd (loss_backward (cnn s) data (autograd s)) s) ;;
  modify (fun s => let (p, a) := optimizer_step (cnn s) (autograd s) in
                   set_model p a s) ;;
  modify (fun s => set_running_loss (fadd (running_loss s) loss) s) ;;
  r <- lift (py_mod i minibatches) ;;
  if (r =? minibatches - 1)%Z then
    s <- get ;;
    print (LossLine (epoch + 1) (i + 1) (fdiv_int (running_loss s) minibatches)) ;;
    modify (set_running_loss f0)
  else ret tt.

(** The body of [for epoch in range(nb_epochs)]. *)
Definition train_epoch (minibatches : Z) (train_loader : list (Batch F)) (epoch : Z)
  : Cell unit :=
  modify (set_running_loss f0) ;;
  for_each (enumerate train_loader 0)
           (fun id => train_batch minibatches epoch (fst id) (snd id)).

(** The cell "Train Model"; [train_loader epoch] is the sequence of
    batches the loader yields the [epoch]-th time it is iterated. *)
Definition train (nb_epochs : nat) (minibatches : Z)
  (train_loader : nat -> list (Batch F)) : Cell unit :=
  for_each (seq 0 nb_epochs)
           (fun epoch => train_epoch minibatches (train_loader epoch) (Z.of_nat epoch)) ;;
  print TrainingComplete.

Definition nb_epochs : nat := 3.
Definition minibatches : Z := 5000.

Definition classes : list string :=
  ["t-shirt"; "trouser"; "pullover"; "dress"; "coat";
   "sandal"; "shirt"; "sneaker"; "bag"; "ankle-boot"]%string.

(** One pass of [for i in range(4)]. *)
Definition count_sample (labels : list nat) (c : list Z) (i : nat) : Cell unit :=
  label <- lift (list_getitem labels i) ;;
  s <- get ;;
  old <- lift (list_getitem (correct_class s) label) ;;
  ci <- lift (list_getitem c i) ;;
  modify (fun s => set_correct_class
                     (list_setitem (correct_class s) label (old + ci)%Z) s) ;;
  s <- get ;;
  old <- lift (list_getitem (total_class s) label) ;;
  modify (fun s => set_total_class
                     (list_setitem (total_class s) label (old + 1)%Z) s).

(** [counts[label] += v] *)
Definition bump (counts : list Z) (label : nat) (v : Z) : list Z :=
  list_setitem counts label (nth label counts 0 + v)%Z.

(** The globals after one pass of [for i in range(4)] that completes. *)
Definition count_one (labels : list nat) (c : list Z) (s : State) (i : nat) : State :=
  match nth_error labels i, nth_error c i with
  | Some label, Some ci =>
      set_total_class (bump (total_class s) label 1)
        (set_correct_class (bump (correct_class s) label ci) s)
  | _, _ => s
  end.

(** The per-class counters have one entry per class. *)
Definition ten_classes (s : State) : Prop :=
  length (correct_class s) = 10 /\ length (total_class s) = 10.

(** The body of [for data in test_loader] after the forward pass.
    [predicted] and [labels] have one axis, which [squeeze] leaves as it
    is, so [c] is the tensor of matches itself; on a batch of a single
    sample too, in the PyTorch release the notebook is written for,
    which has no tensor without axes. *)
Definition tally (data : Batch F) (outputs : Tensor F) : Cell unit :=
  predicted <- lift (argmax_rows outputs) ;;
  modify (fun s => set_total (total s + Z.of_nat (length (labels data)))%Z s) ;;
  c <- lift (tensor_eq predicted (labels data)) ;;
  modify (fun s => set_correct (correct s + tensor_sum c)%Z s) ;;
  for_each (seq 0 4) (count_sample (labels data) c).

(** One pass of [for data in test_loader]. *)
Definition evaluate_batch (data : Batch F) : Cell unit :=
  outputs <- call_cnn (inputs data) ;;
  tally data outputs.

Definition report_class (i : nat) : Cell unit :=
  s <- get ;;
  name <- lift (list_getitem classes i) ;;
  cc <- lift (list_getitem (correct_class s) i) ;;
  tc <- lift (list_getitem (total_class s) i) ;;
  percent <- lift (py_div_percent (100 * cc) tc) ;;
  print (ClassLine name percent).

(** The cell "Total Accuracy & Accuracy By Class". *)
Definition evaluate (test_loader : list (Batch F)) : Cell unit :=
  modify (set_correct 0%Z) ;;
  modify (set_total 0%Z) ;;
  modify (set_correct_class (repeat 0%Z 10)) ;;
  modify (set_total_class (repeat 0%Z 10)) ;;
  for_each test_loader evaluate_batch ;;
  s <- get ;;
  percent <- lift (py_div_percent (100 * correct s) (total s)) ;;
  print (AccuracyLine (total s) percent) ;;
  for_each (seq 0 10) report_class.

(** The training loop as the specification words it: the accumulator of
    the running loss is reset when a report is emitted and at no other
    moment. *)
Definition spec_train_epoch (minibatches : Z) (train_loader : list (Batch F))
  (epoch : Z) : Cell unit :=
  for_each (enumerate train_loader 0)
           (fun id => train_batch minibatches epoch (fst id) (snd id)).

Definition spec_train (nb_epochs : nat) (minibatches : Z)
  (train_loader : nat -> list (Batch F)) : Cell unit :=
  modify (set_running_loss f0) ;;
  for_each (seq 0 nb_epochs)
           (fun epoch => spec_train_epoch minibatches (train_loader epoch)
                                          (Z.of_nat epoch)) ;;
  print TrainingComplete.

(** What one pass of the training loop does to the model, and the loss
    it computes: the first five statements of the body. *)
Definition sgd_step (data : Batch F) (pa : Parameters F * Autograd)
  : (Parameters F * Autograd) * result F :=
  let a := optimizer_zero_grad (snd pa) in
  match forward (CNN_init (fst pa)) (inputs data) with
  | Raise e => ((fst pa, a), Raise e)
  | Ok outputs =>
      match criterion outputs (labels data) with
      | Raise e => ((fst pa, a), Raise e)
      | Ok loss =>
          (optimizer_step (fst pa) (loss_backward (fst pa) data a), Ok loss)
      end
  end.

(** The losses of the batches of an epoch, in order. *)
Fixpoint epoch_losses (train_loader : list (Batch F)) (pa : Parameters F * Autograd)
  : (Parameters F * Autograd) * result (list F) :=
  match train_loader with
  | [] => (pa, Ok [])
  | data :: rest =>
      match sgd_step data pa with
      | (pa1, Raise e) => (pa1, Raise e)
      | (pa1, Ok loss) =>
          match epoch_losses rest pa1 with
          | (pa2, Raise e) => (pa2, Raise e)
          | (pa2, Ok losses) => (pa2, Ok (loss :: losses))
          end
      end
  end.

(** The bookkeeping of the loop on the losses alone: the lines printed
    and the accumulator left, from batch index [i] and accumulator
    [acc]. *)
Fixpoint report_scan (m epoch i : Z) (acc : F) (losses : list F)
  : list (Line F) * F :=
  match losses with
  | [] => ([], acc)
  | loss :: rest =>
      let acc' := fadd acc loss in
      if (i mod m =? m - 1)%Z then
        let (out, a) := report_scan m epoch (i + 1) f0 rest in
        (LossLine (epoch + 1) (i + 1) (fdiv_int acc' m) :: out, a)
      else report_scan m epoch (i + 1) acc' rest
  end.

(** The sum of a run of losses, accumulated from zero in order. *)
Definition accumulate (losses : list F) : F := fold_left fadd losses f0.

(** The [k]-th run of [m] consecutive losses. *)
Definition interval (m : Z) (k : nat) (losses : list F) : list F :=
  firstn (Z.to_nat m) (skipn (k * Z.to_nat m) losses).

(** The report lines of an epoch with the given losses, when [q * m]
    batches came before them: one for each full run of [m] batches,
    carrying the epoch counted from 1, the number of batches done and
    the mean loss of the run. *)
Definition interval_lines (m epoch q : Z) (losses : list F) : list (Line F) :=
  map (fun k => LossLine (epoch + 1) ((q + Z.of_nat (S k)) * m)
                         (fdiv_int (accumulate (interval m k losses)) m))
      (seq 0 (length losses / Z.to_nat m)).

(** The accumulator after these losses: the losses after the last full
    run. *)
Definition pending_loss (m : Z) (losses : list F) : F :=
  accumulate (skipn (length losses / Z.to_nat m * Z.to_nat m) losses).

(** A statement that leaves the parameters of the model, their gradient
    buffers and the optimizer state as they are. *)
Definition keeps_model {A} (m : Cell A) : Prop :=
  forall s, cnn (fst (m s)) = cnn s /\ autograd (fst (m s)) = autograd s.

End Cells.

Arguments State F {T}.
Arguments Cell F {T} A.

(** A stand-in for the library: a loss of 1 on every batch and an
    optimizer that counts its steps and leaves the parameters alone. *)
#[global] Instance demo_backend : Backend Z := {|
  Autograd := nat;
  criterion := fun _ _ => Ok 1%Z;
  optimizer_zero_grad := fun a => a;
  loss_backward := fun _ _ a => a;
  optimizer_step := fun p a => (p, S a)
|}.

Definition demo_state : State Z :=
  mk_State (demo_parameters 0) 0 0%Z 0%Z 0%Z [] [] [].

(** A batch of black images with the given labels. *)
Definition demo_batch (labels : list nat) : Batch Z :=
  mk_Batch (demo_images (length labels)) labels.

(** A loader of three batches of one image, and one of a single batch. *)
Definition demo_loader3 : list (Batch Z) :=
  [demo_batch [0]; demo_batch [1]; demo_batch [2]].

Definition demo_loader1 (epoch : nat) : list (Batch Z) := [demo_batch [0]].

End Notebook.

(* ================================================================== *)
(** * Further cells and inputs *)
(* ================================================================== *)

Module Extra.

Import Np.

(** A file system holding only the label file of [Reader.demo_fs]. *)
Definition labels_only_fs : Reader.filesystem :=
  fun p =>
    if String.eqb p "data/train-labels-idx1-ubyte.gz"
    then Ok Reader.demo_labels_file
    else Raise OSError.

(** A file system where the label file is cut short and the image file
    has a corrupt stream. *)
Definition damaged_fs : Reader.filesystem :=
  fun p =>
    if String.eqb p "data/train-labels-idx1-ubyte.gz"
    then Raise EOFError
    else Raise zlib_error.

(** A file system where the label file holds four bytes only and there
    is no image file. *)
Definition short_labels_fs : Reader.filesystem :=
  fun p =>
    if String.eqb p "data/train-labels-idx1-ubyte.gz"
    then Ok (repeat x00 4)
    else Raise OSError.

(** Two rows of two pixels. *)
Definition demo_pixels : ndarray R := mk_ndarray [2; 2] [1; 2; 3; 6]%R.

(** The extent of an axis of the images after the two convolutions (kernel
    5) and the two poolings (kernel 2, stride 2) of [CNN.forward]. *)
Definition pooled (n : nat) : nat :=
  ((n - 5 + 1 - 2) / 2 + 1 - 5 + 1 - 2) / 2 + 1.

(** A batch of one image with three channels. *)
Definition demo_rgb : Torch.Tensor Z :=
  mk_ndarray [1; 3; 28; 28] (repeat 0%Z (3 * 784)).

(** Batches of [B] black images of 32 by 32 pixels. *)
Definition demo_images32 (B : nat) : Torch.Tensor Z :=
  mk_ndarray [B; 1; 32; 32] (repeat 0%Z (B * 1024)).

End Extra.

(* ================================================================== *)
(** * Cells "View Sample Images" and "How'd We Do?": the printed labels *)
(* ================================================================== *)

Module Display.

Import Np Torch Model.
Local Open Scope py_scope.

(** [sep.join(l)] *)
Fixpoint join (sep : string) (l : list string) : string :=
  match l with
  | [] => EmptyString
  | [x] => x
  | x :: rest => (x ++ sep ++ join sep rest)%string
  end.

(** [classes[labels[i]]] *)
Definition class_name (labels : list nat) (i : nat) : result string :=
  label <- Notebook.list_getitem labels i ;;
  Notebook.list_getitem Notebook.classes label.

(** [f(i) for i in l], consumed in order. *)
Fixpoint generate {X Y} (f : X -> result Y) (l : list X) : result (list Y) :=
  match l with
  | [] => Ok []
  | i :: rest =>
      y <- f i ;;
      ys <- generate f rest ;;
      Ok (y :: ys)
  end.

(** [' '.join('%s' % classes[labels[i]] for i in range(4))], the text
    the cells print for the labels of a batch and for the guesses. *)
Definition names_line (labels : list nat) : result string :=
  names <- generate (class_name labels) (seq 0 4) ;;
  Ok (join " " names).

Section Guess.

Context {F : Type} {SF : Scalar F}.

(** [guess = torch.max(cnn(Variable(test_images)), 1)[1].data] *)
Definition guess (p : Parameters F) (test_images : Tensor F) : result (list nat) :=
  outputs <- forward (CNN_init p) test_images ;;
  argmax_rows outputs.

(** The cell that prints the guesses. *)
Definition print_guess (p : Parameters F) (test_images : Tensor F) : result string :=
  g <- guess p test_images ;;
  names_line g.

End Guess.

End Display.

(* ================================================================== *)
(** * The training cell over all its epochs *)
(* ================================================================== *)

Module Training.

Import Np Torch Model Notebook.

Section Epochs.

Context {F : Type} {SF : Scalar F} {T : Backend F}.

(** The losses of the batches of each epoch, epoch after epoch. *)
Fixpoint training_losses (epochs : list nat) (train_loader : nat -> list (Batch F))
  (pa : Parameters F * Autograd)
  : (Parameters F * Autograd) * result (list (list F)) :=
  match epochs with
  | [] => (pa, Ok [])
  | epoch :: rest =>
      match epoch_losses (train_loader epoch) pa with
      | (pa1, Raise e) => (pa1, Raise e)
      | (pa1, Ok losses) =>
          match training_losses rest train_loader pa1 with
          | (pa2, Raise e) => (pa2, Raise e)
          | (pa2, Ok all) => (pa2, Ok (losses :: all))
          end
      end
  end.

(** The report lines of these epochs, in the order they are printed. *)
Definition training_lines (m : Z) (epochs : list nat) (all : list (list F))
  : list (Line F) :=
  concat (map (fun el => interval_lines m (Z.of_nat (fst el)) 0 (snd el))
              (combine epochs all)).

(** The outcome of a cell without its value. *)
Definition outcome {A} (r : result A) : result unit :=
  match r with
  | Ok _ => Ok tt
  | Raise e => Raise e
  end.

End Epochs.

(** A batch whose images have three channels. *)
Definition demo_bad_batch : Batch Z := mk_Batch Extra.demo_rgb [0].

End Training.

(* ================================================================== *)
(** * What the evaluation cell counts *)
(* ================================================================== *)

Module Scoring.

Import Np Torch Model Notebook.

(** A test sample as the cell sees it: the predicted class and the true
    label. *)
Abbreviation Sample := (nat * nat)%type.

Definition hit (pl : Sample) : bool := fst pl =? snd pl.

(** The entry of [predicted == labels] for a sample. *)
Definition match_entry (pl : Sample) : Z :=
  if fst pl =? snd pl then 1%Z else 0%Z.

(** The number of samples predicted as labelled. *)
Definition hits (l : list Sample) : Z := Z.of_nat (length (filter hit l)).

(** The samples whose true label is class [k]. *)
Definition of_class (k : nat) (l : list Sample) : list Sample :=
  filter (fun pl => snd pl =? k) l.

Definition class_total (k : nat) (l : list Sample) : Z :=
  Z.of_nat (length (of_class k l)).

Definition class_hits (k : nat) (l : list Sample) : Z := hits (of_class k l).

Section Counts.

Context {F : Type} {SF : Scalar F} {T : Backend F}.

(** The samples of a batch under the parameters [p]. *)
Definition batch_samples (p : Parameters F) (data : Batch F) : list Sample :=
  match Display.guess p (inputs data) with
  | Ok predicted => combine predicted (labels data)
  | Raise _ => []
  end.

(** The samples of a loader, and those the loop over [range(4)] visits. *)
Definition samples (p : Parameters F) (test_loader : list (Batch F)) : list Sample :=
  flat_map (batch_samples p) test_loader.

Definition counted (p : Parameters F) (test_loader : list (Batch F)) : list Sample :=
  flat_map (fun data => firstn 4 (batch_samples p data)) test_loader.

(** A batch of as many 28 by 28 images as labels, at least four of them,
    with labels among the ten classes; a batch of exactly four. *)
Definition counted_batch (data : Batch F) : Prop :=
  shape (inputs data) = [length (labels data); 1; 28; 28] /\
  4 <= length (labels data) /\
  Forall (fun l => l < 10) (labels data).

Definition full_batch (data : Batch F) : Prop :=
  shape (inputs data) = [4; 1; 28; 28] /\
  length (labels data) = 4 /\
  Forall (fun l => l < 10) (labels data).

(** One pass of [for i in range(4)] on the sample it visits. *)
Definition count_pair (s : State F) (pl : Sample) : State F :=
  set_total_class (bump (total_class s) (snd pl) 1)
    (set_correct_class (bump (correct_class s) (snd pl) (match_entry pl)) s).

(** The globals when [seen] are the samples of the batches done and
    [visited] those the inner loop visited. *)
Definition tallied (s : State F) (seen visited : list Sample) : State F :=
  mk_State (cnn s) (autograd s) (running_loss s)
    (hits seen) (Z.of_nat (length seen))
    (map (fun k => class_hits k visited) (seq 0 10))
    (map (fun k => class_total k visited) (seq 0 10))
    (stdout s).

Definition class_line (visited : list Sample) (k : nat) : Line F :=
  ClassLine (nth k classes EmptyString)
            (Z.quot (100 * class_hits k visited) (class_total k visited)).

(** The lines of [for i in range(10)] over the classes [ks], up to the
    first class without a visited sample. *)
Fixpoint class_report (ks : list nat) (visited : list Sample)
  : list (Line F) * result unit :=
  match ks with
  | [] => ([], Ok tt)
  | k :: rest =>
      if (class_total k visited =? 0)%Z then ([], Raise ZeroDivisionError)
      else let (lines, r) := class_report rest visited in
           (class_line visited k :: lines, r)
  end.

Definition accuracy_line (seen : list Sample) : Line F :=
  AccuracyLine (Z.of_nat (length seen))
               (Z.quot (100 * hits seen) (Z.of_nat (length seen))).

(** What the cell prints after its loop, and how it ends. *)
Definition report (seen visited : list Sample) : list (Line F) * result unit :=
  if (Z.of_nat (length seen) =? 0)%Z then ([], Raise ZeroDivisionError)
  else let (lines, r) := class_report (seq 0 10) visited in
       (accuracy_line seen :: lines, r).

End Counts.

(** A batch of four black images labelled with the first, and with the
    last, four classes but one; a loader where every class occurs. *)
Definition demo_loader_all : list (Batch Z) :=
  [demo_batch [0; 1; 2; 3]; demo_batch [4; 5; 6; 7]; demo_batch [8; 9; 0; 0]].

Definition demo_loader_some : list (Batch Z) :=
  [demo_batch [0; 1; 2; 3]].

Definition demo_loader_wide : list (Batch Z) :=
  [demo_batch [0; 1; 2; 3; 4; 5]].

(** The globals when an evaluation has seen three samples of class 0,
    two of them predicted as labelled. *)
Definition demo_counting_state : State Z :=
  mk_State (demo_parameters 0) 0 0%Z 2%Z 3%Z
           [2; 0; 0; 0; 0; 0; 0; 0; 0; 0]%Z
           [3; 0; 0; 0; 0; 0; 0; 0; 0; 0]%Z [].

End Scoring.
(* ================================================================== *)
(** * Properties *)
(* ================================================================== *)

Import Np.

Section ReaderProperties.

Import Reader.

Lemma frombuffer_ok (buf : list byte) (k : nat) :
  k <= length buf ->
  frombuffer buf k = Ok (mk_ndarray [length buf - k] (skipn k buf)).
Proof.
  intros H. unfold frombuffer.
  destruct (Nat.ltb_spec (length buf) k); [lia | reflexivity].
Qed.

Lemma frombuffer_short (buf : list byte) (k : nat) :
  length buf < k -> frombuffer buf k = Raise ValueError.
Proof.
  intros H. unfold frombuffer.
  destruct (Nat.ltb_spec (length buf) k); [reflexivity | lia].
Qed.

Lemma reshape_fixed_ok {A} (a : ndarray A) (n m : nat) :
  size a = n * m ->
  reshape a [Dim n; Dim m] = Ok (mk_ndarray [n; m] (data a)).
Proof.
  intros H. unfold reshape. simpl.
  replace (n * (m * 1)) with (n * m) by lia.
  rewrite <- H, Nat.eqb_refl. reflexivity.
Qed.

Lemma reshape_fixed_bad {A} (a : ndarray A) (n m : nat) :
  size a <> n * m ->
  reshape a [Dim n; Dim m] = Raise ValueError.
Proof.
  intros H. unfold reshape. simpl.
  replace (n * (m * 1)) with (n * m) by lia.
  destruct (Nat.eqb_spec (n * m) (size a)); [congruence | reflexivity].
Qed.

Variable fs : filesystem.
Variables path kind : string.
Variables lb img : list byte.
Hypothesis labels_file : fs (labels_path path kind) = Ok lb.
Hypothesis images_file : fs (images_path path kind) = Ok img.

Lemma load_fmnist_valid :
  8 <= length lb ->
  length img = 16 + 784 * (length lb - 8) ->
  load_fmnist fs path kind =
    Ok (mk_ndarray [length lb - 8; 784] (skipn 16 img),
        mk_ndarray [length lb - 8] (skipn 8 lb)).
Proof.
  intros Hl Hi. unfold load_fmnist, gzip_read.
  rewrite labels_file, images_file. simpl.
  rewrite frombuffer_ok by lia. simpl.
  rewrite frombuffer_ok by lia. simpl.
  unfold len. simpl.
  rewrite reshape_fixed_ok; [reflexivity|].
  unfold size. simpl. lia.
Qed.

Lemma load_fmnist_malformed :
  (Z.of_nat (length img) <> 16 + 784 * (Z.of_nat (length lb) - 8))%Z ->
  load_fmnist fs path kind = Raise ValueError.
Proof.
  intros Hi. unfold load_fmnist, gzip_read.
  rewrite labels_file, images_file. simpl.
  destruct (Nat.lt_ge_cases (length lb) 8) as [Hl|Hl].
  - rewrite frombuffer_short by lia. reflexivity.
  - rewrite frombuffer_ok by lia. simpl.
    destruct (Nat.lt_ge_cases (length img) 16) as [Hs|Hs].
    + rewrite frombuffer_short by lia. reflexivity.
    + rewrite frombuffer_ok by lia. simpl.
      unfold len. simpl.
      rewrite reshape_fixed_bad; [reflexivity|].
      unfold size. simpl. lia.
Qed.

End ReaderProperties.

(** C4. For a readable pair of files, [load_fmnist] returns images and
    labels of equal count, with every label between 0 and 9, when the
    files are valid; and it raises NumPy's [ValueError] (the format
    error of the reader) whenever the image file is not exactly
    16 + 784 * N bytes long for the count N = (label file length) - 8. *)
Theorem load_fmnist_contract (fs : Reader.filesystem) (path kind : string)
  (lb img : list byte) :
  fs (Reader.labels_path path kind) = Ok lb ->
  fs (Reader.images_path path kind) = Ok img ->
  (Reader.valid_files lb img ->
   exists images labels,
     Reader.load_fmnist fs path kind = Ok (images, labels) /\
     len labels = len images /\
     len labels = length lb - 8 /\
     shape images = [len labels; 784] /\
     wf images /\ wf labels /\
     Forall (fun b => (0 <= uint8 b <= 9)%Z) (data labels)) /\
  ((Z.of_nat (length img) <> 16 + 784 * (Z.of_nat (length lb) - 8))%Z ->
   Reader.load_fmnist fs path kind = Raise ValueError).
Proof.
  intros Hlb Himg. split.
  - intros (Hl & Hi & Hrange).
    eexists _, _. split.
    + eapply load_fmnist_valid; eassumption.
    + unfold len, wf, size, prod. cbn [shape data hd fold_right].
      rewrite ?length_skipn.
      repeat split; try lia. exact Hrange.
  - intros Hbad. eapply load_fmnist_malformed; eassumption.
Qed.

Lemma load_fmnist_contract_witness :
  exists images labels,
    Reader.load_fmnist Reader.demo_fs "data" "train" = Ok (images, labels) /\
    len labels = len images /\
    len labels = 2 /\
    shape images = [len labels; 784] /\
    wf images /\ wf labels /\
    Forall (fun b => (0 <= uint8 b <= 9)%Z) (data labels).
Proof.
  apply (load_fmnist_contract Reader.demo_fs "data" "train"
           Reader.demo_labels_file Reader.demo_images_file); try reflexivity.
  unfold Reader.valid_files. simpl length.
  repeat split; try lia.
  repeat constructor; vm_compute; congruence.
Defined.

Section LoaderProperties.

Import DataLoader.

Lemma batch_sampler_concat (B : nat) (s acc : list nat) :
  concat (batch_sampler B false s acc) = acc ++ s.
Proof.
  revert acc. induction s as [|idx rest IH]; intros acc; simpl.
  - destruct acc; simpl; rewrite ?app_nil_r; reflexivity.
  - destruct (length (acc ++ [idx]) =? B); simpl; rewrite IH.
    + rewrite <- app_assoc. reflexivity.
    + rewrite <- app_assoc. reflexivity.
Qed.

Lemma batch_sizes_step (B r : nat) :
  0 < B -> batch_sizes B (B + r) = B :: batch_sizes B r.
Proof.
  intros HB. unfold batch_sizes.
  replace (B + r) with (r + 1 * B) by lia.
  rewrite Nat.div_add, Nat.Div0.mod_add by lia.
  rewrite Nat.add_1_r. reflexivity.
Qed.

Lemma batch_sampler_sizes (B : nat) (s acc : list nat) :
  length acc < B ->
  map (@length nat) (batch_sampler B false s acc) = batch_sizes B (length acc + length s).
Proof.
  revert acc. induction s as [|idx rest IH]; intros acc Hacc; simpl.
  - rewrite Nat.add_0_r. unfold batch_sizes.
    rewrite Nat.div_small, Nat.mod_small by lia.
    destruct acc; simpl; reflexivity.
  - rewrite length_app. simpl.
    destruct (Nat.eqb_spec (length acc + 1) B) as [E|E]; simpl.
    + rewrite IH by (simpl; lia). simpl.
      rewrite length_app. simpl.
      replace (length acc + S (length rest)) with (B + length rest) by lia.
      rewrite batch_sizes_step by lia. rewrite E. reflexivity.
    + rewrite IH by (rewrite length_app; simpl; lia).
      rewrite length_app. simpl. f_equal. lia.
Qed.

Lemma batches_with_absent (i : nat) (bs : list (list nat)) :
  ~ In i (concat bs) -> batches_with i bs = 0.
Proof.
  unfold batches_with. induction bs as [|b bs IH]; simpl; intros H.
  - reflexivity.
  - destruct (existsb (Nat.eqb i) b) eqn:E.
    + exfalso. apply H. apply in_or_app. left.
      apply existsb_exists in E. destruct E as (x & Hx & Ex).
      apply Nat.eqb_eq in Ex. subst. assumption.
    + apply IH. intros Hin. apply H. apply in_or_app. right. assumption.
Qed.

Lemma NoDup_app_disjoint {A} (l1 l2 : list A) (a : A) :
  NoDup (l1 ++ l2) -> In a l1 -> ~ In a l2.
Proof.
  induction l1 as [|x l1 IH]; simpl; intros Hnd Hin.
  - contradiction.
  - inversion Hnd as [|? ? Hx Hrest]; subst.
    destruct Hin as [->|Hin].
    + intros H2. apply Hx. apply in_or_app. right. assumption.
    + apply IH; assumption.
Qed.

Lemma batches_with_once (i : nat) (bs : list (list nat)) :
  NoDup (concat bs) -> In i (concat bs) -> batches_with i bs = 1.
Proof.
  induction bs as [|b bs IH]; simpl; intros Hnd Hin.
  - contradiction.
  - pose proof (NoDup_app_remove_l _ _ Hnd) as Hbs.
    pose proof (fun a => NoDup_app_disjoint b (concat bs) a Hnd) as Hdisj.
    unfold batches_with in *. simpl.
    destruct (existsb (Nat.eqb i) b) eqn:E.
    + simpl. f_equal. apply batches_with_absent.
      apply existsb_exists in E. destruct E as (x & Hx & Ex).
      apply Nat.eqb_eq in Ex. subst. apply Hdisj. assumption.
    + apply IH; [assumption|].
      apply in_app_or in Hin. destruct Hin as [Hin|Hin]; [|assumption].
      exfalso. assert (existsb (Nat.eqb i) b = true); [|congruence].
      apply existsb_exists. exists i. split; [assumption|apply Nat.eqb_refl].
Qed.

End LoaderProperties.

(** C5. One epoch over 10 samples with batch size 4 yields exactly three
    batches, of sizes 4, 4 and 2 in that order.  In general the batches
    are the consecutive slices of the epoch's permutation, the last one
    holding the N mod B remaining indices when B does not divide N, and
    every sample index lies in exactly one batch. *)
Theorem epoch_batches_partition (B N : nat) (permutation : list nat) :
  0 < B ->
  DataLoader.shuffle_of N permutation ->
  let batches := DataLoader.epoch_batches B permutation in
  concat batches = permutation /\
  map (@length nat) batches =
    repeat B (N / B) ++ (if N mod B =? 0 then [] else [N mod B]) /\
  (N mod B <> 0 -> length (last batches []) = N mod B) /\
  (forall i, i < N -> DataLoader.batches_with i batches = 1) /\
  (N = 10 -> B = 4 -> map (@length nat) batches = [4; 4; 2]).
Proof.
  intros HB Hperm batches.
  assert (Hcat : concat batches = permutation)
    by apply (batch_sampler_concat B permutation []).
  assert (Hlen : length permutation = N).
  { rewrite (Permutation_length Hperm). apply length_seq. }
  assert (Hsizes : map (@length nat) batches = DataLoader.batch_sizes B N).
  { unfold batches, DataLoader.epoch_batches.
    rewrite batch_sampler_sizes by (simpl; lia).
    simpl. rewrite Hlen. reflexivity. }
  repeat split.
  - exact Hcat.
  - exact Hsizes.
  - intros Hrem.
    assert (Hl : last (map (@length nat) batches) 0 = N mod B).
    { rewrite Hsizes. unfold DataLoader.batch_sizes.
      destruct (Nat.eqb_spec (N mod B) 0); [contradiction|].
      apply last_last. }
    rewrite <- Hl. clear.
    induction batches as [|b [|b' bs] IH]; simpl in *; auto.
  - intros i Hi. apply batches_with_once.
    + rewrite Hcat. apply (Permutation_NoDup (Permutation_sym Hperm)).
      apply seq_NoDup.
    + rewrite Hcat. apply (Permutation_in _ (Permutation_sym Hperm)).
      apply in_seq. lia.
  - intros -> ->. rewrite Hsizes. reflexivity.
Qed.

Lemma epoch_batches_partition_witness :
  let batches := DataLoader.epoch_batches 4 DataLoader.demo_permutation in
  concat batches = DataLoader.demo_permutation /\
  map (@length nat) batches =
    repeat 4 (10 / 4) ++ (if 10 mod 4 =? 0 then [] else [10 mod 4]) /\
  (10 mod 4 <> 0 -> length (last batches []) = 10 mod 4) /\
  (forall i, i < 10 -> DataLoader.batches_with i batches = 1) /\
  (10 = 10 -> 4 = 4 -> map (@length nat) batches = [4; 4; 2]).
Proof.
  apply (epoch_batches_partition 4 10 DataLoader.demo_permutation).
  - lia.
  - unfold DataLoader.shuffle_of, DataLoader.demo_permutation. simpl.
    apply Permutation_rev.
Defined.

Section PreprocessorProperties.

Import Preprocessor.
Local Open Scope R_scope.

(** The sum of real numbers, where the order of additions is
    indifferent. *)
Abbreviation rsum := (fold_right Rplus 0).

Lemma sum_cons (v : R) (l : list R) : rsum (v :: l) = v + rsum l.
Proof. reflexivity. Qed.

Lemma sum_app (l1 l2 : list R) : rsum (l1 ++ l2) = rsum l1 + rsum l2.
Proof.
  induction l1 as [|v l1 IH]; cbn [app fold_right]; [lra | rewrite IH; lra].
Qed.

Lemma sum_perm (l l' : list R) : Permutation l l' -> rsum l = rsum l'.
Proof.
  induction 1 as [|x l l' _ IH|x y l|l l' l'' _ IH1 _ IH2]; cbn [fold_right].
  - reflexivity.
  - rewrite IH. reflexivity.
  - lra.
  - rewrite IH1. exact IH2.
Qed.

Lemma sum_repeat (c : R) (n : nat) : rsum (repeat c n) = INR n * c.
Proof.
  induction n as [|n IH].
  - simpl. lra.
  - cbn [repeat]. rewrite sum_cons, IH, S_INR. lra.
Qed.

Lemma sum_nonneg (l : list R) : Forall (fun v => 0 <= v) l -> 0 <= rsum l.
Proof.
  induction 1 as [|v l Hv _ IH].
  - simpl. lra.
  - rewrite sum_cons. lra.
Qed.

Lemma constant_data {A} (c : A) (l : list A) :
  Forall (eq c) l -> l = repeat c (length l).
Proof.
  induction 1 as [|v l Hv _ IH]; simpl; [reflexivity|].
  subst v. f_equal. exact IH.
Qed.

Lemma nth_seq_all {A} (l : list A) (d : A) :
  map (fun i => nth i l d) (seq 0 (length l)) = l.
Proof.
  induction l as [|x l IH]; [reflexivity|].
  cbn [length seq map nth]. f_equal.
  rewrite <- seq_shift, map_map. exact IH.
Qed.

(** In the real numbers an order of additions gives the sum of the
    elements at its positions. *)
Lemma run_exact (t : Order) (l : list R) :
  run t l = rsum (map (fun i => nth i l 0) (positions t)).
Proof.
  induction t as [i| |t1 IH1 t2 IH2]; cbn [run positions map fold_right].
  - cbn [zero64 exact]. lra.
  - reflexivity.
  - rewrite map_app, sum_app, IH1, IH2. reflexivity.
Qed.

(** So every order that takes each position once gives the sum of all
    the elements. *)
Lemma reduce_exact (order : nat -> Order) (l : list R) :
  (forall n, Permutation (positions (order n)) (seq 0 n)) ->
  reduce order l = rsum l.
Proof.
  intros Hc. unfold reduce. rewrite run_exact.
  rewrite (sum_perm _ (map (fun i => nth i l 0) (seq 0 (length l)))).
  - rewrite nth_seq_all. reflexivity.
  - apply Permutation_map, Hc.
Qed.

Context {Rd : Reduce}.

Abbreviation rmean := (@mean R exact Rd).
Abbreviation rvar := (@var R exact Rd).

Lemma mean_exact (a : ndarray R) : rmean a = rsum (data a) / INR (size a).
Proof.
  unfold mean, mean_by. rewrite reduce_exact by apply sum_order_complete.
  reflexivity.
Qed.

Lemma var_exact (a : ndarray R) :
  rvar a =
    rsum (map (fun v => (v - rmean a) * (v - rmean a)) (data a)) / INR (size a).
Proof.
  unfold var, mean_by. rewrite reduce_exact by apply squares_order_complete.
  unfold square, sub_scalar. cbn [shape data]. rewrite map_map.
  reflexivity.
Qed.

Lemma var_nonneg (a : ndarray R) : 0 <= rvar a.
Proof.
  rewrite var_exact. unfold Rdiv.
  apply Rmult_le_pos.
  - apply sum_nonneg. apply Forall_map.
    apply Forall_forall. intros v _. exact (Rle_0_sqr (v - rmean a)).
  - destruct (size a) as [|n] eqn:E.
    + simpl. rewrite Rinv_0. lra.
    + left. apply Rinv_0_lt_compat. apply lt_0_INR. lia.
Qed.

(** The denominator of [standardize] never vanishes. *)
Lemma denominator_positive (a : ndarray R) : 0 < sqrt (rvar a + 1e-5).
Proof.
  apply sqrt_lt_R0. pose proof (var_nonneg a). lra.
Qed.

Lemma mean_constant (a : ndarray R) (c : R) :
  wf a -> Forall (eq c) (data a) -> data a <> [] -> rmean a = c.
Proof.
  intros Hwf Hc Hne. rewrite mean_exact.
  red in Hwf. rewrite (constant_data c (data a) Hc), sum_repeat, Hwf.
  assert (INR (size a) <> 0).
  { apply not_0_INR. rewrite <- Hwf. destruct (data a); simpl; congruence. }
  field. assumption.
Qed.

Lemma standardize_constant_exact (a : ndarray R) (c : R) :
  wf a ->
  Forall (eq c) (data a) ->
  0 < sqrt (rvar a + 1e-5) /\
  standardize a = mk_ndarray (shape a) (repeat 0 (size a)).
Proof.
  intros Hwf Hc. split; [apply denominator_positive|].
  unfold standardize, div_scalar, sub_scalar.
  cbn [shape data]. f_equal. rewrite map_map.
  destruct (data a) as [|v l] eqn:E.
  - red in Hwf. rewrite E in Hwf. rewrite <- Hwf. reflexivity.
  - assert (Hm : rmean a = c).
    { apply mean_constant; [assumption| |]; rewrite E; [assumption|discriminate]. }
    rewrite Hm. rewrite <- Hwf, E.
    clear E Hm Hwf. revert Hc. generalize (v :: l). intros l' Hc.
    induction Hc as [|x l'' Hx _ IH]; simpl; [reflexivity|].
    subst x. f_equal; [|exact IH].
    unfold Rdiv. rewrite Rminus_diag. apply Rmult_0_l.
Qed.

End PreprocessorProperties.

Section StandardizeGeneric.

Import Preprocessor.
Context {F : Type} {A64 : Float64 F} {Rd : Reduce}.

Lemma standardize_nth (a : ndarray F) (i : nat) (d : F) :
  i < length (data a) ->
  nth i (data (standardize a)) d =
    div64 (sub64 (nth i (data a) d) (mean a))
          (sqrt64 (add64 (var a) eps64)).
Proof.
  intros Hi. unfold standardize, div_scalar, sub_scalar.
  cbn [shape data]. rewrite map_map.
  rewrite (nth_indep _ d (div64 (sub64 d (mean a))
                                (sqrt64 (add64 (var a) eps64))))
    by (rewrite length_map; exact Hi).
  apply (map_nth (fun v => div64 (sub64 v (mean a))
                                 (sqrt64 (add64 (var a) eps64)))).
Qed.

End StandardizeGeneric.

(** C6. [standardize] keeps the shape of its argument and replaces every
    element v by (v - mean) / sqrt (var + 1e-5), with one mean and one
    variance for the whole array.  This holds in any arithmetic,
    binary64 included, and whatever the order in which the library adds
    the elements: the mean is the result of adding every element of the
    array once, over their number, and the variance the result of
    adding the square of the deviation of every element once, over
    their number.  In exact arithmetic the mean is the sum of all the
    elements over their number and the variance the sum of all the
    squared deviations over their number. *)
Theorem standardize_elementwise :
  (forall (F : Type) (A64 : Preprocessor.Float64 F) (Rd : Preprocessor.Reduce)
          (a : ndarray F),
     let n := length (data a) in
     shape (Preprocessor.standardize a) = shape a /\
     length (data (Preprocessor.standardize a)) = n /\
     (forall i d, i < n ->
        nth i (data (Preprocessor.standardize a)) d =
          Preprocessor.div64
            (Preprocessor.sub64 (nth i (data a) d) (Preprocessor.mean a))
            (Preprocessor.sqrt64
               (Preprocessor.add64 (Preprocessor.var a) Preprocessor.eps64))) /\
     Preprocessor.mean a =
       Preprocessor.div64
         (Preprocessor.run (Preprocessor.sum_order n) (data a))
         (Preprocessor.count64 (size a)) /\
     Permutation (Preprocessor.positions (Preprocessor.sum_order n)) (seq 0 n) /\
     Preprocessor.var a =
       Preprocessor.div64
         (Preprocessor.run (Preprocessor.squares_order n)
            (map (fun v =>
                    Preprocessor.mul64
                      (Preprocessor.sub64 v (Preprocessor.mean a))
                      (Preprocessor.sub64 v (Preprocessor.mean a)))
                 (data a)))
         (Preprocessor.count64 (size a)) /\
     Permutation (Preprocessor.positions (Preprocessor.squares_order n))
                 (seq 0 n)) /\
  (forall (Rd : Preprocessor.Reduce) (a : ndarray R),
     Preprocessor.mean a = (fold_right Rplus 0 (data a) / INR (size a))%R /\
     Preprocessor.var a =
       (fold_right Rplus 0
          (map (fun v => (v - Preprocessor.mean a) * (v - Preprocessor.mean a))
               (data a)) / INR (size a))%R /\
     forall i, i < length (data a) ->
       nth i (data (Preprocessor.standardize a)) 0%R =
         ((nth i (data a) 0 - Preprocessor.mean a) /
          sqrt (Preprocessor.var a + 1e-5))%R).
Proof.
  split.
  - intros F A64 Rd a n.
    split; [reflexivity|].
    split.
    { unfold Preprocessor.standardize, Preprocessor.div_scalar,
        Preprocessor.sub_scalar.
      cbn [data]. rewrite !length_map. reflexivity. }
    split; [intros i d Hi; apply standardize_nth; exact Hi|].
    split; [reflexivity|].
    split; [apply Preprocessor.sum_order_complete|].
    split; [|apply Preprocessor.squares_order_complete].
    unfold Preprocessor.var, Preprocessor.mean_by, Preprocessor.reduce,
      Preprocessor.square, Preprocessor.sub_scalar.
    cbn [shape data]. rewrite map_map, !length_map. reflexivity.
  - intros Rd a.
    split; [apply mean_exact|].
    split; [apply var_exact|].
    intros i Hi. rewrite (standardize_nth a i 0%R Hi). reflexivity.
Qed.

Lemma standardize_elementwise_witness :
  nth 3 (data (Preprocessor.standardize Preprocessor.demo_constant)) 0%R =
    ((nth 3 (data Preprocessor.demo_constant) 0 -
      Preprocessor.mean Preprocessor.demo_constant) /
     sqrt (Preprocessor.var Preprocessor.demo_constant + 1e-5))%R.
Proof.
  apply (proj2 (proj2 (proj2 standardize_elementwise Preprocessor.in_order
                         Preprocessor.demo_constant)) 3).
  simpl. lia.
Defined.

(** The same in the notation of the real numbers. *)
Lemma standardize_elementwise_exact {Rd : Preprocessor.Reduce} (a : ndarray R) :
  data (Preprocessor.standardize a) =
    map (fun v => (v - Preprocessor.mean a) /
                  sqrt (Preprocessor.var a + 1e-5))%R (data a).
Proof.
  unfold Preprocessor.standardize, Preprocessor.div_scalar,
    Preprocessor.sub_scalar.
  cbn [shape data]. rewrite map_map. reflexivity.
Qed.

Section Binary64Exact.

Import SpecFloat FloatOps FloatAxioms.
Local Open Scope Z_scope.

Lemma digits2_size (p : positive) : digits2_pos p = Pos.size p.
Proof. induction p; simpl; rewrite ?IHp; reflexivity. Qed.

Lemma size_log2 (p : positive) : Zpos (Pos.size p) = Z.log2 (Zpos p) + 1.
Proof.
  destruct p; simpl; rewrite ?Pos2Z.inj_succ; lia.
Qed.

Lemma Zdigits2_log2 (p : positive) : Zdigits2 (Zpos p) = Z.log2 (Zpos p) + 1.
Proof. simpl. rewrite digits2_size. apply size_log2. Qed.

Lemma iter_pos_nat {A} (f : A -> A) (n : positive) :
  forall x, SpecFloat.iter_pos f n x = Nat.iter (Pos.to_nat n) f x.
Proof.
  induction n as [n IH|n IH|]; intros x; cbn [SpecFloat.iter_pos].
  - rewrite !IH, Pos2Nat.inj_xI, <- Nat.iter_add, <- Nat.iter_succ_r.
    f_equal. lia.
  - rewrite !IH, Pos2Nat.inj_xO, <- Nat.iter_add. f_equal. lia.
  - reflexivity.
Qed.

Lemma shifted_value (n : nat) (q : positive) :
  Zpos (Nat.iter n xO q) = Zpos q * 2 ^ Z.of_nat n.
Proof.
  induction n as [|n IH].
  - simpl. lia.
  - rewrite Nat2Z.inj_succ, Z.pow_succ_r by lia.
    change (Nat.iter (S n) xO q) with (xO (Nat.iter n xO q)).
    rewrite Pos2Z.inj_xO, IH. lia.
Qed.

Lemma shr_shifted (n : nat) (q : positive) :
  Nat.iter n shr_1
    {| shr_m := Zpos (Nat.iter n xO q); shr_r := false; shr_s := false |} =
  {| shr_m := Zpos q; shr_r := false; shr_s := false |}.
Proof.
  induction n as [|n IH]; [reflexivity|].
  rewrite Nat.iter_succ_r. exact IH.
Qed.

Lemma shifted_unique (M q : positive) (k : positive) :
  Zpos M = Zpos q * 2 ^ Zpos k -> M = Nat.iter (Pos.to_nat k) xO q.
Proof.
  intros E. apply Pos2Z.inj. rewrite shifted_value, positive_nat_Z. exact E.
Qed.

Lemma fexp_small (d : Z) : 1 <= d <= 1100 -> fexp prec emax d = d - 53.
Proof. unfold fexp, emin, prec, emax. lia. Qed.

(** Rounding a representation of an integer below 2^53 is exact. *)
Lemma round_exact (M : positive) (E v : Z) :
  1 <= v < 2 ^ 53 ->
  Zpos M = v * 2 ^ (- E) ->
  -1000 <= E <= Z.log2 v - 52 ->
  binary_round_aux prec emax false (Zpos M) E loc_Exact = Preprocessor.canon v.
Proof.
  intros Hv HM HE.
  assert (Hl : 0 <= Z.log2 v < 53).
  { split; [apply Z.log2_nonneg|]. apply Z.log2_lt_pow2; lia. }
  assert (HdM : Zdigits2 (Zpos M) = Z.log2 v - E + 1).
  { rewrite Zdigits2_log2, HM, Z.log2_mul_pow2 by lia. lia. }
  set (q := Z.to_pos (v * 2 ^ (52 - Z.log2 v))).
  assert (Hq : Zpos q = v * 2 ^ (52 - Z.log2 v)).
  { unfold q. rewrite Z2Pos.id; [reflexivity|].
    apply Z.mul_pos_pos; [lia | apply Z.pow_pos_nonneg; lia]. }
  assert (Hdq : Zdigits2 (Zpos q) = 53).
  { rewrite Zdigits2_log2, Hq, Z.log2_mul_pow2 by lia. lia. }
  assert (Hsecond :
    shr_fexp prec emax (Zpos q) (Z.log2 v - 52) loc_Exact =
    ({| shr_m := Zpos q; shr_r := false; shr_s := false |}, Z.log2 v - 52)).
  { unfold shr_fexp. rewrite Hdq, fexp_small by lia.
    replace (53 + (Z.log2 v - 52) - 53 - (Z.log2 v - 52)) with 0 by lia.
    reflexivity. }
  unfold binary_round_aux.
  assert (Hfirst :
    shr_fexp prec emax (Zpos M) E loc_Exact =
    ({| shr_m := Zpos q; shr_r := false; shr_s := false |}, Z.log2 v - 52)).
  { unfold shr_fexp. rewrite HdM, fexp_small by lia.
    remember (Z.log2 v - E + 1 + E - 53 - E) as n eqn:En.
    destruct n as [|k|k]; [| |lia].
    - assert (E = Z.log2 v - 52) by lia. subst E.
      cbn [shr shr_record_of_loc]. f_equal. f_equal.
      rewrite HM, Hq. f_equal. f_equal. lia.
    - cbn [shr shr_record_of_loc].
      assert (HMq : M = Nat.iter (Pos.to_nat k) xO q).
      { apply shifted_unique. rewrite HM, Hq, <- Z.mul_assoc, <- Z.pow_add_r by lia.
        f_equal. f_equal. lia. }
      rewrite iter_pos_nat, HMq, shr_shifted. f_equal. lia. }
  rewrite Hfirst. cbn [shr_m loc_of_shr_record round_nearest_even].
  rewrite Hsecond. cbn [shr_m].
  unfold Preprocessor.canon. fold q.
  destruct (Z.leb_spec (Z.log2 v - 52) (emax - prec)) as [_|H];
    [reflexivity | unfold emax, prec in H; lia].
Qed.

Lemma canon_value (v : Z) :
  1 <= v < 2 ^ 53 ->
  Zpos (Z.to_pos (v * 2 ^ (52 - Z.log2 v))) = v * 2 ^ (52 - Z.log2 v) /\
  0 <= Z.log2 v < 53.
Proof.
  intros Hv.
  assert (Hl : 0 <= Z.log2 v < 53).
  { split; [apply Z.log2_nonneg|]. apply Z.log2_lt_pow2; lia. }
  split; [|exact Hl].
  rewrite Z2Pos.id; [reflexivity|].
  apply Z.mul_pos_pos; [lia | apply Z.pow_pos_nonneg; lia].
Qed.

Lemma shl_align_value (m : positive) (e e' : Z) :
  e' <= e ->
  Zpos (fst (shl_align m e e')) = Zpos m * 2 ^ (e - e') /\
  snd (shl_align m e e') = e'.
Proof.
  intros He. unfold shl_align.
  destruct (e' - e) as [|d|d] eqn:Ed; [| lia |]; cbn [fst snd].
  - replace (e - e') with 0 by lia. split; lia.
  - rewrite Pos2Nat.inj_iter.
    change (nat_rect (fun _ => positive) m (fun _ => xO) (Pos.to_nat d))
      with (Nat.iter (Pos.to_nat d) xO m).
    rewrite shifted_value, positive_nat_Z. split; [|reflexivity].
    f_equal. f_equal. lia.
Qed.

(** Normalizing a representation of an integer below 2^53 gives its
    Preprocessor.canonical form. *)
Lemma binary_round_exact (p : positive) (E v : Z) :
  1 <= v < 2 ^ 53 ->
  Zpos p = v * 2 ^ (- E) ->
  -900 <= E <= 0 ->
  binary_round prec emax false p E = Preprocessor.canon v.
Proof.
  intros Hv Hp HE.
  destruct (canon_value v Hv) as [_ Hl].
  unfold binary_round.
  assert (Hd : Zpos (digits2_pos p) + E = Z.log2 v + 1).
  { change (Zpos (digits2_pos p)) with (Zdigits2 (Zpos p)).
    rewrite Zdigits2_log2, Hp, Z.log2_mul_pow2 by lia. lia. }
  rewrite Hd, fexp_small by lia.
  destruct (Z_le_gt_dec (Z.log2 v + 1 - 53) E) as [Hle|Hgt].
  - destruct (shl_align_value p E (Z.log2 v + 1 - 53) Hle) as [H1 H2].
    destruct (shl_align p E (Z.log2 v + 1 - 53)) as [mz ez].
    cbn [fst snd] in H1, H2. subst ez.
    apply round_exact; [exact Hv | | lia].
    rewrite H1, Hp, <- Z.mul_assoc, <- Z.pow_add_r by lia.
    f_equal. f_equal. lia.
  - unfold shl_align.
    destruct (Z.log2 v + 1 - 53 - E) as [|d|d] eqn:Ed; [lia | | lia].
    apply round_exact; [exact Hv | exact Hp | lia].
Qed.

Lemma normalize_of_Z (v : Z) :
  0 <= v < 2 ^ 53 -> binary_normalize prec emax v 0 false = Preprocessor.spec_of_Z v.
Proof.
  intros Hv. unfold Preprocessor.spec_of_Z.
  destruct v as [|p|p]; [reflexivity | | lia].
  cbn [binary_normalize Z.eqb].
  apply binary_round_exact; [lia | | lia].
  cbn. lia.
Qed.

Lemma SFadd_canon (a b : Z) :
  1 <= a -> 1 <= b -> a + b < 2 ^ 53 ->
  SFadd prec emax (Preprocessor.canon a) (Preprocessor.canon b) = Preprocessor.canon (a + b).
Proof.
  intros Ha Hb Hab.
  destruct (canon_value a ltac:(lia)) as [Va La].
  destruct (canon_value b ltac:(lia)) as [Vb Lb].
  unfold Preprocessor.canon at 1 2. cbn [SFadd cond_Zopp].
  set (ea := Z.log2 a - 52) in *. set (eb := Z.log2 b - 52) in *.
  set (ez := Z.min ea eb).
  destruct (shl_align_value (Z.to_pos (a * 2 ^ (52 - Z.log2 a))) ea ez
              ltac:(unfold ez; lia)) as [H1 _].
  destruct (shl_align_value (Z.to_pos (b * 2 ^ (52 - Z.log2 b))) eb ez
              ltac:(unfold ez; lia)) as [H2 _].
  cbn [Z.add binary_normalize].
  apply binary_round_exact; [lia | | unfold ez, ea, eb; lia].
  rewrite Pos2Z.inj_add, H1, H2, Va, Vb.
  rewrite <- !Z.mul_assoc, <- !Z.pow_add_r by (unfold ez, ea, eb; lia).
  replace (52 - Z.log2 a + (ea - ez)) with (- ez) by (unfold ea; lia).
  replace (52 - Z.log2 b + (eb - ez)) with (- ez) by (unfold eb; lia).
  lia.
Qed.

Lemma SFadd_of_Z (a b : Z) :
  0 <= a -> 0 <= b -> a + b < 2 ^ 53 ->
  SFadd prec emax (Preprocessor.spec_of_Z a) (Preprocessor.spec_of_Z b) = Preprocessor.spec_of_Z (a + b).
Proof.
  intros Ha Hb Hab. unfold Preprocessor.spec_of_Z.
  destruct (Z.eqb_spec a 0) as [->|Na]; destruct (Z.eqb_spec b 0) as [->|Nb].
  - reflexivity.
  - cbn [Z.add]. destruct (Z.eqb_spec b 0); [contradiction|]. reflexivity.
  - rewrite Z.add_0_r. destruct (Z.eqb_spec a 0); [contradiction|]. reflexivity.
  - destruct (Z.eqb_spec (a + b) 0); [lia|].
    apply SFadd_canon; lia.
Qed.

Lemma SFsub_diag (x : spec_float) :
  (exists m e, x = S754_finite false m e) \/ x = S754_zero false ->
  SFsub prec emax x x = S754_zero false.
Proof.
  intros [(m & e & ->) | ->]; [|reflexivity].
  cbn [SFsub cond_Zopp]. rewrite Z.sub_diag. reflexivity.
Qed.

Lemma div_eucl_exact (a b q : Z) : 0 < b -> a = b * q -> Z.div_eucl a b = (q, 0).
Proof.
  intros Hb E.
  pose proof (Z.div_eucl_eq a b ltac:(lia)) as H.
  pose proof (Z.mod_pos_bound a b Hb) as Hm.
  unfold Z.modulo in Hm.
  destruct (Z.div_eucl a b) as [q' r']. cbn [snd] in Hm.
  assert (q' = q) by nia. subst q'.
  f_equal. nia.
Qed.

Lemma SFdiv_canon (n c : Z) :
  1 <= n -> 1 <= c -> n * c < 2 ^ 53 ->
  SFdiv prec emax (Preprocessor.canon (n * c)) (Preprocessor.canon n) = Preprocessor.canon c.
Proof.
  intros Hn Hc Hnc.
  assert (Hn53 : n < 2 ^ 53) by nia.
  assert (Hc53 : c < 2 ^ 53) by nia.
  destruct (canon_value (n * c) ltac:(nia)) as [V1 L1].
  destruct (canon_value n ltac:(lia)) as [V2 L2].
  destruct (canon_value c ltac:(lia)) as [_ Lc].
  pose proof (Z.log2_mul_above n c ltac:(lia) ltac:(lia)) as Habove.
  pose proof (Z.log2_mul_below n c ltac:(lia) ltac:(lia)) as Hbelow.
  unfold Preprocessor.canon at 1 2. cbn [SFdiv xorb].
  set (m1 := Z.to_pos (n * c * 2 ^ (52 - Z.log2 (n * c)))) in *.
  set (m2 := Z.to_pos (n * 2 ^ (52 - Z.log2 n))) in *.
  set (e1 := Z.log2 (n * c) - 52). set (e2 := Z.log2 n - 52).
  assert (Hd1 : Zdigits2 (Zpos m1) = 53).
  { rewrite Zdigits2_log2, V1, Z.log2_mul_pow2 by lia. lia. }
  assert (Hd2 : Zdigits2 (Zpos m2) = 53).
  { rewrite Zdigits2_log2, V2, Z.log2_mul_pow2 by lia. lia. }
  unfold SFdiv_core_binary. rewrite Hd1, Hd2.
  assert (He : Z.min (fexp prec emax (53 + e1 - (53 + e2))) (e1 - e2) = e1 - e2 - 53).
  { unfold fexp, emin, prec, emax, e1, e2. lia. }
  rewrite He.
  replace (e1 - e2 - (e1 - e2 - 53)) with 53 by lia.
  rewrite Z.shiftl_mul_pow2 by lia.
  set (Q := c * 2 ^ (53 + Z.log2 n - Z.log2 (n * c))).
  assert (HQ : Zpos m1 * 2 ^ 53 = Zpos m2 * Q).
  { rewrite V1, V2. unfold Q.
    replace (n * 2 ^ (52 - Z.log2 n) * (c * 2 ^ (53 + Z.log2 n - Z.log2 (n * c))))
      with (n * c * (2 ^ (52 - Z.log2 n) * 2 ^ (53 + Z.log2 n - Z.log2 (n * c))))
      by ring.
    rewrite <- Z.pow_add_r by lia.
    rewrite <- Z.mul_assoc, <- Z.pow_add_r by lia.
    f_equal. f_equal. lia. }
  rewrite (div_eucl_exact _ _ Q (Pos2Z.is_pos m2) HQ).
  assert (Hloc : new_location (Zpos m2) 0 = loc_Exact).
  { unfold new_location. destruct (Z.even (Zpos m2)); reflexivity. }
  rewrite Hloc.
  assert (HQpos : 0 < Q).
  { unfold Q. apply Z.mul_pos_pos; [lia | apply Z.pow_pos_nonneg; lia]. }
  destruct Q as [|Qp|Qp] eqn:EQ; [lia | | lia].
  apply round_exact; [lia | | unfold e1, e2; lia].
  rewrite <- EQ. unfold Q. f_equal. f_equal. unfold e1, e2. lia.
Qed.

Lemma SFdiv_of_Z (n c : Z) :
  1 <= n -> 0 <= c -> n * c < 2 ^ 53 ->
  SFdiv prec emax (Preprocessor.spec_of_Z (n * c)) (Preprocessor.spec_of_Z n) =
    Preprocessor.spec_of_Z c.
Proof.
  intros Hn Hc Hnc. unfold Preprocessor.spec_of_Z.
  destruct (Z.eqb_spec n 0) as [|_]; [lia|].
  destruct (Z.eqb_spec c 0) as [->|Nc].
  - rewrite Z.mul_0_r. reflexivity.
  - destruct (Z.eqb_spec (n * c) 0) as [|_]; [nia|].
    apply SFdiv_canon; lia.
Qed.

Lemma Prim2SF_of_Z (v : Z) :
  0 <= v < 2 ^ 53 ->
  Prim2SF (Preprocessor.float_of_Z v) = Preprocessor.spec_of_Z v.
Proof.
  intros Hv. unfold Preprocessor.float_of_Z.
  rewrite of_uint63_spec, Uint63.of_Z_spec.
  assert (Hw : 2 ^ 53 < Uint63.wB) by reflexivity.
  rewrite Z.mod_small by lia.
  apply normalize_of_Z. exact Hv.
Qed.

(** Adding two whole numbers in binary64 is exact below 2^53. *)
Lemma float_add_exact (a b : Z) :
  0 <= a -> 0 <= b -> a + b < 2 ^ 53 ->
  PrimFloat.add (Preprocessor.float_of_Z a) (Preprocessor.float_of_Z b) =
    Preprocessor.float_of_Z (a + b).
Proof.
  intros Ha Hb Hab. apply Prim2SF_inj.
  rewrite add_spec, !Prim2SF_of_Z by lia.
  apply SFadd_of_Z; assumption.
Qed.

(** Dividing a whole multiple of n by n is exact below 2^53. *)
Lemma float_div_exact (n c : Z) :
  1 <= n < 2 ^ 53 -> 0 <= c -> n * c < 2 ^ 53 ->
  PrimFloat.div (Preprocessor.float_of_Z (n * c)) (Preprocessor.float_of_Z n) =
    Preprocessor.float_of_Z c.
Proof.
  intros Hn Hc Hnc. apply Prim2SF_inj.
  rewrite div_spec, !Prim2SF_of_Z by nia.
  apply SFdiv_of_Z; lia.
Qed.

Lemma float_sub_diag (v : Z) :
  0 <= v < 2 ^ 53 ->
  PrimFloat.sub (Preprocessor.float_of_Z v) (Preprocessor.float_of_Z v) =
    0%float.
Proof.
  intros Hv. apply Prim2SF_inj.
  rewrite sub_spec, Prim2SF_of_Z by exact Hv.
  change (Prim2SF 0%float) with (S754_zero false).
  apply SFsub_diag. unfold Preprocessor.spec_of_Z, Preprocessor.canon.
  destruct (v =? 0); [right; reflexivity | left; eexists _, _; reflexivity].
Qed.

End Binary64Exact.

Section Binary64Standardize.

Import Preprocessor.

Lemma nth_repeat_lt {A} (x d : A) (n i : nat) :
  i < n -> nth i (repeat x n) d = x.
Proof.
  revert i. induction n as [|n IH]; intros i Hi; [lia|].
  destruct i as [|i]; [reflexivity|]. cbn [repeat nth]. apply IH. lia.
Qed.

Lemma complete_positions (t : Order) (n : nat) :
  Permutation (positions t) (seq 0 n) ->
  Forall (fun i => i < n) (positions t) /\ length (positions t) = n.
Proof.
  intros Hp. split.
  - apply Forall_forall. intros i Hi.
    apply (Permutation_in _ Hp), in_seq in Hi. lia.
  - rewrite (Permutation_length Hp), length_seq. reflexivity.
Qed.

Lemma uint8_range (b : byte) : (0 <= uint8 b <= 255)%Z.
Proof.
  unfold uint8. pose proof (Byte.to_N_bounded b) as H. lia.
Qed.

(** Whatever the order of additions, adding copies of a whole number is
    exact in binary64 as long as the sum stays below 2^53. *)
Lemma run_repeat_exact (v : Z) (n : nat) (t : Order) :
  (0 <= v)%Z -> (Z.of_nat n * v < 2 ^ 53)%Z ->
  Forall (fun i => i < n) (positions t) ->
  length (positions t) <= n ->
  @run _ binary64 t (repeat (float_of_Z v) n) =
    float_of_Z (Z.of_nat (length (positions t)) * v).
Proof.
  intros Hv Hn.
  induction t as [i| |t1 IH1 t2 IH2]; cbn [run positions length]; intros Hp Hl.
  - apply Forall_inv in Hp. rewrite nth_repeat_lt by exact Hp.
    f_equal. lia.
  - reflexivity.
  - apply Forall_app in Hp. destruct Hp as [Hp1 Hp2].
    rewrite length_app in Hl |- *.
    rewrite IH1, IH2 by (assumption || lia).
    cbn [add64 binary64]. rewrite float_add_exact by nia.
    f_equal. lia.
Qed.

Lemma reduce_repeat_exact (order : nat -> Order) (v : Z) (n : nat) :
  (forall k, Permutation (positions (order k)) (seq 0 k)) ->
  (0 <= v)%Z -> (Z.of_nat n * v < 2 ^ 53)%Z ->
  @reduce _ binary64 order (repeat (float_of_Z v) n) =
    float_of_Z (Z.of_nat n * v).
Proof.
  intros Hc Hv Hn. unfold reduce. rewrite repeat_length.
  destruct (complete_positions _ _ (Hc n)) as [Hp Hl].
  rewrite run_repeat_exact by (assumption || lia).
  rewrite Hl. reflexivity.
Qed.

Context {Rd : Reduce}.

(** In binary64, on a constant array of [uint8] values whose sum stays
    below 2^53. *)
Lemma standardize_constant_binary64 (X : ndarray byte) (c : byte) :
  wf X ->
  Forall (eq c) (data X) ->
  (Z.of_nat (size X) * 255 < 2 ^ 53)%Z ->
  (0 < size X ->
   PrimFloat.ltb 0%float
     (PrimFloat.sqrt
        (PrimFloat.add (@var _ binary64 Rd (astype_float X)) eps64)) = true) /\
  @standardize _ binary64 Rd (astype_float X) =
    mk_ndarray (shape X) (repeat 0%float (size X)).
Proof.
  intros Hwf Hc Hsize. red in Hwf.
  pose proof (uint8_range c) as Hu.
  assert (Hdata : data (@astype_float _ binary64 X) =
                  repeat (float_of_Z (uint8 c)) (size X)).
  { unfold astype_float. cbn [data].
    rewrite (constant_data c (data X) Hc), Hwf, map_repeat.
    cbn [count64 binary64]. rewrite Z2Nat.id by lia. reflexivity. }
  destruct (Nat.eq_dec (size X) 0) as [E0|N0].
  - split; [lia|].
    unfold standardize, div_scalar, sub_scalar.
    cbn [shape data]. rewrite Hdata, E0. reflexivity.
  - assert (Hn : (1 <= Z.of_nat (size X) < 2 ^ 53)%Z) by lia.
    assert (Hmean : @mean _ binary64 Rd (astype_float X) =
                    float_of_Z (uint8 c)).
    { unfold mean, mean_by. rewrite Hdata.
      rewrite reduce_repeat_exact by (apply sum_order_complete || nia).
      change (size (astype_float X)) with (size X).
      cbn [div64 count64 binary64].
      apply float_div_exact; [exact Hn | lia | nia]. }
    assert (Hvar : @var _ binary64 Rd (astype_float X) = 0%float).
    { unfold var, mean_by.
      change (size (square (sub_scalar (astype_float X)
                              (mean (astype_float X))))) with (size X).
      rewrite Hmean.
      unfold square, sub_scalar. cbn [shape data]. rewrite Hdata.
      rewrite !map_repeat. cbn [sub64 mul64 binary64].
      rewrite float_sub_diag by lia.
      change (PrimFloat.mul 0 0) with (float_of_Z 0).
      rewrite reduce_repeat_exact by (apply squares_order_complete || lia).
      cbn [div64 count64 binary64].
      rewrite float_div_exact by lia. reflexivity. }
    rewrite Hvar. split; [intros _; vm_compute; reflexivity|].
    unfold standardize, div_scalar, sub_scalar. rewrite Hmean, Hvar.
    cbn [shape data]. rewrite Hdata, !map_repeat.
    cbn [sub64 div64 sqrt64 add64 eps64 binary64].
    rewrite float_sub_diag by lia. reflexivity.
Qed.

(** Adding three copies of a number in binary64, in any order. *)
Lemma run_three (x : PrimFloat.float) (t : Order) :
  let x2 := PrimFloat.add x x in
  let x3 := PrimFloat.add x x2 in
  PrimFloat.add 0 x = x -> PrimFloat.add x 0 = x ->
  PrimFloat.add 0 x2 = x2 -> PrimFloat.add x2 0 = x2 ->
  PrimFloat.add 0 x3 = x3 -> PrimFloat.add x3 0 = x3 ->
  PrimFloat.add x2 x = x3 ->
  Forall (fun i => i < 3) (positions t) ->
  length (positions t) <= 3 ->
  @run _ binary64 t [x; x; x] =
    nth (length (positions t)) [0%float; x; x2; x3] 0%float.
Proof.
  intros x2 x3 H01 H10 H02 H20 H03 H30 H21.
  induction t as [i| |t1 IH1 t2 IH2]; cbn [run positions length]; intros Hp Hl.
  - apply Forall_inv in Hp.
    destruct i as [|[|[|i]]]; [reflexivity | reflexivity | reflexivity | lia].
  - reflexivity.
  - apply Forall_app in Hp. destruct Hp as [Hp1 Hp2].
    rewrite length_app in Hl |- *.
    rewrite IH1, IH2 by (assumption || lia).
    cbn [add64 binary64].
    destruct (length (positions t1)) as [|[|[|[|k1]]]];
      destruct (length (positions t2)) as [|[|[|[|k2]]]];
      cbn [nth Nat.add]; try lia;
      first [ reflexivity | assumption ].
Qed.

End Binary64Standardize.

(** C8.  On an array whose elements are all equal, [standardize] returns
    the array of zeros of the same shape, with a strictly positive
    denominator, whatever the order in which the library adds the
    elements: in exact arithmetic for every constant array, and in
    binary64 for every constant array of [uint8] values, as
    [load_fmnist] returns them, whose sum stays below 2^53. *)
Theorem standardize_constant {Rd : Preprocessor.Reduce} :
  (forall (a : ndarray R) (c : R),
     wf a ->
     Forall (eq c) (data a) ->
     (0 < sqrt (Preprocessor.var a + 1e-5))%R /\
     Preprocessor.standardize a = mk_ndarray (shape a) (repeat 0%R (size a))) /\
  (forall (X : ndarray byte) (c : byte),
     wf X ->
     Forall (eq c) (data X) ->
     (Z.of_nat (size X) * 255 < 2 ^ 53)%Z ->
     (0 < size X ->
      PrimFloat.ltb 0%float
        (PrimFloat.sqrt
           (PrimFloat.add
              (@Preprocessor.var _ Preprocessor.binary64 Rd
                 (Preprocessor.astype_float X))
              Preprocessor.eps64)) = true) /\
     @Preprocessor.standardize _ Preprocessor.binary64 Rd
        (Preprocessor.astype_float X) =
       mk_ndarray (shape X) (repeat 0%float (size X))).
Proof.
  split.
  - intros a c. apply standardize_constant_exact.
  - intros X c. apply standardize_constant_binary64.
Qed.

Lemma standardize_constant_witness :
  ((0 < sqrt (Preprocessor.var Preprocessor.demo_constant + 1e-5))%R /\
   Preprocessor.standardize Preprocessor.demo_constant =
     mk_ndarray [2; 2] (repeat 0%R 4)) /\
  @Preprocessor.standardize _ Preprocessor.binary64 Preprocessor.in_order
     (Preprocessor.astype_float Preprocessor.demo_white) =
    mk_ndarray [1; 784] (repeat 0%float 784).
Proof.
  split.
  - apply (proj1 (standardize_constant (Rd := Preprocessor.in_order))
             Preprocessor.demo_constant 7%R).
    + reflexivity.
    + repeat constructor.
  - apply (proj2 (standardize_constant (Rd := Preprocessor.in_order))
             Preprocessor.demo_white xff).
    + reflexivity.
    + apply Forall_forall. intros b Hb. apply repeat_spec in Hb.
      symmetry. exact Hb.
    + reflexivity.
Defined.

(** C8 as the specification states it fails in binary64: whatever the
    order in which three copies of 0.1 are added, their mean is rounded
    to 0.10000000000000002, each element is a little below it, and none
    of the standardized elements is zero. *)
Lemma standardize_constant_rounds :
  Forall (eq (hd 0%float (data Preprocessor.demo_tenths)))
         (data Preprocessor.demo_tenths) /\
  forall Rd : Preprocessor.Reduce,
    PrimFloat.eqb (Preprocessor.mean Preprocessor.demo_tenths)
                  (hd 0%float (data Preprocessor.demo_tenths)) = false /\
    forallb (fun v => negb (PrimFloat.eqb v 0%float))
            (data (Preprocessor.standardize Preprocessor.demo_tenths)) = true /\
    Preprocessor.standardize Preprocessor.demo_tenths <>
      mk_ndarray (shape Preprocessor.demo_tenths)
                 (repeat 0%float (size Preprocessor.demo_tenths)).
Proof.
  split; [repeat constructor|].
  intros Rd.
  destruct (complete_positions _ _ (Preprocessor.sum_order_complete 3))
    as [Hp1 Hl1].
  destruct (complete_positions _ _ (Preprocessor.squares_order_complete 3))
    as [Hp2 Hl2].
  assert (Hm : Preprocessor.mean Preprocessor.demo_tenths =
               Preprocessor.mean (Rd := Preprocessor.in_order)
                 Preprocessor.demo_tenths).
  { unfold Preprocessor.mean, Preprocessor.mean_by, Preprocessor.reduce,
      Preprocessor.demo_tenths.
    cbn [data length].
    rewrite run_three; [| vm_compute; reflexivity .. | exact Hp1 | lia].
    rewrite Hl1. vm_compute. reflexivity. }
  assert (Hs : Preprocessor.standardize Preprocessor.demo_tenths =
               Preprocessor.standardize (Rd := Preprocessor.in_order)
                 Preprocessor.demo_tenths).
  { unfold Preprocessor.standardize, Preprocessor.var, Preprocessor.mean_by,
      Preprocessor.reduce, Preprocessor.square, Preprocessor.sub_scalar,
      Preprocessor.div_scalar.
    rewrite Hm. unfold Preprocessor.demo_tenths.
    cbn [shape data map length].
    rewrite run_three; [| vm_compute; reflexivity .. | exact Hp2 | lia].
    rewrite Hl2. vm_compute. reflexivity. }
  rewrite Hm, Hs.
  split; [vm_compute; reflexivity|].
  split; [vm_compute; reflexivity|].
  intros E. apply (f_equal data) in E. vm_compute in E. discriminate E.
Qed.

Section ReshapeProperties.

Import Preprocessor.
Context {A : Type}.

Lemma reshape_images_ok (N : nat) (buf : list A) :
  reshape_images (mk_ndarray [N; 784] buf) = Ok (mk_ndarray [N; 1; 28; 28] buf).
Proof.
  unfold reshape_images, reshape, size, Np.prod.
  cbn [filter is_infer length known fold_right shape data resolve map].
  change (1 * (28 * (28 * 1))) with 784.
  replace (N * (784 * 1)) with (N * 784) by lia.
  rewrite Nat.Div0.mod_mul, Nat.div_mul by lia.
  reflexivity.
Qed.

Lemma flatten_images_ok (N : nat) (buf : list A) :
  flatten_images (mk_ndarray [N; 1; 28; 28] buf) = Ok (mk_ndarray [N; 784] buf).
Proof.
  unfold flatten_images, reshape, size, Np.prod.
  cbn [filter is_infer length known fold_right shape data resolve map].
  replace (N * (1 * (28 * (28 * 1)))) with (N * 784) by lia.
  change (784 * 1) with 784.
  rewrite Nat.Div0.mod_mul, Nat.div_mul by lia.
  reflexivity.
Qed.

(** Pixel (r, c) of image n is element r * 28 + c of row n. *)
Lemma reshape_images_pixel (N : nat) (buf : list A) (n r c : nat) :
  length buf = N * 784 -> n < N -> r < 28 -> c < 28 ->
  exists v,
    getitem (mk_ndarray [N; 1; 28; 28] buf) [n; 0; r; c] = Ok v /\
    getitem (mk_ndarray [N; 784] buf) [n; r * 28 + c] = Ok v.
Proof.
  intros Hlen Hn Hr Hc.
  unfold getitem. cbn [shape data ravel].
  destruct (Nat.ltb_spec n N); [|lia].
  destruct (Nat.ltb_spec r 28); [|lia].
  destruct (Nat.ltb_spec c 28); [|lia].
  destruct (Nat.ltb_spec (r * 28 + c) 784); [|lia].
  change (0 <? 1) with true. cbv iota.
  replace ((((0 * N + n) * 1 + 0) * 28 + r) * 28 + c)
    with ((0 * N + n) * 784 + (r * 28 + c)) by lia.
  destruct (nth_error buf ((0 * N + n) * 784 + (r * 28 + c))) as [v|] eqn:E.
  - exists v. split; reflexivity.
  - apply nth_error_None in E. nia.
Qed.

End ReshapeProperties.

(** C7. Reshaping an (N, 784) array to (N, 1, 28, 28) and flattening it
    again gives back the original array, element for element, and the
    same holds in the other direction; pixel (row, col) of image n is
    the element of index row * 28 + col of row n. *)
Theorem reshape_flatten_bijection {A : Type} (N : nat) (X : ndarray A) :
  wf X ->
  (shape X = [N; 784] ->
   exists T,
     Preprocessor.reshape_images X = Ok T /\
     shape T = [N; 1; 28; 28] /\ wf T /\
     data T = data X /\
     Preprocessor.flatten_images T = Ok X /\
     forall n r c, n < N -> r < 28 -> c < 28 ->
       exists v, getitem T [n; 0; r; c] = Ok v /\
                 getitem X [n; r * 28 + c] = Ok v) /\
  (shape X = [N; 1; 28; 28] ->
   exists F,
     Preprocessor.flatten_images X = Ok F /\
     shape F = [N; 784] /\ wf F /\
     data F = data X /\
     Preprocessor.reshape_images F = Ok X).
Proof.
  destruct X as [sh buf]. unfold wf, size. cbn [shape data].
  intros Hwf. split; intros ->.
  - exists (mk_ndarray [N; 1; 28; 28] buf).
    rewrite reshape_images_ok, flatten_images_ok.
    unfold wf, size. cbn [shape data].
    assert (Hlen : length buf = N * 784) by (rewrite Hwf; simpl; lia).
    split; [reflexivity|]. split; [reflexivity|].
    split; [rewrite Hlen; simpl; lia|].
    split; [reflexivity|]. split; [reflexivity|].
    intros n r c Hn Hr Hc. apply reshape_images_pixel; assumption.
  - exists (mk_ndarray [N; 784] buf).
    rewrite reshape_images_ok, flatten_images_ok.
    unfold wf, size. cbn [shape data].
    split; [reflexivity|]. split; [reflexivity|].
    split; [rewrite Hwf; simpl; lia|].
    split; reflexivity.
Qed.

Lemma reshape_flatten_bijection_witness :
  exists T,
    Preprocessor.reshape_images Preprocessor.demo_flat = Ok T /\
    shape T = [1; 1; 28; 28] /\ wf T /\
    data T = data Preprocessor.demo_flat /\
    Preprocessor.flatten_images T = Ok Preprocessor.demo_flat /\
    forall n r c, n < 1 -> r < 28 -> c < 28 ->
      exists v, getitem T [n; 0; r; c] = Ok v /\
                getitem Preprocessor.demo_flat [n; r * 28 + c] = Ok v.
Proof.
  apply (reshape_flatten_bijection 1 Preprocessor.demo_flat); reflexivity.
Defined.

Section LayerProperties.

Import Torch.
Context {F : Type} {SF : Scalar F}.

Lemma grid4_length {X : Type} (f : nat -> nat -> nat -> nat -> X) (a b c d : nat) :
  length (flat_map (fun i =>
            flat_map (fun j =>
              flat_map (fun k => map (fun l => f i j k l) (seq 0 d)) (seq 0 c))
              (seq 0 b))
            (seq 0 a)) = Np.prod [a; b; c; d].
Proof.
  rewrite flat_map_constant_length with (c := b * (c * (d * 1))).
  - rewrite length_seq. reflexivity.
  - intros i _. rewrite flat_map_constant_length with (c := c * (d * 1)).
    + rewrite length_seq. reflexivity.
    + intros j _. rewrite flat_map_constant_length with (c := d * 1).
      * rewrite length_seq. reflexivity.
      * intros k _. rewrite length_map, length_seq. lia.
Qed.

Lemma grid2_length {X : Type} (f : nat -> nat -> X) (a b : nat) :
  length (flat_map (fun i => map (fun j => f i j) (seq 0 b)) (seq 0 a)) =
  Np.prod [a; b].
Proof.
  rewrite flat_map_constant_length with (c := b * 1).
  - rewrite length_seq. reflexivity.
  - intros i _. rewrite length_map, length_seq. lia.
Qed.

Lemma relu_shape (x : Tensor F) : shape (relu x) = shape x.
Proof. reflexivity. Qed.

Lemma relu_wf (x : Tensor F) : wf x -> wf (relu x).
Proof.
  unfold wf, size, relu. cbn [shape data]. rewrite length_map. trivial.
Qed.

Lemma Conv2d_forward_ok (c : Conv2d F) (x : Tensor F) (B C H W : nat) :
  shape x = [B; C; H; W] ->
  C = in_channels c -> kernel_size c <= H -> kernel_size c <= W ->
  exists y,
    Conv2d_forward c x = Ok y /\
    shape y = [B; out_channels c; H - kernel_size c + 1; W - kernel_size c + 1] /\
    wf y.
Proof.
  intros Hs HC HH HW. unfold Conv2d_forward. rewrite Hs.
  destruct (Nat.eqb_spec C (in_channels c)); [|contradiction].
  destruct (Nat.leb_spec (kernel_size c) H); [|lia].
  destruct (Nat.leb_spec (kernel_size c) W); [|lia].
  cbn [andb]. eexists. split; [reflexivity|]. split; [reflexivity|].
  unfold wf, size. cbn [shape data]. apply grid4_length.
Qed.

Lemma MaxPool2d_forward_ok (p : MaxPool2d) (x : Tensor F) (B C H W : nat) :
  shape x = [B; C; H; W] ->
  pool_kernel_size p <= H -> pool_kernel_size p <= W -> 0 < pool_stride p ->
  exists y,
    MaxPool2d_forward p x = Ok y /\
    shape y = [B; C; (H - pool_kernel_size p) / pool_stride p + 1;
                     (W - pool_kernel_size p) / pool_stride p + 1] /\
    wf y.
Proof.
  intros Hs HH HW Hst. unfold MaxPool2d_forward. rewrite Hs.
  destruct (Nat.leb_spec (pool_kernel_size p) H); [|lia].
  destruct (Nat.leb_spec (pool_kernel_size p) W); [|lia].
  destruct (Nat.ltb_spec 0 (pool_stride p)); [|lia].
  cbn [andb]. eexists. split; [reflexivity|]. split; [reflexivity|].
  unfold wf, size. cbn [shape data]. apply grid4_length.
Qed.

Lemma Linear_forward_ok (l : Linear F) (x : Tensor F) (B : nat) :
  shape x = [B; in_features l] ->
  Linear_forward l x =
    Ok (mk_ndarray [B; out_features l]
          (flat_map (fun b => map (fun o => linear_at l x b o)
                                  (seq 0 (out_features l)))
                    (seq 0 B))).
Proof.
  intros Hs. unfold Linear_forward. rewrite Hs, Nat.eqb_refl. reflexivity.
Qed.

Lemma Linear_forward_wf (l : Linear F) (x y : Tensor F) :
  Linear_forward l x = Ok y -> wf y.
Proof.
  unfold Linear_forward.
  destruct (shape x) as [|B [|n [|]]]; try discriminate.
  destruct (n =? in_features l); [|discriminate].
  intros [= <-]. unfold wf, size. cbn [shape data]. apply grid2_length.
Qed.

Lemma view_flatten_ok (x : Tensor F) (B C H W : nat) :
  shape x = [B; C; H; W] -> 0 < B ->
  view x [Dim (len x); Infer] = Ok (mk_ndarray [B; C * H * W] (data x)).
Proof.
  intros Hs HB. unfold view, reshape, len, size. rewrite Hs.
  cbn [hd filter is_infer length known fold_right resolve map Np.prod].
  replace (B * (C * (H * (W * 1)))) with (C * H * W * (B * 1)) by lia.
  rewrite Nat.Div0.mod_mul, Nat.div_mul by lia.
  destruct (Nat.eqb_spec (B * 1) 0); [lia|].
  reflexivity.
Qed.

End LayerProperties.

Section ModelProperties.

Import Torch Model.
Context {F : Type} {SF : Scalar F}.

(** On a batch of B images of 28 by 28 pixels the layers up to [fc1]
    succeed, with the shapes (B,10,24,24), (B,10,12,12), (B,20,8,8),
    (B,20,4,4), (B,320) and (B,50). *)
Lemma hidden_ok (p : Parameters F) (x : Tensor F) (B : nat) :
  shape x = [B; 1; 28; 28] -> 0 < B ->
  exists h, hidden (CNN_init p) x = Ok h /\ shape h = [B; 50] /\ wf h.
Proof.
  intros Hs HB. unfold hidden.
  destruct (Conv2d_forward_ok (conv1 (CNN_init p)) x B 1 28 28 Hs)
    as (c1 & E1 & S1 & _); [reflexivity | simpl; lia | simpl; lia |].
  simpl in S1. rewrite E1. cbn [bind].
  destruct (MaxPool2d_forward_ok (pool1 (CNN_init p)) (relu c1) B 10 24 24 S1)
    as (x1 & E2 & S2 & _); [simpl; lia | simpl; lia | simpl; lia |].
  simpl in S2. rewrite E2. cbn [bind].
  destruct (Conv2d_forward_ok (conv2 (CNN_init p)) x1 B 10 12 12 S2)
    as (c2 & E3 & S3 & _); [reflexivity | simpl; lia | simpl; lia |].
  simpl in S3. rewrite E3. cbn [bind].
  destruct (MaxPool2d_forward_ok (pool2 (CNN_init p)) (relu c2) B 20 8 8 S3)
    as (x2 & E4 & S4 & _); [simpl; lia | simpl; lia | simpl; lia |].
  simpl in S4. rewrite E4. cbn [bind].
  rewrite (view_flatten_ok x2 B 20 4 4 S4 HB). cbn [bind].
  rewrite (Linear_forward_ok (fc1 (CNN_init p)) _ B) by reflexivity. cbn [bind].
  eexists. split; [reflexivity|]. split; [reflexivity|].
  apply relu_wf. unfold wf, size. cbn [shape data]. apply grid2_length.
Qed.

Lemma forward_via_hidden (self : CNN F) (x : Tensor F) :
  forward self x =
    Py.bind (hidden self x) (fun h =>
    Py.bind (Linear_forward (fc2 self) h) (fun s => Ok (relu s))).
Proof.
  unfold forward, hidden.
  destruct (Conv2d_forward (conv1 self) x); [|reflexivity]. cbn [bind].
  destruct (MaxPool2d_forward (pool1 self) _); [|reflexivity]. cbn [bind].
  destruct (Conv2d_forward (conv2 self) _); [|reflexivity]. cbn [bind].
  destruct (MaxPool2d_forward (pool2 self) _); [|reflexivity]. cbn [bind].
  destruct (view _ _); [|reflexivity]. cbn [bind].
  destruct (Linear_forward (fc1 self) _); reflexivity.
Qed.

Lemma spec_forward_via_hidden (self : CNN F) (x : Tensor F) :
  spec_forward self x =
    Py.bind (hidden self x) (fun h => Linear_forward (fc2 self) h).
Proof.
  unfold spec_forward, hidden.
  destruct (Conv2d_forward (conv1 self) x); [|reflexivity]. cbn [bind].
  destruct (MaxPool2d_forward (pool1 self) _); [|reflexivity]. cbn [bind].
  destruct (Conv2d_forward (conv2 self) _); [|reflexivity]. cbn [bind].
  destruct (MaxPool2d_forward (pool2 self) _); [|reflexivity]. cbn [bind].
  destruct (view _ _); [|reflexivity]. cbn [bind].
  destruct (Linear_forward (fc1 self) _); reflexivity.
Qed.

(** [forward] is the chain of the specification followed by a ReLU. *)
Lemma forward_relu_of_spec (self : CNN F) (x : Tensor F) :
  forward self x = Py.bind (spec_forward self x) (fun s => Ok (relu s)).
Proof.
  rewrite forward_via_hidden, spec_forward_via_hidden.
  destruct (hidden self x); reflexivity.
Qed.

Lemma spec_forward_ok (p : Parameters F) (x : Tensor F) (B : nat) :
  shape x = [B; 1; 28; 28] -> 0 < B ->
  exists h s,
    hidden (CNN_init p) x = Ok h /\ shape h = [B; 50] /\
    Linear_forward (fc2 (CNN_init p)) h = Ok s /\
    spec_forward (CNN_init p) x = Ok s /\
    shape s = [B; 10] /\ wf s.
Proof.
  intros Hs HB.
  destruct (hidden_ok p x B Hs HB) as (h & Eh & Sh & Wh).
  pose proof (Linear_forward_ok (fc2 (CNN_init p)) h B Sh) as E.
  eexists h, _. split; [exact Eh|]. split; [exact Sh|].
  split; [exact E|].
  split; [rewrite spec_forward_via_hidden, Eh; exact E|].
  split; [reflexivity|].
  apply (Linear_forward_wf _ _ _ E).
Qed.

Lemma row_relu (n b : nat) (s : Tensor F) :
  row n b (relu s) = map relu_scalar (row n b s).
Proof.
  unfold row, relu. cbn [data]. rewrite skipn_map, firstn_map. reflexivity.
Qed.

Lemma row_length (n b B : nat) (s : Tensor F) :
  shape s = [B; n] -> wf s -> b < B -> length (row n b s) = n.
Proof.
  unfold wf, size, row. intros -> Hwf Hb. cbn [Np.prod fold_right] in Hwf.
  rewrite length_firstn, length_skipn. nia.
Qed.

End ModelProperties.

(** C1, as the code has it.  On every batch of B > 0 images of 28 by 28
    pixels [forward] runs, in this order, convolution(1,10,5), ReLU,
    max-pool(2,2), convolution(10,20,5), ReLU, max-pool(2,2), flatten,
    fully-connected(320,50), ReLU, fully-connected(50,10) and then one
    more ReLU; every stage succeeds, with the shapes written below, and
    the output of each sample is the length-10 output vector of the last
    fully-connected layer with ReLU applied to each of its elements. *)
Theorem forward_topology {F : Type} {SF : Torch.Scalar F}
  (p : Model.Parameters F) (x : Torch.Tensor F) (B : nat) :
  shape x = [B; 1; 28; 28] -> 0 < B ->
  exists c1 p1 c2 p2 f h s,
    Torch.Conv2d_forward
      (Torch.mk_Conv2d 1 10 5 (Model.conv1_weight p) (Model.conv1_bias p)) x = Ok c1 /\
    shape c1 = [B; 10; 24; 24] /\
    Torch.MaxPool2d_forward (Torch.mk_MaxPool2d 2 2) (Torch.relu c1) = Ok p1 /\
    shape p1 = [B; 10; 12; 12] /\
    Torch.Conv2d_forward
      (Torch.mk_Conv2d 10 20 5 (Model.conv2_weight p) (Model.conv2_bias p)) p1 = Ok c2 /\
    shape c2 = [B; 20; 8; 8] /\
    Torch.MaxPool2d_forward (Torch.mk_MaxPool2d 2 2) (Torch.relu c2) = Ok p2 /\
    shape p2 = [B; 20; 4; 4] /\
    Torch.view p2 [Dim B; Infer] = Ok f /\
    shape f = [B; 320] /\
    Torch.Linear_forward
      (Torch.mk_Linear 320 50 (Model.fc1_weight p) (Model.fc1_bias p)) f = Ok h /\
    shape h = [B; 50] /\
    Torch.Linear_forward
      (Torch.mk_Linear 50 10 (Model.fc2_weight p) (Model.fc2_bias p))
      (Torch.relu h) = Ok s /\
    shape s = [B; 10] /\
    Model.forward (Model.CNN_init p) x = Ok (Torch.relu s) /\
    wf (Torch.relu s) /\
    forall b, b < B ->
      length (Model.row 10 b (Torch.relu s)) = 10 /\
      Model.row 10 b (Torch.relu s) = map Torch.relu_scalar (Model.row 10 b s).
Proof.
  intros Hs HB.
  destruct (Conv2d_forward_ok (Model.conv1 (Model.CNN_init p)) x B 1 28 28 Hs)
    as (c1 & E1 & S1 & _); [reflexivity | simpl; lia | simpl; lia |].
  simpl in S1.
  destruct (MaxPool2d_forward_ok (Model.pool1 (Model.CNN_init p)) (Torch.relu c1)
              B 10 24 24 S1)
    as (p1 & E2 & S2 & _); [simpl; lia | simpl; lia | simpl; lia |].
  simpl in S2.
  destruct (Conv2d_forward_ok (Model.conv2 (Model.CNN_init p)) p1 B 10 12 12 S2)
    as (c2 & E3 & S3 & _); [reflexivity | simpl; lia | simpl; lia |].
  simpl in S3.
  destruct (MaxPool2d_forward_ok (Model.pool2 (Model.CNN_init p)) (Torch.relu c2)
              B 20 8 8 S3)
    as (p2 & E4 & S4 & _); [simpl; lia | simpl; lia | simpl; lia |].
  simpl in S4.
  pose proof (view_flatten_ok p2 B 20 4 4 S4 HB) as E5.
  assert (Hlen : len p2 = B) by (unfold len; rewrite S4; reflexivity).
  assert (H6 : exists h,
             Torch.Linear_forward (Model.fc1 (Model.CNN_init p))
               (mk_ndarray [B; 20 * 4 * 4] (data p2)) = Ok h /\
             shape h = [B; 50]).
  { eexists. split; [apply (Linear_forward_ok _ _ B); reflexivity | reflexivity]. }
  destruct H6 as (h & E6 & S6).
  assert (H7 : exists s,
             Torch.Linear_forward (Model.fc2 (Model.CNN_init p)) (Torch.relu h) = Ok s /\
             shape s = [B; 10]).
  { eexists. split; [apply (Linear_forward_ok _ _ B); exact S6 | reflexivity]. }
  destruct H7 as (s & E7 & S7).
  pose proof (Linear_forward_wf _ _ _ E7) as W7.
  exists c1, p1, c2, p2, (mk_ndarray [B; 20 * 4 * 4] (data p2)), h, s.
  split; [exact E1|]. split; [exact S1|].
  split; [exact E2|]. split; [exact S2|].
  split; [exact E3|]. split; [exact S3|].
  split; [exact E4|]. split; [exact S4|].
  split; [rewrite <- Hlen at 1; exact E5|]. split; [reflexivity|].
  split; [exact E6|]. split; [exact S6|].
  split; [exact E7|]. split; [exact S7|].
  split.
  { unfold Model.forward. rewrite E1. cbn [Py.bind]. rewrite E2. cbn [Py.bind].
    rewrite E3. cbn [Py.bind]. rewrite E4. cbn [Py.bind].
    rewrite E5. cbn [Py.bind]. rewrite E6. cbn [Py.bind].
    rewrite E7. reflexivity. }
  split; [apply relu_wf, W7|].
  intros b Hb. split; [|apply row_relu].
  apply (row_length 10 b B); [exact S7 | apply relu_wf, W7 | exact Hb].
Qed.

Lemma forward_topology_witness :
  exists s,
    Model.forward (Model.CNN_init (Model.demo_parameters 0)) (Model.demo_images 1) =
      Ok (Torch.relu s) /\
    shape (Torch.relu s) = [1; 10] /\
    length (Model.row 10 0 (Torch.relu s)) = 10.
Proof.
  destruct (forward_topology (Model.demo_parameters 0) (Model.demo_images 1) 1)
    as (c1 & p1 & c2 & p2 & f & h & s & H); [reflexivity | lia |].
  exists s.
  split; [apply H|]. split; [apply H|].
  apply H. lia.
Defined.

Section DemoModel.

Import Torch Model.

Lemma fold_add_zeros (g : nat -> Z) (l : list nat) (v : Z) :
  (forall k, g k = 0%Z) -> fold_left Z.add (map g l) v = v.
Proof.
  intros Hg. revert v. induction l as [|k l IH]; intros v; simpl.
  - reflexivity.
  - rewrite Hg, Z.add_0_r. apply IH.
Qed.

Lemma demo_linear_at (b : Z) (h : Tensor Z) (i o : nat) :
  o < 10 -> linear_at (fc2 (CNN_init (demo_parameters b))) h i o = b.
Proof.
  intros Ho. unfold linear_at.
  cbn [fc2 CNN_init in_features lweight lbias demo_parameters fc2_weight fc2_bias].
  rewrite fold_add_zeros.
  - apply nth_repeat_lt. exact Ho.
  - intros k. cbn [fmul f0 Scalar_Z]. rewrite nth_repeat. apply Z.mul_0_r.
Qed.

(** With the parameters [demo_parameters b] the last fully-connected
    layer gives [b] in every class, whatever the images are. *)
Lemma demo_spec_forward (b : Z) (x : Tensor Z) (B : nat) :
  shape x = [B; 1; 28; 28] -> 0 < B ->
  spec_forward (CNN_init (demo_parameters b)) x =
    Ok (mk_ndarray [B; 10] (flat_map (fun _ => repeat b 10) (seq 0 B))).
Proof.
  intros Hs HB.
  destruct (hidden_ok (demo_parameters b) x B Hs HB) as (h & Eh & Sh & _).
  rewrite spec_forward_via_hidden, Eh. cbn [bind].
  rewrite (Linear_forward_ok (fc2 (CNN_init (demo_parameters b))) h B Sh).
  f_equal. f_equal.
  cbn [fc2 CNN_init out_features].
  apply flat_map_ext. intros i.
  transitivity (map (fun _ : nat => b) (seq 0 10)); [|reflexivity].
  apply map_ext_in. intros o Ho. apply in_seq in Ho.
  apply demo_linear_at. lia.
Qed.

Lemma demo_forward (b : Z) (x : Tensor Z) (B : nat) :
  shape x = [B; 1; 28; 28] -> 0 < B ->
  forward (CNN_init (demo_parameters b)) x =
    Ok (relu (mk_ndarray [B; 10] (flat_map (fun _ => repeat b 10) (seq 0 B)))).
Proof.
  intros Hs HB.
  rewrite forward_relu_of_spec, (demo_spec_forward b x B Hs HB). reflexivity.
Qed.

End DemoModel.

(** C1 as the specification states it fails: with a negative bias in the
    last layer, the output of [forward] on a black image is the zero
    vector, while the last fully-connected layer gives -1 in every
    class. *)
Lemma forward_is_not_raw_scores :
  Model.spec_forward (Model.CNN_init (Model.demo_parameters (-1))) (Model.demo_images 1) =
    Ok (mk_ndarray [1; 10] (repeat (-1)%Z 10)) /\
  Model.forward (Model.CNN_init (Model.demo_parameters (-1))) (Model.demo_images 1) =
    Ok (mk_ndarray [1; 10] (repeat 0%Z 10)) /\
  Model.forward (Model.CNN_init (Model.demo_parameters (-1))) (Model.demo_images 1) <>
  Model.spec_forward (Model.CNN_init (Model.demo_parameters (-1))) (Model.demo_images 1).
Proof.
  rewrite (demo_forward (-1) (Model.demo_images 1) 1) by (reflexivity || lia).
  rewrite (demo_spec_forward (-1) (Model.demo_images 1) 1) by (reflexivity || lia).
  split; [reflexivity|]. split; [reflexivity|].
  vm_compute. discriminate.
Qed.

Section FrameProperties.

Import Torch Model Notebook.
Context {F : Type} {SF : Scalar F} {T : Backend F}.

Lemma keeps_ret {A} (a : A) : keeps_model (ret a).
Proof. intros s. split; reflexivity. Qed.

Lemma keeps_lift {A} (r : result A) : keeps_model (lift r).
Proof. intros s. split; reflexivity. Qed.

Lemma keeps_get : keeps_model get.
Proof. intros s. split; reflexivity. Qed.

Lemma keeps_call_cnn (x : Tensor F) : keeps_model (call_cnn x).
Proof. intros s. split; reflexivity. Qed.

Lemma keeps_modify (f : State F -> State F) :
  (forall s, cnn (f s) = cnn s /\ autograd (f s) = autograd s) ->
  keeps_model (modify f).
Proof. intros Hf s. apply Hf. Qed.

Lemma keeps_print (l : Line F) : keeps_model (print l).
Proof. intros s. split; reflexivity. Qed.

Lemma keeps_bind {A B} (m : Cell F A) (k : A -> Cell F B) :
  keeps_model m -> (forall a, keeps_model (k a)) -> keeps_model (bind m k).
Proof.
  intros Hm Hk s. unfold bind.
  destruct (Hm s) as [Hc Ha].
  destruct (m s) as [s' [a|e]]; cbn [fst] in *.
  - destruct (Hk a s') as [Hc' Ha']. split; congruence.
  - split; assumption.
Qed.

Lemma keeps_for_each {X} (l : list X) (body : X -> Cell F unit) :
  (forall x, keeps_model (body x)) -> keeps_model (for_each l body).
Proof.
  intros Hb. induction l as [|x l IH]; cbn [for_each].
  - apply keeps_ret.
  - apply keeps_bind; [apply Hb | intros _; exact IH].
Qed.

End FrameProperties.

Ltac keeps :=
  repeat first
    [ apply keeps_ret | apply keeps_lift | apply keeps_get
    | apply keeps_call_cnn | apply keeps_print
    | apply keeps_modify; intros ?; split; reflexivity
    | apply keeps_for_each; intros ?
    | apply keeps_bind; [|intros ?] ].

Lemma keeps_count_sample {F : Type} {SF : Torch.Scalar F} {T : Notebook.Backend F}
  (labels : list nat) (c : list Z) (i : nat) :
  Notebook.keeps_model (Notebook.count_sample labels c i).
Proof. unfold Notebook.count_sample. keeps. Qed.

Lemma keeps_evaluate_batch {F : Type} {SF : Torch.Scalar F} {T : Notebook.Backend F}
  (data : Notebook.Batch F) :
  Notebook.keeps_model (Notebook.evaluate_batch data).
Proof.
  unfold Notebook.evaluate_batch, Notebook.tally. keeps.
Qed.

Lemma keeps_report_class {F : Type} {SF : Torch.Scalar F} {T : Notebook.Backend F}
  (i : nat) :
  Notebook.keeps_model (Notebook.report_class i).
Proof. unfold Notebook.report_class. keeps. Qed.

(** C10. Whatever the batches and whatever the outcome, the evaluation
    cell leaves the parameters of the classifier, their gradient buffers
    and the optimizer state exactly as it found them: it only calls the
    forward pass. *)
Theorem evaluate_keeps_parameters {F : Type} {SF : Torch.Scalar F}
  {T : Notebook.Backend F}
  (test_loader : list (Notebook.Batch F)) (s : Notebook.State F) :
  Notebook.cnn (fst (Notebook.evaluate test_loader s)) = Notebook.cnn s /\
  Notebook.autograd (fst (Notebook.evaluate test_loader s)) = Notebook.autograd s.
Proof.
  revert s. change (Notebook.keeps_model (Notebook.evaluate test_loader)).
  unfold Notebook.evaluate.
  do 4 (apply keeps_bind;
          [apply keeps_modify; intros ?; split; reflexivity | intros _]).
  apply keeps_bind; [|intros _].
  { induction test_loader as [|data rest IH]; cbn [Notebook.for_each].
    - apply keeps_ret.
    - apply keeps_bind; [apply keeps_evaluate_batch | intros _; exact IH]. }
  apply keeps_bind; [apply keeps_get | intros s'].
  apply keeps_bind; [apply keeps_lift | intros percent].
  apply keeps_bind; [apply keeps_print | intros _].
  apply keeps_for_each. intros i. apply keeps_report_class.
Qed.

(** C9 as the code has it.  Over an empty set of batches the evaluation
    cell ends its loop with [total = 0] and [correct = 0], and then
    raises [ZeroDivisionError] when it computes 100 * correct / total for
    the accuracy line; nothing is printed. *)
Theorem evaluate_empty {F : Type} {SF : Torch.Scalar F}
  {T : Notebook.Backend F} (s : Notebook.State F) :
  Notebook.total (fst (Notebook.evaluate [] s)) = 0%Z /\
  Notebook.correct (fst (Notebook.evaluate [] s)) = 0%Z /\
  Notebook.stdout (fst (Notebook.evaluate [] s)) = Notebook.stdout s /\
  snd (Notebook.evaluate [] s) = Raise ZeroDivisionError.
Proof.
  repeat split.
Qed.

(** C9 as the specification states it fails: on the empty set of batches
    the cell does not complete, it divides by zero. *)
Lemma empty_evaluation_divides_by_zero :
  Notebook.total (fst (Notebook.evaluate [] Notebook.demo_state)) = 0%Z /\
  snd (Notebook.evaluate [] Notebook.demo_state) = Raise ZeroDivisionError /\
  ~ (exists s', Notebook.evaluate [] Notebook.demo_state = (s', Ok tt)).
Proof.
  split; [reflexivity|]. split; [reflexivity|].
  intros (s' & E). apply (f_equal snd) in E. discriminate E.
Qed.

Section CellProperties.

Import Torch Model Notebook.
Context {F : Type} {SF : Scalar F} {T : Backend F}.

Lemma bind_ok {A B} (m : Cell F A) (k : A -> Cell F B) (s s' : State F) (a : A) :
  m s = (s', Ok a) -> Notebook.bind m k s = k a s'.
Proof. intros E. unfold Notebook.bind. rewrite E. reflexivity. Qed.

Lemma bind_raise {A B} (m : Cell F A) (k : A -> Cell F B) (s s' : State F) (e : exn) :
  m s = (s', Raise e) -> Notebook.bind m k s = (s', Raise e).
Proof. intros E. unfold Notebook.bind. rewrite E. reflexivity. Qed.

End CellProperties.

Section EvaluationProperties.

Import Torch Model Notebook.

Lemma evaluate_batch_scores {F : Type} {SF : Scalar F} {T : Backend F}
  (data : Batch F) (s : State F) (out : Tensor F) :
  forward (CNN_init (cnn s)) (inputs data) = Ok out ->
  evaluate_batch data s = tally data out s.
Proof.
  intros E. unfold evaluate_batch, Notebook.bind, call_cnn. rewrite E. reflexivity.
Qed.

(** An exception in the first batch ends the cell, with the globals as
    the batch left them. *)
Lemma evaluate_first_batch_raises {F : Type} {SF : Scalar F} {T : Backend F}
  (data : Batch F) (rest : list (Batch F)) (s s' : State F) (e : exn) :
  evaluate_batch data
    (set_total_class (repeat 0%Z 10)
       (set_correct_class (repeat 0%Z 10)
          (set_total 0%Z (set_correct 0%Z s)))) = (s', Raise e) ->
  evaluate (data :: rest) s = (s', Raise e).
Proof.
  intros E. unfold evaluate. cbn [for_each].
  unfold Notebook.bind at 1 2 3 4 5 6. unfold modify.
  rewrite E. reflexivity.
Qed.

End EvaluationProperties.

Section CountingProperties.

Import Torch Model Notebook.
Context {F : Type} {SF : Scalar F} {T : Backend F}.

Lemma list_getitem_in_range {X} (l : list X) (i : nat) (d : X) :
  i < length l -> list_getitem l i = Ok (nth i l d).
Proof.
  intros Hi. unfold list_getitem.
  rewrite (nth_error_nth' l d Hi). reflexivity.
Qed.

Lemma list_getitem_out_of_range {X} (l : list X) (i : nat) :
  length l <= i -> list_getitem l i = Raise IndexError.
Proof.
  intros Hi. unfold list_getitem.
  rewrite (proj2 (nth_error_None l i) Hi). reflexivity.
Qed.

Lemma list_setitem_length {X} (l : list X) (i : nat) (v : X) :
  i < length l -> length (list_setitem l i v) = length l.
Proof.
  intros Hi. unfold list_setitem.
  rewrite length_app. cbn [length]. rewrite length_firstn, length_skipn. lia.
Qed.

(** After [counts[label] += v] class [label] has [v] more and the other
    classes what they had. *)
Lemma nth_bump (counts : list Z) (label k : nat) (v : Z) :
  label < length counts ->
  nth k (bump counts label v) 0%Z =
    if k =? label then (nth k counts 0 + v)%Z else nth k counts 0%Z.
Proof.
  intros Hl. unfold bump, list_setitem.
  destruct (Nat.eqb_spec k label) as [->|Hk].
  - rewrite app_nth2; rewrite length_firstn; [|lia].
    replace (label - Nat.min label (length counts)) with 0 by lia.
    reflexivity.
  - destruct (Nat.lt_ge_cases k label) as [Hlt|Hge].
    + rewrite app_nth1 by (rewrite length_firstn; lia).
      rewrite nth_firstn.
      destruct (Nat.ltb_spec k label); [reflexivity | lia].
    + rewrite app_nth2; rewrite length_firstn; [|lia].
      replace (Nat.min label (length counts)) with label by lia.
      destruct (k - label) as [|j] eqn:E; [lia|].
      cbn [nth]. rewrite nth_skipn. f_equal. lia.
Qed.

Variable labels : list nat.
Variable c : list Z.
Hypothesis c_length : length c = length labels.
Hypothesis labels_range : Forall (fun l => l < 10) labels.

Lemma count_sample_out_of_range (i : nat) (s : State F) :
  length labels <= i -> count_sample labels c i s = (s, Raise IndexError).
Proof.
  intros Hi. unfold count_sample, Notebook.bind, lift.
  rewrite list_getitem_out_of_range by exact Hi. reflexivity.
Qed.

Lemma count_sample_in_range (i : nat) (s : State F) :
  i < length labels -> ten_classes s ->
  count_sample labels c i s = (count_one labels c s i, Ok tt) /\
  ten_classes (count_one labels c s i).
Proof.
  intros Hi [Hcc Htc].
  destruct (nth_error labels i) as [label|] eqn:El;
    [|apply nth_error_None in El; lia].
  destruct (nth_error c i) as [ci|] eqn:Ec;
    [|apply nth_error_None in Ec; lia].
  assert (Hlabel : label < 10).
  { apply nth_error_In in El.
    exact (proj1 (Forall_forall _ labels) labels_range label El). }
  unfold count_one. rewrite El, Ec. split.
  - unfold count_sample, Notebook.bind, lift, get, modify, list_getitem at 1 3.
    rewrite El, Ec.
    rewrite (list_getitem_in_range (correct_class s) label 0%Z) by lia.
    cbn [total_class set_correct_class].
    rewrite (list_getitem_in_range (total_class s) label 0%Z) by lia.
    reflexivity.
  - unfold ten_classes, bump.
    cbn [correct_class total_class set_total_class set_correct_class].
    rewrite !list_setitem_length by lia. split; assumption.
Qed.

(** The loop over [range(n)] from [i], when the batch has a sample for
    each index. *)
Lemma count_samples_complete (n i : nat) (s : State F) :
  i + n <= length labels -> ten_classes s ->
  for_each (seq i n) (count_sample labels c) s =
    (fold_left (count_one labels c) (seq i n) s, Ok tt).
Proof.
  revert i s. induction n as [|n IH]; intros i s Hn Hs; cbn [seq for_each fold_left].
  - reflexivity.
  - destruct (count_sample_in_range i s) as [E Hs']; [lia | exact Hs |].
    rewrite (bind_ok _ _ s _ tt E). apply IH; [lia | exact Hs'].
Qed.

(** The same loop when the batch runs out of samples first. *)
Lemma count_samples_short (n i : nat) (s : State F) :
  i <= length labels -> length labels < i + n -> ten_classes s ->
  for_each (seq i n) (count_sample labels c) s =
    (fold_left (count_one labels c) (seq i (length labels - i)) s,
     Raise IndexError).
Proof.
  revert i s. induction n as [|n IH]; intros i s Hi Hn Hs; [lia|].
  cbn [seq for_each].
  destruct (Nat.eq_dec i (length labels)) as [->|Hne].
  - rewrite (bind_raise _ _ _ _ _ (count_sample_out_of_range _ s (le_n _))).
    rewrite Nat.sub_diag. reflexivity.
  - destruct (count_sample_in_range i s) as [E Hs']; [lia | exact Hs |].
    rewrite (bind_ok _ _ s _ tt E).
    rewrite IH by (lia || exact Hs').
    replace (length labels - i) with (S (length labels - S i)) by lia.
    reflexivity.
Qed.

End CountingProperties.

Section TallyProperties.

Import Torch Model Notebook.
Context {F : Type} {SF : Scalar F} {T : Backend F}.

Lemma tensor_eq_length (predicted labels : list nat) (c : list Z) :
  tensor_eq predicted labels = Ok c -> length c = length labels.
Proof.
  unfold tensor_eq.
  destruct (Nat.eqb_spec (length predicted) (length labels)) as [E|]; [|discriminate].
  intros [= <-]. rewrite length_map, length_combine. lia.
Qed.

Variable data : Batch F.
Variable out : Tensor F.
Variable predicted : list nat.
Variable c : list Z.
Hypothesis scores : argmax_rows out = Ok predicted.
Hypothesis matches : tensor_eq predicted (labels data) = Ok c.
Hypothesis labels_range : Forall (fun l => l < 10) (labels data).

Lemma tally_unfold (s : State F) :
  tally data out s =
    for_each (seq 0 4) (count_sample (labels data) c)
      (set_correct (correct s + tensor_sum c)
         (set_total (total s + Z.of_nat (length (labels data))) s)).
Proof.
  unfold tally, Notebook.bind, lift, modify.
  rewrite scores, matches. reflexivity.
Qed.

(** A batch of exactly four samples: every sample is counted, in the
    class of its true label. *)
Lemma tally_full_batch (s : State F) :
  length (labels data) = 4 -> ten_classes s ->
  tally data out s =
    (fold_left (count_one (labels data) c) [0; 1; 2; 3]
       (set_correct (correct s + tensor_sum c)
          (set_total (total s + 4) s)),
     Ok tt).
Proof.
  intros H4 Hs. rewrite tally_unfold, H4.
  apply count_samples_complete.
  - apply (tensor_eq_length _ _ _ matches).
  - exact labels_range.
  - lia.
  - exact Hs.
Qed.

(** A batch of fewer than four samples: its samples are counted and the
    loop then raises [IndexError]. *)
Lemma tally_short_batch (s : State F) :
  length (labels data) < 4 -> ten_classes s ->
  tally data out s =
    (fold_left (count_one (labels data) c) (seq 0 (length (labels data)))
       (set_correct (correct s + tensor_sum c)
          (set_total (total s + Z.of_nat (length (labels data))) s)),
     Raise IndexError).
Proof.
  intros H4 Hs. rewrite tally_unfold.
  rewrite (count_samples_short (labels data) c
             (tensor_eq_length _ _ _ matches) labels_range 4 0)
    by (lia || exact Hs).
  rewrite Nat.sub_0_r. reflexivity.
Qed.

End TallyProperties.

(** A last batch of fewer than four samples.  On a test set of two
    samples, labelled 0 and 1 and both predicted 0, the cell counts the
    two samples (total 2, correct 1, class 0: 1 of 1, class 1: 0 of 1)
    and then raises [IndexError] on [labels[2]]: the inner loop runs
    over [range(4)] whatever the size of the batch, and no accuracy is
    printed. *)
Lemma evaluate_partial_batch_raises :
  Notebook.evaluate [Notebook.demo_batch [0; 1]] Notebook.demo_state =
    (Notebook.mk_State (Model.demo_parameters 0) 0 0%Z 1%Z 2%Z
       [1; 0; 0; 0; 0; 0; 0; 0; 0; 0]%Z
       [1; 1; 0; 0; 0; 0; 0; 0; 0; 0]%Z
       [],
     Raise IndexError).
Proof.
  apply evaluate_first_batch_raises.
  rewrite (evaluate_batch_scores _ _
             (Torch.relu (mk_ndarray [2; 10]
                (flat_map (fun _ => repeat 0%Z 10) (seq 0 2))))).
  - vm_compute. reflexivity.
  - apply (demo_forward 0 (Model.demo_images 2) 2); [reflexivity | lia].
Qed.

Section TrainingProperties.

Import Torch Model Notebook.
Context {F : Type} {SF : Scalar F} {T : Backend F}.

(** One pass of the loop body, when the forward pass and the loss
    succeed. *)
Lemma train_batch_step (m e i : Z) (data : Batch F) (s : State F)
  (pa : Parameters F * Autograd) (loss : F) :
  m <> 0%Z ->
  sgd_step data (cnn s, autograd s) = (pa, Ok loss) ->
  train_batch m e i data s =
    if (i mod m =? m - 1)%Z then
      (mk_State (fst pa) (snd pa) f0 (correct s) (total s)
                (correct_class s) (total_class s)
                (stdout s ++ [LossLine (e + 1) (i + 1)
                                (fdiv_int (fadd (running_loss s) loss) m)]),
       Ok tt)
    else
      (mk_State (fst pa) (snd pa) (fadd (running_loss s) loss) (correct s) (total s)
                (correct_class s) (total_class s) (stdout s),
       Ok tt).
Proof.
  intros Hm. unfold sgd_step. cbn [fst snd]. intros E.
  unfold train_batch, Notebook.bind, modify, call_cnn, lift, get, print, modify.
  cbn [cnn autograd set_autograd set_model].
  destruct (forward (CNN_init (cnn s)) (inputs data)) as [outputs|]; [|discriminate].
  destruct (criterion outputs (labels data)) as [l|]; [|discriminate].
  injection E as <- <-.
  destruct (optimizer_step _ _) as [p a]. cbn [fst snd].
  unfold py_mod. destruct (Z.eqb_spec m 0); [contradiction|].
  destruct (i mod m =? m - 1)%Z; reflexivity.
Qed.

(** The loop over the batches of an epoch is the scan of their losses. *)
Lemma train_batches_scan (m e : Z) (loader : list (Batch F)) :
  m <> 0%Z ->
  forall (i : Z) (s : State F) (pa : Parameters F * Autograd) (ls : list F),
  epoch_losses loader (cnn s, autograd s) = (pa, Ok ls) ->
  for_each (enumerate loader i)
           (fun id => train_batch m e (fst id) (snd id)) s =
    (mk_State (fst pa) (snd pa) (snd (report_scan m e i (running_loss s) ls))
              (correct s) (total s) (correct_class s) (total_class s)
              (stdout s ++ fst (report_scan m e i (running_loss s) ls)),
     Ok tt).
Proof.
  intros Hm. induction loader as [|d rest IH]; intros i s pa ls E.
  - cbn in E. injection E as <- <-. cbn.
    rewrite app_nil_r. destruct s; reflexivity.
  - cbn [epoch_losses] in E.
    destruct (sgd_step d (cnn s, autograd s)) as [pa1 [l|]] eqn:E1; [|discriminate].
    destruct (epoch_losses rest pa1) as [pa2 [ls'|]] eqn:E2; [|discriminate].
    injection E as <- <-.
    cbn [enumerate for_each fst snd report_scan].
    pose proof (train_batch_step m e i d s pa1 l Hm E1) as Hstep.
    destruct (i mod m =? m - 1)%Z;
      rewrite (bind_ok _ _ s _ tt Hstep);
      (rewrite IH with (pa := pa2) (ls := ls');
       [| cbn [cnn autograd]; destruct pa1; exact E2]);
      cbn [running_loss correct total correct_class total_class stdout].
    + destruct (report_scan m e (i + 1) f0 ls') as [out a].
      cbn [fst snd]. rewrite <- app_assoc. reflexivity.
    + reflexivity.
Qed.

End TrainingProperties.

Section ReportProperties.

Import Torch Model Notebook.
Context {F : Type} {SF : Scalar F}.

Lemma skipn_past {A} (c rest : list A) (j : nat) :
  skipn (length c + j) (c ++ rest) = skipn j rest.
Proof. induction c as [|x c IH]; simpl; auto. Qed.

Lemma firstn_exact {A} (c rest : list A) :
  firstn (length c) (c ++ rest) = c.
Proof. induction c as [|x c IH]; simpl; [reflexivity | f_equal; exact IH]. Qed.

Lemma accumulate_snoc (pre : list F) (l : F) :
  accumulate (pre ++ [l]) = fadd (accumulate pre) l.
Proof. unfold accumulate. rewrite fold_left_app. reflexivity. Qed.

Variables m e : Z.
Hypothesis m_pos : (0 < m)%Z.

Lemma full_runs_chunk (c rest : list F) :
  length c = Z.to_nat m ->
  length (c ++ rest) / Z.to_nat m = S (length rest / Z.to_nat m).
Proof.
  intros Hc. rewrite length_app, Hc.
  replace (Z.to_nat m + length rest) with (length rest + 1 * Z.to_nat m) by lia.
  rewrite Nat.div_add by lia. lia.
Qed.

Lemma interval_lines_chunk (q : Z) (c rest : list F) :
  length c = Z.to_nat m ->
  interval_lines m e q (c ++ rest) =
    LossLine (e + 1) ((q + 1) * m) (fdiv_int (accumulate c) m)
      :: interval_lines m e (q + 1) rest.
Proof.
  intros Hc. unfold interval_lines.
  rewrite (full_runs_chunk c rest Hc). cbn [seq map]. f_equal.
  - unfold interval. cbn [Nat.mul skipn]. rewrite <- Hc, firstn_exact.
    f_equal.
  - rewrite <- seq_shift, map_map. apply map_ext. intros k.
    f_equal; [f_equal; lia|]. f_equal. f_equal.
    unfold interval. cbn [Nat.mul].
    replace (Z.to_nat m + k * Z.to_nat m) with (length c + k * Z.to_nat m) by lia.
    rewrite skipn_past. reflexivity.
Qed.

Lemma pending_loss_chunk (c rest : list F) :
  length c = Z.to_nat m ->
  pending_loss m (c ++ rest) = pending_loss m rest.
Proof.
  intros Hc. unfold pending_loss.
  rewrite (full_runs_chunk c rest Hc). cbn [Nat.mul].
  replace (Z.to_nat m + length rest / Z.to_nat m * Z.to_nat m)
    with (length c + length rest / Z.to_nat m * Z.to_nat m) by lia.
  rewrite skipn_past. reflexivity.
Qed.

(** The scan in closed form: [pre] holds the losses accumulated since
    the last report, after [q] full runs. *)
Lemma report_scan_closed (ls pre : list F) (q : Z) :
  length pre < Z.to_nat m ->
  report_scan m e (q * m + Z.of_nat (length pre)) (accumulate pre) ls =
    (interval_lines m e q (pre ++ ls), pending_loss m (pre ++ ls)).
Proof.
  revert pre q. induction ls as [|l rest IH]; intros pre q Hpre.
  - cbn [report_scan]. rewrite app_nil_r.
    unfold interval_lines, pending_loss.
    rewrite Nat.div_small by exact Hpre. reflexivity.
  - cbn [report_scan].
    replace ((q * m + Z.of_nat (length pre)) mod m)%Z with (Z.of_nat (length pre)).
    2:{ rewrite Z.add_comm, Z.mod_add by lia. rewrite Z.mod_small; lia. }
    replace (pre ++ l :: rest) with ((pre ++ [l]) ++ rest)
      by (rewrite <- app_assoc; reflexivity).
    rewrite <- accumulate_snoc.
    destruct (Z.eqb_spec (Z.of_nat (length pre)) (m - 1)) as [Hfull|Hmore].
    + assert (Hc : length (pre ++ [l]) = Z.to_nat m)
        by (rewrite length_app; simpl; lia).
      replace (q * m + Z.of_nat (length pre) + 1)%Z
        with ((q + 1) * m + Z.of_nat (length (@nil F)))%Z by (simpl; lia).
      change f0 with (accumulate (@nil F)).
      rewrite IH by (simpl; lia). cbn [app].
      rewrite interval_lines_chunk, pending_loss_chunk by exact Hc.
      cbn [length Z.of_nat]. rewrite Z.add_0_r. reflexivity.
    + replace (q * m + Z.of_nat (length pre) + 1)%Z
        with (q * m + Z.of_nat (length (pre ++ [l])))%Z
        by (rewrite length_app; simpl; lia).
      apply IH. rewrite length_app. simpl. lia.
Qed.

End ReportProperties.

Section DemoTraining.

Import Torch Model Notebook.

Lemma demo_sgd_step (labels : list nat) (a : nat) :
  0 < length labels ->
  sgd_step (demo_batch labels) (demo_parameters 0, a) =
    ((demo_parameters 0, S a), Ok 1%Z).
Proof.
  intros Hl. unfold sgd_step. cbn [fst snd inputs demo_batch].
  rewrite (demo_forward 0 _ (length labels)); [reflexivity | reflexivity | exact Hl].
Qed.

Lemma demo_epoch_losses3 (a : nat) :
  epoch_losses demo_loader3 (demo_parameters 0, a) =
    ((demo_parameters 0, S (S (S a))), Ok [1; 1; 1]%Z).
Proof.
  unfold demo_loader3. cbn [epoch_losses].
  rewrite !demo_sgd_step by (simpl; lia). reflexivity.
Qed.

Lemma demo_epoch_losses1 (epoch a : nat) :
  epoch_losses (demo_loader1 epoch) (demo_parameters 0, a) =
    ((demo_parameters 0, S a), Ok [1%Z]).
Proof.
  unfold demo_loader1. cbn [epoch_losses].
  rewrite !demo_sgd_step by (simpl; lia). reflexivity.
Qed.

End DemoTraining.

(** C2, as the code has it.  In every epoch the accumulator of the
    running loss starts from zero; each time [report_interval] more
    batches of the epoch are done, the trainer prints the epoch counted
    from 1, the number of batches done in the epoch and the mean of the
    losses of exactly the last [report_interval] batches, and sets the
    accumulator back to zero.  At the end of the epoch the accumulator
    holds the losses of the batches after the last report, whatever it
    held before the epoch: it is reset at the report boundaries and at
    the start of each epoch. *)
Theorem train_epoch_reports {F : Type} {SF : Torch.Scalar F}
  {T : Notebook.Backend F}
  (report_interval : Z) (train_loader : list (Notebook.Batch F)) (epoch : Z)
  (s : Notebook.State F)
  (pa : Model.Parameters F * Notebook.Autograd) (losses : list F) :
  (0 < report_interval)%Z ->
  Notebook.epoch_losses train_loader (Notebook.cnn s, Notebook.autograd s) =
    (pa, Ok losses) ->
  Notebook.train_epoch report_interval train_loader epoch s =
    (Notebook.mk_State (fst pa) (snd pa)
       (Notebook.pending_loss report_interval losses)
       (Notebook.correct s) (Notebook.total s)
       (Notebook.correct_class s) (Notebook.total_class s)
       (Notebook.stdout s ++
        Notebook.interval_lines report_interval epoch 0 losses),
     Ok tt).
Proof.
  intros Hm E. unfold Notebook.train_epoch.
  rewrite (bind_ok _ _ s (Notebook.set_running_loss Torch.f0 s) tt eq_refl).
  rewrite (train_batches_scan report_interval epoch train_loader)
    with (pa := pa) (ls := losses); [| lia | exact E].
  cbn [Notebook.running_loss Notebook.set_running_loss Notebook.correct
       Notebook.total Notebook.correct_class Notebook.total_class
       Notebook.stdout].
  pose proof (report_scan_closed report_interval epoch Hm losses [] 0) as C.
  cbn [length Z.of_nat app] in C.
  change (Notebook.accumulate []) with (@Torch.f0 F SF) in C.
  rewrite Z.mul_0_l, Z.add_0_r in C.
  rewrite C by lia. reflexivity.
Qed.

Lemma train_epoch_reports_witness :
  Notebook.train_epoch 2 Notebook.demo_loader3 0 Notebook.demo_state =
    (Notebook.mk_State (Model.demo_parameters 0) 3 1%Z 0%Z 0%Z [] []
       [Notebook.LossLine 1 2 1%Z],
     Ok tt).
Proof.
  refine (train_epoch_reports 2 Notebook.demo_loader3 0 Notebook.demo_state
            (Model.demo_parameters 0, 3) [1; 1; 1]%Z _ _).
  - lia.
  - apply demo_epoch_losses3.
Defined.

Section DemoEpochs.

Import Torch Model Notebook.

(** One epoch of one batch with the default report interval: no report,
    and the accumulator holds the loss of the batch alone. *)
Lemma demo_train_epoch (epoch a : nat) (acc : Z) :
  train_epoch 5000 (demo_loader1 epoch) (Z.of_nat epoch)
    (mk_State (demo_parameters 0) a acc 0%Z 0%Z [] [] []) =
  (mk_State (demo_parameters 0) (S a) 1%Z 0%Z 0%Z [] [] [], Ok tt).
Proof.
  unfold train_epoch.
  erewrite bind_ok by reflexivity.
  rewrite (train_batches_scan 5000 (Z.of_nat epoch) (demo_loader1 epoch))
    with (pa := (demo_parameters 0, S a)) (ls := [1%Z]);
    [reflexivity | lia | apply demo_epoch_losses1].
Qed.

(** The same epoch without the reset at its start: the accumulator keeps
    what it held. *)
Lemma demo_spec_train_epoch (epoch a : nat) (acc : Z) :
  spec_train_epoch 5000 (demo_loader1 epoch) (Z.of_nat epoch)
    (mk_State (demo_parameters 0) a acc 0%Z 0%Z [] [] []) =
  (mk_State (demo_parameters 0) (S a) (acc + 1)%Z 0%Z 0%Z [] [] [], Ok tt).
Proof.
  unfold spec_train_epoch.
  rewrite (train_batches_scan 5000 (Z.of_nat epoch) (demo_loader1 epoch))
    with (pa := (demo_parameters 0, S a)) (ls := [1%Z]);
    [reflexivity | lia | apply demo_epoch_losses1].
Qed.

End DemoEpochs.

(** C2 as the specification states it fails: the accumulator is also
    reset where no report is due.  Two epochs of one batch each, with a
    loss of 1 per batch and the default interval of 5000, print no
    report; the accumulator ends at 1, the loss of the second epoch
    alone, where an accumulator reset at report boundaries only ends
    at 2. *)
Lemma running_loss_reset_at_epoch_start :
  Notebook.train 2 5000 Notebook.demo_loader1 Notebook.demo_state =
    (Notebook.mk_State (Model.demo_parameters 0) 2 1%Z 0%Z 0%Z [] []
       [Notebook.TrainingComplete], Ok tt) /\
  Notebook.spec_train 2 5000 Notebook.demo_loader1 Notebook.demo_state =
    (Notebook.mk_State (Model.demo_parameters 0) 2 2%Z 0%Z 0%Z [] []
       [Notebook.TrainingComplete], Ok tt) /\
  Notebook.running_loss
    (fst (Notebook.train 2 5000 Notebook.demo_loader1 Notebook.demo_state)) <>
  Notebook.running_loss
    (fst (Notebook.spec_train 2 5000 Notebook.demo_loader1 Notebook.demo_state)).
Proof.
  assert (E : Notebook.train 2 5000 Notebook.demo_loader1 Notebook.demo_state =
    (Notebook.mk_State (Model.demo_parameters 0) 2 1%Z 0%Z 0%Z [] []
       [Notebook.TrainingComplete], Ok tt)).
  { unfold Notebook.train. cbn [seq Notebook.for_each].
    erewrite bind_ok.
    2:{ erewrite bind_ok by apply (demo_train_epoch 0 0 0).
        erewrite bind_ok by apply (demo_train_epoch 1 1 1).
        reflexivity. }
    reflexivity. }
  assert (E' : Notebook.spec_train 2 5000 Notebook.demo_loader1 Notebook.demo_state =
    (Notebook.mk_State (Model.demo_parameters 0) 2 2%Z 0%Z 0%Z [] []
       [Notebook.TrainingComplete], Ok tt)).
  { unfold Notebook.spec_train. cbn [seq Notebook.for_each].
    erewrite bind_ok by reflexivity.
    erewrite bind_ok.
    2:{ erewrite bind_ok by apply (demo_spec_train_epoch 0 0 0).
        erewrite bind_ok by apply (demo_spec_train_epoch 1 1 1).
        reflexivity. }
    reflexivity. }
  rewrite E, E'. split; [reflexivity|]. split; [reflexivity|].
  cbn. discriminate.
Qed.

(* ================================================================== *)
(** * Further properties of the cells *)
(* ================================================================== *)

Section ReaderContent.

Import Reader.

Lemma append_inj_l (a x y : string) :
  (a ++ x)%string = (a ++ y)%string -> x = y.
Proof.
  induction a as [|c a IH]; simpl; intros E; [exact E|].
  injection E as E. exact (IH E).
Qed.

Lemma startswith_sep_append (kind suffix : string) :
  startswith_sep suffix = false ->
  startswith_sep (kind ++ suffix) = startswith_sep kind.
Proof.
  intros Hs. destruct kind; simpl; [exact Hs | reflexivity].
Qed.

Lemma getitem_row_major {A} (N M : nat) (buf : list A) (n k : nat) (d : A) :
  n < N -> k < M -> n * M + k < length buf ->
  getitem (mk_ndarray [N; M] buf) [n; k] = Ok (nth (n * M + k) buf d).
Proof.
  intros Hn Hk Hlen. unfold getitem. cbn [shape data ravel].
  destruct (Nat.ltb_spec n N); [|lia].
  destruct (Nat.ltb_spec k M); [|lia].
  cbn [Nat.mul Nat.add].
  rewrite (nth_error_nth' buf d Hlen). reflexivity.
Qed.

Lemma getitem_vector {A} (N : nat) (buf : list A) (n : nat) (d : A) :
  n < N -> n < length buf ->
  getitem (mk_ndarray [N] buf) [n] = Ok (nth n buf d).
Proof.
  intros Hn Hlen. unfold getitem. cbn [shape data ravel].
  destruct (Nat.ltb_spec n N); [|lia].
  cbn [Nat.mul Nat.add].
  rewrite (nth_error_nth' buf d Hlen). reflexivity.
Qed.

End ReaderContent.

(** X1. [load_fmnist] reads and parses the label file before it opens
    the image file, and lets the exception of a failing read through.
    When reading the label file raises, [load_fmnist] raises the same
    exception, whatever the image file is; when the label file is read
    but holds fewer than the 8 bytes of its header, it raises
    [ValueError], even if the image file is missing; when the label
    file is read and long enough and reading the image file raises, it
    raises the exception of that read. *)
Theorem load_fmnist_unreadable (fs : Reader.filesystem) (path kind : string) :
  (forall e,
     fs (Reader.labels_path path kind) = Raise e ->
     Reader.load_fmnist fs path kind = Raise e) /\
  (forall lb,
     fs (Reader.labels_path path kind) = Ok lb -> length lb < 8 ->
     Reader.load_fmnist fs path kind = Raise ValueError) /\
  (forall lb e,
     fs (Reader.labels_path path kind) = Ok lb -> 8 <= length lb ->
     fs (Reader.images_path path kind) = Raise e ->
     Reader.load_fmnist fs path kind = Raise e).
Proof.
  unfold Reader.load_fmnist, Reader.gzip_read. repeat split.
  - intros e Hl. rewrite Hl. reflexivity.
  - intros lb Hl Hlen. rewrite Hl. cbn [Py.bind].
    rewrite frombuffer_short by exact Hlen. reflexivity.
  - intros lb e Hl Hlen Hi. rewrite Hl. cbn [Py.bind].
    rewrite frombuffer_ok by exact Hlen.
    cbn [Py.bind]. rewrite Hi. reflexivity.
Qed.

Lemma load_fmnist_unreadable_witness :
  Reader.load_fmnist Extra.damaged_fs "data" "train" = Raise EOFError /\
  Reader.load_fmnist Extra.short_labels_fs "data" "train" = Raise ValueError /\
  Reader.load_fmnist Extra.labels_only_fs "data" "train" = Raise OSError.
Proof.
  split; [|split].
  - apply (proj1 (load_fmnist_unreadable Extra.damaged_fs "data" "train")).
    reflexivity.
  - apply (proj1 (proj2 (load_fmnist_unreadable Extra.short_labels_fs
                           "data" "train")) (repeat x00 4)).
    + reflexivity.
    + simpl. lia.
  - apply (proj2 (proj2 (load_fmnist_unreadable Extra.labels_only_fs
                           "data" "train")) Reader.demo_labels_file).
    + reflexivity.
    + simpl. lia.
    + reflexivity.
Defined.

(** X2. What [load_fmnist] returns is the content of the files after
    their headers: label n is byte 8 + n of the label file, and pixel k
    of image n is byte 16 + 784 * n + k of the image file. *)
Theorem load_fmnist_content (fs : Reader.filesystem) (path kind : string)
  (lb img : list byte) (n k : nat) :
  fs (Reader.labels_path path kind) = Ok lb ->
  fs (Reader.images_path path kind) = Ok img ->
  8 <= length lb ->
  length img = 16 + 784 * (length lb - 8) ->
  n < length lb - 8 -> k < 784 ->
  exists images labels,
    Reader.load_fmnist fs path kind = Ok (images, labels) /\
    getitem labels [n] = Ok (nth (8 + n) lb x00) /\
    getitem images [n; k] = Ok (nth (16 + (n * 784 + k)) img x00).
Proof.
  intros Hlb Himg Hl Hi Hn Hk.
  eexists _, _. split.
  - eapply load_fmnist_valid; eassumption.
  - split.
    + rewrite (getitem_vector _ _ n x00) by (rewrite ?length_skipn; lia).
      rewrite nth_skipn. reflexivity.
    + rewrite (getitem_row_major _ 784 _ n k x00)
        by (rewrite ?length_skipn; lia).
      rewrite nth_skipn. reflexivity.
Qed.

Lemma load_fmnist_content_witness :
  exists images labels,
    Reader.load_fmnist Reader.demo_fs "data" "train" = Ok (images, labels) /\
    getitem labels [1] = Ok x09 /\
    getitem images [1; 783] = Ok x7f.
Proof.
  destruct (load_fmnist_content Reader.demo_fs "data" "train"
              Reader.demo_labels_file Reader.demo_images_file 1 783)
    as (images & labels & E & Hl & Hp);
    try reflexivity; try (simpl; lia).
  exists images, labels. split; [exact E|]. split; [exact Hl | exact Hp].
Defined.

(** X3. The label file and the image file of a split never have the
    same path, whatever the directory and the split name. *)
Theorem labels_and_images_paths_differ (path kind : string) :
  Reader.labels_path path kind <> Reader.images_path path kind.
Proof.
  unfold Reader.labels_path, Reader.images_path, os_path_join.
  rewrite !startswith_sep_append by reflexivity.
  destruct (startswith_sep kind).
  - intros E. apply append_inj_l in E. discriminate E.
  - destruct ((String.length path =? 0) || endswith_sep path).
    + intros E. apply append_inj_l, append_inj_l in E. discriminate E.
    + intros E. apply append_inj_l in E. simpl in E.
      injection E as E. apply append_inj_l in E. discriminate E.
Qed.

Section StandardizeExact.

Import Preprocessor.
Local Open Scope R_scope.
Context {Rd : Reduce}.

Abbreviation xsum := (fold_right Rplus 0).
Abbreviation xmean := (@mean R exact Rd).
Abbreviation xvar := (@var R exact Rd).
Abbreviation xstandardize := (@standardize R exact Rd).

Lemma sum_map_affine (m d : R) (l : list R) :
  xsum (map (fun v => (v - m) / d) l) = (xsum l - INR (length l) * m) / d.
Proof.
  induction l as [|x l IH].
  - simpl. unfold Rdiv. ring.
  - cbn [map length]. rewrite !sum_cons, IH, S_INR. unfold Rdiv. ring.
Qed.

Lemma sum_map_shift (k : R) (l : list R) :
  xsum (map (fun v => v + k) l) = xsum l + INR (length l) * k.
Proof.
  induction l as [|x l IH].
  - simpl. ring.
  - cbn [map length]. rewrite !sum_cons, IH, S_INR. ring.
Qed.

Lemma sum_map_scaled (f : R -> R) (c : R) (l : list R) :
  xsum (map (fun v => f v / c) l) = xsum (map f l) / c.
Proof.
  induction l as [|x l IH].
  - simpl. unfold Rdiv. ring.
  - cbn [map]. rewrite !sum_cons, IH. unfold Rdiv. ring.
Qed.

Lemma size_positive (a : ndarray R) :
  wf a -> data a <> [] -> INR (size a) <> 0.
Proof.
  intros Hwf Hne. apply not_0_INR. rewrite <- Hwf.
  destruct (data a); simpl; congruence.
Qed.

Lemma standardize_data (a : ndarray R) :
  data (xstandardize a) =
    map (fun v => (v - xmean a) / sqrt (xvar a + 1e-5)) (data a).
Proof.
  unfold standardize, div_scalar, sub_scalar.
  cbn [shape data]. rewrite map_map. reflexivity.
Qed.

Lemma mean_standardize (a : ndarray R) :
  wf a -> data a <> [] -> xmean (xstandardize a) = 0.
Proof.
  intros Hwf Hne. pose proof (size_positive a Hwf Hne) as Hn.
  rewrite mean_exact, standardize_data, sum_map_affine.
  change (size (xstandardize a)) with (size a).
  red in Hwf. rewrite Hwf, (mean_exact a).
  replace (xsum (data a) - INR (size a) * (xsum (data a) / INR (size a)))
    with 0 by (field; exact Hn).
  unfold Rdiv. ring.
Qed.

Lemma var_as_sum (a : ndarray R) :
  xvar a =
    xsum (map (fun v => (v - xmean a) * (v - xmean a)) (data a)) / INR (size a).
Proof. apply var_exact. Qed.

Lemma var_standardize (a : ndarray R) :
  wf a -> data a <> [] ->
  xvar (xstandardize a) = xvar a / (xvar a + 1e-5).
Proof.
  intros Hwf Hne. pose proof (size_positive a Hwf Hne) as Hn.
  pose proof (denominator_positive a) as Hd.
  pose proof (var_nonneg a) as Hv.
  rewrite (var_as_sum (xstandardize a)), (mean_standardize a Hwf Hne).
  rewrite standardize_data, map_map.
  change (size (xstandardize a)) with (size a).
  rewrite (map_ext _ (fun v => ((v - xmean a) * (v - xmean a)) /
                               (sqrt (xvar a + 1e-5) * sqrt (xvar a + 1e-5)))).
  2:{ intros v. unfold Rdiv. rewrite Rinv_mult. ring. }
  rewrite sum_map_scaled, sqrt_sqrt by lra.
  rewrite (var_as_sum a) at 2.
  set (S := xsum (map (fun v => (v - xmean a) * (v - xmean a)) (data a))).
  set (d := xvar a + 1e-5).
  unfold Rdiv. ring.
Qed.

End StandardizeExact.

(** X4. In exact arithmetic the standardized array of a non-empty array
    has mean exactly 0, whatever the order in which the library adds
    the elements. *)
Theorem standardize_mean_zero {Rd : Preprocessor.Reduce} (a : ndarray R) :
  wf a -> data a <> [] ->
  Preprocessor.mean (Preprocessor.standardize a) = 0%R.
Proof.
  intros Hwf Hne. apply mean_standardize; assumption.
Qed.

Lemma standardize_mean_zero_witness :
  Preprocessor.mean (Preprocessor.standardize Extra.demo_pixels) = 0%R.
Proof.
  apply (standardize_mean_zero Extra.demo_pixels).
  - reflexivity.
  - discriminate.
Defined.

(** X5. In exact arithmetic the variance of the standardized array is
    var / (var + 1e-5), where var is the variance of the input: it is
    always strictly below 1, and the standard deviation is never the 1
    of the docstring. *)
Theorem standardize_variance_below_one {Rd : Preprocessor.Reduce}
  (a : ndarray R) :
  wf a -> data a <> [] ->
  Preprocessor.var (Preprocessor.standardize a) =
    (Preprocessor.var a / (Preprocessor.var a + 1e-5))%R /\
  (0 <= Preprocessor.var (Preprocessor.standardize a) < 1)%R.
Proof.
  intros Hwf Hne. rewrite (var_standardize a Hwf Hne).
  split; [reflexivity|].
  pose proof (var_nonneg a) as Hv.
  assert (Hpos : (0 < Preprocessor.var a + 1e-5)%R) by lra.
  split.
  - apply Rmult_le_pos; [exact Hv|]. left. apply Rinv_0_lt_compat. exact Hpos.
  - apply (Rmult_lt_reg_r (Preprocessor.var a + 1e-5)%R); [exact Hpos|].
    unfold Rdiv. rewrite Rmult_assoc, Rinv_l by lra. lra.
Qed.

Lemma standardize_variance_below_one_witness :
  (0 <= Preprocessor.var (Preprocessor.standardize Extra.demo_pixels) < 1)%R.
Proof.
  apply (standardize_variance_below_one Extra.demo_pixels).
  - reflexivity.
  - discriminate.
Defined.

Section StandardizeShift.

Import Preprocessor.
Local Open Scope R_scope.
Context {Rd : Reduce}.

Abbreviation xsum := (fold_right Rplus 0).
Abbreviation xmean := (@mean R exact Rd).
Abbreviation xvar := (@var R exact Rd).
Abbreviation xstandardize := (@standardize R exact Rd).

Variable a : ndarray R.
Variable k : R.
Hypothesis a_wf : wf a.

(** The array [a + k]. *)
Abbreviation shifted := (mk_ndarray (shape a) (map (fun v => v + k) (data a))).

Lemma mean_shifted : data a <> [] -> xmean shifted = xmean a + k.
Proof.
  intros Hne. pose proof (size_positive a a_wf Hne) as Hn.
  rewrite !mean_exact. cbn [data].
  change (size shifted) with (size a).
  rewrite sum_map_shift. red in a_wf. rewrite a_wf. field. exact Hn.
Qed.

Lemma var_shifted : data a <> [] -> xvar shifted = xvar a.
Proof.
  intros Hne. rewrite !var_as_sum, (mean_shifted Hne).
  cbn [data]. rewrite map_map.
  change (size shifted) with (size a).
  f_equal. f_equal. apply map_ext. intros v. ring.
Qed.

Lemma standardize_shifted : xstandardize shifted = xstandardize a.
Proof.
  assert (Hcases : data a = [] \/ data a <> [])
    by (destruct (data a); [left; reflexivity | right; discriminate]).
  destruct Hcases as [E|Hne].
  - unfold standardize, div_scalar, sub_scalar.
    cbn [shape data]. rewrite E. reflexivity.
  - unfold standardize, div_scalar, sub_scalar.
    rewrite (var_shifted Hne), (mean_shifted Hne).
    cbn [shape data sub64 div64 add64 sqrt64 eps64 exact].
    f_equal. rewrite !map_map. apply map_ext. intros v.
    f_equal. ring.
Qed.

End StandardizeShift.

(** X6. In exact arithmetic [standardize] removes a constant offset:
    adding the same number to every element of an array does not change
    its standardized array. *)
Theorem standardize_shift_invariant {Rd : Preprocessor.Reduce}
  (a : ndarray R) (k : R) :
  wf a ->
  Preprocessor.standardize
    (mk_ndarray (shape a) (map (fun v => v + k)%R (data a))) =
  Preprocessor.standardize a.
Proof.
  intros Hwf. apply standardize_shifted. exact Hwf.
Qed.

Lemma standardize_shift_invariant_witness :
  Preprocessor.standardize
    (mk_ndarray (shape Extra.demo_pixels)
                (map (fun v => v + 100)%R (data Extra.demo_pixels))) =
  Preprocessor.standardize Extra.demo_pixels.
Proof.
  apply (standardize_shift_invariant Extra.demo_pixels 100%R).
  reflexivity.
Defined.

(** X7. In exact arithmetic [standardize] keeps the order of the
    elements: a pixel that is darker than another before is darker
    after, and equal pixels stay equal. *)
Theorem standardize_monotone {Rd : Preprocessor.Reduce}
  (a : ndarray R) (i j : nat) (v w : R) :
  nth_error (data a) i = Some v ->
  nth_error (data a) j = Some w ->
  exists v' w',
    nth_error (data (Preprocessor.standardize a)) i = Some v' /\
    nth_error (data (Preprocessor.standardize a)) j = Some w' /\
    ((v < w)%R -> (v' < w')%R) /\
    ((v = w)%R -> (v' = w')%R).
Proof.
  intros Hi Hj. pose proof (denominator_positive a) as Hd.
  rewrite standardize_data.
  eexists _, _.
  split; [apply map_nth_error; exact Hi|].
  split; [apply map_nth_error; exact Hj|].
  split.
  - intros Hlt. unfold Rdiv. apply Rmult_lt_compat_r.
    + apply Rinv_0_lt_compat. exact Hd.
    + lra.
  - intros ->. reflexivity.
Qed.

Lemma standardize_monotone_witness :
  exists v' w',
    nth_error (data (Preprocessor.standardize Extra.demo_pixels)) 0 = Some v' /\
    nth_error (data (Preprocessor.standardize Extra.demo_pixels)) 3 = Some w' /\
    (v' < w')%R.
Proof.
  destruct (standardize_monotone Extra.demo_pixels 0 3 1%R 6%R)
    as (v' & w' & Hv & Hw & Hlt & _); try reflexivity.
  exists v', w'. split; [exact Hv|]. split; [exact Hw|].
  apply Hlt. lra.
Defined.

Section ReshapeCases.

Import Preprocessor.

Lemma reshape_images_cases {A} (X : ndarray A) :
  reshape_images X =
    if size X mod 784 =? 0
    then Ok (mk_ndarray [size X / 784; 1; 28; 28] (data X))
    else Raise ValueError.
Proof.
  unfold reshape_images, reshape.
  cbn [filter is_infer length known fold_right resolve map].
  change (1 * (28 * (28 * 1))) with 784.
  change (784 =? 0) with false. cbn [orb].
  destruct (size X mod 784 =? 0); reflexivity.
Qed.

(** Standardizing does not look at the shape, only at the number of
    elements. *)
Lemma standardize_reshaped {F} {A64 : Float64 F} {Rd : Reduce}
  (a : ndarray F) (sh : list nat) :
  Np.prod sh = size a ->
  standardize (mk_ndarray sh (data a)) = mk_ndarray sh (data (standardize a)).
Proof.
  intros Hsh.
  assert (Hm : mean (mk_ndarray sh (data a)) = mean a).
  { unfold mean, mean_by, size. cbn [shape data]. rewrite Hsh. reflexivity. }
  assert (Hv : var (mk_ndarray sh (data a)) = var a).
  { unfold var. rewrite Hm. unfold mean_by, square, sub_scalar, size.
    cbn [shape data]. rewrite Hsh. reflexivity. }
  unfold standardize. rewrite Hm, Hv. reflexivity.
Qed.

End ReshapeCases.

(** X8. [X.reshape(-1, 1, 28, 28)] succeeds exactly when the number of
    elements of X is a multiple of 784, whatever the shape of X: it then
    returns size / 784 images over the same buffer, and raises
    [ValueError] otherwise. *)
Theorem reshape_images_defined {A : Type} (X : ndarray A) :
  Preprocessor.reshape_images X =
    if size X mod 784 =? 0
    then Ok (mk_ndarray [size X / 784; 1; 28; 28] (data X))
    else Raise ValueError.
Proof.
  apply reshape_images_cases.
Qed.

(** X9. Standardizing and reshaping commute, in any arithmetic: the
    notebook standardizes the flat images and then reshapes them, and
    reshaping first gives the same tensor (or the same error). *)
Theorem standardize_reshape_commute {F : Type} {A64 : Preprocessor.Float64 F}
  {Rd : Preprocessor.Reduce} (a : ndarray F) :
  Preprocessor.reshape_images (Preprocessor.standardize a) =
    match Preprocessor.reshape_images a with
    | Ok T => Ok (Preprocessor.standardize T)
    | Raise e => Raise e
    end.
Proof.
  rewrite !reshape_images_cases.
  change (size (Preprocessor.standardize a)) with (size a).
  destruct (Nat.eqb_spec (size a mod 784) 0) as [Hmod|Hmod]; [|reflexivity].
  f_equal. symmetry. apply standardize_reshaped.
  unfold Np.prod. cbn [fold_right].
  pose proof (Nat.div_mod_eq (size a) 784). lia.
Qed.

Section ForwardOutputs.

Import Torch Model.
Context {F : Type} {SF : Scalar F}.

Lemma relu_scalar_idempotent (v : F) :
  relu_scalar (relu_scalar v) = relu_scalar v.
Proof.
  unfold relu_scalar. destruct (fltb f0 v) eqn:E.
  - rewrite E. reflexivity.
  - destruct (fltb f0 f0); reflexivity.
Qed.

Lemma relu_idempotent (x : Tensor F) : relu (relu x) = relu x.
Proof.
  unfold relu. cbn [shape data]. rewrite map_map. f_equal.
  apply map_ext. intros v. apply relu_scalar_idempotent.
Qed.

Lemma forward_is_relu (self : CNN F) (x out : Tensor F) :
  forward self x = Ok out -> exists s, out = relu s.
Proof.
  rewrite forward_relu_of_spec.
  destruct (spec_forward self x) as [s|]; [|discriminate].
  intros [= <-]. exists s. reflexivity.
Qed.

End ForwardOutputs.

(** X10. No score is negative: whenever 0 < v excludes v < 0 in the
    arithmetic of the scores (as it does for floats and for exact
    numbers), every element v of an output of [forward] has v < 0
    false, and applying ReLU to the output changes nothing. *)
Theorem forward_scores_nonnegative {F : Type} {SF : Torch.Scalar F}
  (self : Model.CNN F) (x out : Torch.Tensor F) :
  (forall v, Torch.fltb Torch.f0 v = true -> Torch.fltb v Torch.f0 = false) ->
  Torch.fltb Torch.f0 Torch.f0 = false ->
  Model.forward self x = Ok out ->
  Torch.relu out = out /\
  Forall (fun v => Torch.fltb v Torch.f0 = false) (data out).
Proof.
  intros Hasym Hirr E.
  destruct (forward_is_relu self x out E) as (s & ->). split.
  - apply relu_idempotent.
  - unfold Torch.relu. cbn [data]. apply Forall_map, Forall_forall.
    intros v _. unfold Torch.relu_scalar.
    destruct (Torch.fltb Torch.f0 v) eqn:Ev; [apply Hasym, Ev | exact Hirr].
Qed.

Lemma forward_scores_nonnegative_witness :
  Forall (fun v => (v <? 0)%Z = false)
         (data (Torch.relu (mk_ndarray [1; 10]
                  (flat_map (fun _ => repeat (-1)%Z 10) (seq 0 1))))).
Proof.
  refine (proj2 (forward_scores_nonnegative
                   (Model.CNN_init (Model.demo_parameters (-1)))
                   (Model.demo_images 1) _ _ _ _)).
  - intros v Hv. apply Z.ltb_lt in Hv. apply Z.ltb_ge. cbn in *. lia.
  - reflexivity.
  - apply (demo_forward (-1) (Model.demo_images 1) 1); [reflexivity | lia].
Defined.

Lemma forward_other_channels {F : Type} {SF : Torch.Scalar F}
  (p : Model.Parameters F) (x : Torch.Tensor F) (B C H W : nat) :
  shape x = [B; C; H; W] -> C <> 1 ->
  Model.forward (Model.CNN_init p) x = Raise RuntimeError.
Proof.
  intros Hs HC. unfold Model.forward, Torch.Conv2d_forward. rewrite Hs.
  cbn [Model.conv1 Model.CNN_init Torch.in_channels].
  destruct (Nat.eqb_spec C 1) as [E|_]; [contradiction | reflexivity].
Qed.

(** X12. [forward] raises [RuntimeError] on every batch of images whose
    number of channels is not the one channel [conv1] is built for,
    whatever the parameters and the size of the images. *)
Theorem forward_rejects_other_channels {F : Type} {SF : Torch.Scalar F}
  (p : Model.Parameters F) (x : Torch.Tensor F) (B C H W : nat) :
  shape x = [B; C; H; W] -> C <> 1 ->
  Model.forward (Model.CNN_init p) x = Raise RuntimeError.
Proof.
  exact (forward_other_channels p x B C H W).
Qed.

Lemma forward_rejects_other_channels_witness :
  Model.forward (Model.CNN_init (Model.demo_parameters 0)) Extra.demo_rgb =
    Raise RuntimeError.
Proof.
  apply (forward_rejects_other_channels (Model.demo_parameters 0) Extra.demo_rgb
           1 3 28 28).
  - reflexivity.
  - discriminate.
Defined.

Section ForwardSizes.

Import Torch Model.
Context {F : Type} {SF : Scalar F}.

Lemma half_lower_bound (n k : nat) : 2 * k <= n -> k <= n / 2.
Proof. intros H. apply Nat.div_le_lower_bound; lia. Qed.

(** The layers up to the flattening succeed on every image of at least
    16 by 16 pixels, and leave 20 channels of [pooled H] by [pooled W]
    values. *)
Lemma features_ok (p : Parameters F) (x : Tensor F) (B H W : nat) :
  shape x = [B; 1; H; W] -> 0 < B -> 16 <= H -> 16 <= W ->
  exists f,
    shape f = [B; 20 * (Extra.pooled H * Extra.pooled W)] /\
    forward (CNN_init p) x =
      Py.bind (Linear_forward (fc1 (CNN_init p)) f) (fun h =>
      Py.bind (Linear_forward (fc2 (CNN_init p)) (relu h)) (fun s =>
      Ok (relu s))).
Proof.
  intros Hs HB HH HW.
  assert (H4 : 5 <= (H - 5 + 1 - 2) / 2) by (apply half_lower_bound; lia).
  assert (W4 : 5 <= (W - 5 + 1 - 2) / 2) by (apply half_lower_bound; lia).
  destruct (Conv2d_forward_ok (conv1 (CNN_init p)) x B 1 H W Hs)
    as (c1 & E1 & S1 & _);
    [reflexivity | cbn [conv1 CNN_init kernel_size]; lia
     | cbn [conv1 CNN_init kernel_size]; lia |].
  cbn [conv1 CNN_init out_channels kernel_size] in S1.
  destruct (MaxPool2d_forward_ok (pool1 (CNN_init p)) (relu c1) B 10 _ _ S1)
    as (x1 & E2 & S2 & _);
    [cbn [pool1 CNN_init pool_kernel_size]; lia
     | cbn [pool1 CNN_init pool_kernel_size]; lia
     | cbn [pool1 CNN_init pool_stride]; lia |].
  cbn [pool1 CNN_init pool_kernel_size pool_stride] in S2.
  destruct (Conv2d_forward_ok (conv2 (CNN_init p)) x1 B 10 _ _ S2)
    as (c2 & E3 & S3 & _);
    [reflexivity | cbn [conv2 CNN_init kernel_size]; lia
     | cbn [conv2 CNN_init kernel_size]; lia |].
  cbn [conv2 CNN_init out_channels kernel_size] in S3.
  destruct (MaxPool2d_forward_ok (pool2 (CNN_init p)) (relu c2) B 20 _ _ S3)
    as (x2 & E4 & S4 & _);
    [cbn [pool2 CNN_init pool_kernel_size]; lia
     | cbn [pool2 CNN_init pool_kernel_size]; lia
     | cbn [pool2 CNN_init pool_stride]; lia |].
  cbn [pool2 CNN_init pool_kernel_size pool_stride] in S4.
  change (shape x2 = [B; 20; Extra.pooled H; Extra.pooled W]) in S4.
  exists (mk_ndarray [B; 20 * (Extra.pooled H * Extra.pooled W)] (data x2)).
  split; [reflexivity|].
  unfold forward. rewrite E1. cbn [Py.bind]. rewrite E2. cbn [Py.bind].
  rewrite E3. cbn [Py.bind]. rewrite E4. cbn [Py.bind].
  rewrite (view_flatten_ok x2 B 20 _ _ S4 HB). cbn [Py.bind].
  rewrite <- Nat.mul_assoc. reflexivity.
Qed.

End ForwardSizes.

(** X13. Which image sizes the network accepts.  On a non-empty batch of
    one-channel images of at least 16 by 16 pixels, [forward] returns
    ten scores per image exactly when the two convolution and pooling
    stages leave 16 values per channel (pooled H * pooled W = 16, as for
    28 by 28 images), so that the flattened features have the 320
    entries [fc1] expects; otherwise it raises [RuntimeError]. *)
Theorem forward_accepts_by_size {F : Type} {SF : Torch.Scalar F}
  (p : Model.Parameters F) (x : Torch.Tensor F) (B H W : nat) :
  shape x = [B; 1; H; W] -> 0 < B -> 16 <= H -> 16 <= W ->
  if Extra.pooled H * Extra.pooled W =? 16
  then exists out, Model.forward (Model.CNN_init p) x = Ok out /\
                   shape out = [B; 10]
  else Model.forward (Model.CNN_init p) x = Raise RuntimeError.
Proof.
  intros Hs HB HH HW.
  destruct (features_ok p x B H W Hs HB HH HW) as (f & Sf & ->).
  destruct (Nat.eqb_spec (Extra.pooled H * Extra.pooled W) 16) as [Hq|Hq].
  - rewrite (Linear_forward_ok (Model.fc1 (Model.CNN_init p)) f B)
      by (rewrite Sf, Hq; reflexivity).
    cbn [Py.bind].
    rewrite (Linear_forward_ok (Model.fc2 (Model.CNN_init p)) _ B) by reflexivity.
    cbn [Py.bind]. eexists. split; reflexivity.
  - unfold Torch.Linear_forward at 1. rewrite Sf.
    cbn [Model.fc1 Model.CNN_init Torch.in_features].
    destruct (Nat.eqb_spec (20 * (Extra.pooled H * Extra.pooled W)) 320);
      [lia | reflexivity].
Qed.

Lemma forward_accepts_by_size_witness :
  Model.forward (Model.CNN_init (Model.demo_parameters 0)) (Extra.demo_images32 2) =
    Raise RuntimeError.
Proof.
  refine (forward_accepts_by_size (Model.demo_parameters 0)
            (Extra.demo_images32 2) 2 32 32 _ _ _ _).
  - reflexivity.
  - lia.
  - lia.
  - lia.
Defined.

Section Predictions.

Import Torch Model.
Context {F : Type} {SF : Scalar F}.

Lemma argmax_from_bound (row : list F) (i : nat) (best : F) (best_i : nat) :
  best_i < i -> argmax_from row i best best_i < i + length row.
Proof.
  revert i best best_i. induction row as [|v rest IH]; intros i best best_i Hi.
  - simpl. lia.
  - cbn [argmax_from length]. destruct (fltb best v).
    + specialize (IH (S i) v i). lia.
    + specialize (IH (S i) best best_i). lia.
Qed.

Lemma argmax_bound (row : list F) : row <> [] -> argmax row < length row.
Proof.
  destruct row as [|v rest]; [congruence|]. intros _.
  cbn [argmax length]. pose proof (argmax_from_bound rest 1 v 0). lia.
Qed.

Lemma argmax_rows_bound (out : Tensor F) (B n : nat) :
  shape out = [B; n] -> wf out -> 0 < n ->
  exists predicted,
    argmax_rows out = Ok predicted /\
    length predicted = B /\
    Forall (fun c => c < n) predicted.
Proof.
  intros Ss Hwf Hn. unfold argmax_rows. rewrite Ss.
  eexists. split; [reflexivity|]. split.
  - rewrite length_map, length_seq. reflexivity.
  - apply Forall_map, Forall_forall. intros b Hb. apply in_seq in Hb.
    assert (Hlen : length (firstn n (skipn (b * n) (data out))) = n).
    { unfold wf, size in Hwf. rewrite Ss in Hwf. cbn [Np.prod fold_right] in Hwf.
      rewrite length_firstn, length_skipn. nia. }
    pose proof (argmax_bound (firstn n (skipn (b * n) (data out)))) as Ha.
    rewrite Hlen in Ha. apply Ha.
    intros E. rewrite E in Hlen. simpl in Hlen. lia.
Qed.

Lemma guess_ok (p : Parameters F) (x : Tensor F) (B : nat) :
  shape x = [B; 1; 28; 28] -> 0 < B ->
  exists g,
    Display.guess p x = Ok g /\ length g = B /\ Forall (fun c => c < 10) g.
Proof.
  intros Hs HB.
  destruct (spec_forward_ok p x B Hs HB) as (h & s & _ & _ & _ & Es & Ss & Ws).
  destruct (argmax_rows_bound (relu s) B 10) as (g & Eg & Lg & Rg);
    [exact Ss | apply relu_wf, Ws | lia |].
  exists g. split; [|split; assumption].
  unfold Display.guess. rewrite forward_relu_of_spec, Es. exact Eg.
Qed.

End Predictions.

(** X14. On every non-empty batch of 28 by 28 images the guess of the
    network is defined: one predicted class per image, each of them one
    of the ten classes, so that [classes[guess[i]]] is never out of
    range. *)
Theorem guess_in_range {F : Type} {SF : Torch.Scalar F}
  (p : Model.Parameters F) (test_images : Torch.Tensor F) (B : nat) :
  shape test_images = [B; 1; 28; 28] -> 0 < B ->
  exists g,
    Display.guess p test_images = Ok g /\
    length g = B /\
    Forall (fun c => c < length Notebook.classes) g.
Proof.
  intros Hs HB. exact (guess_ok p test_images B Hs HB).
Qed.

Lemma guess_in_range_witness :
  exists g,
    Display.guess (Model.demo_parameters 0) (Model.demo_images 4) = Ok g /\
    length g = 4 /\
    Forall (fun c => c < length Notebook.classes) g.
Proof.
  apply (guess_in_range (Model.demo_parameters 0) (Model.demo_images 4) 4).
  - reflexivity.
  - lia.
Defined.

Section LabelNames.

Import Notebook Display.

Lemma class_lookup (l : nat) :
  list_getitem classes l =
    if l <? 10 then Ok (nth l classes EmptyString) else Raise IndexError.
Proof.
  do 10 (destruct l as [|l]; [reflexivity|]).
  unfold list_getitem, classes. cbn. destruct l; reflexivity.
Qed.

Lemma class_name_cases (labels : list nat) (i : nat) :
  class_name labels i =
    match nth_error labels i with
    | Some l => if l <? 10 then Ok (nth l classes EmptyString) else Raise IndexError
    | None => Raise IndexError
    end.
Proof.
  unfold class_name, list_getitem at 1.
  destruct (nth_error labels i) as [l|]; [|reflexivity].
  cbn [Py.bind]. apply class_lookup.
Qed.

Lemma names_line_cases (labels : list nat) :
  names_line labels =
    if (4 <=? length labels) && forallb (fun l => l <? 10) (firstn 4 labels)
    then Ok (join " " (map (fun l => nth l classes EmptyString) (firstn 4 labels)))
    else Raise IndexError.
Proof.
  unfold names_line. cbn [seq generate]. rewrite !class_name_cases.
  destruct labels as [|l0 [|l1 [|l2 [|l3 rest]]]];
    cbn [nth_error length firstn forallb map Nat.leb andb Py.bind];
    repeat match goal with
           | |- context [?l <? 10] => destruct (l <? 10)
           end;
    reflexivity.
Qed.

End LabelNames.

(** X15. The line of class names of a batch is printed exactly when the
    batch has at least four labels and the first four are below 10; it
    then holds the names of these four labels separated by spaces, and
    the cell raises [IndexError] otherwise, on a shorter batch as on a
    label that is not a class. *)
Theorem names_line_defined (labels : list nat) :
  Display.names_line labels =
    if (4 <=? length labels) && forallb (fun l => l <? 10) (firstn 4 labels)
    then Ok (Display.join " "
               (map (fun l => nth l Notebook.classes EmptyString)
                    (firstn 4 labels)))
    else Raise IndexError.
Proof.
  apply names_line_cases.
Qed.

(** X16. The cell that prints the guesses of the network never fails on
    a batch of four 28 by 28 images, whatever the parameters: the
    forward pass succeeds and each of the four guesses names a class. *)
Theorem print_guess_succeeds {F : Type} {SF : Torch.Scalar F}
  (p : Model.Parameters F) (test_images : Torch.Tensor F) :
  shape test_images = [4; 1; 28; 28] ->
  exists g,
    Display.guess p test_images = Ok g /\
    Display.print_guess p test_images =
      Ok (Display.join " " (map (fun l => nth l Notebook.classes EmptyString) g)).
Proof.
  intros Hs.
  destruct (guess_ok p test_images 4 Hs) as (g & Eg & Lg & Rg); [lia|].
  exists g. split; [exact Eg|].
  unfold Display.print_guess. rewrite Eg. cbn [Py.bind].
  rewrite names_line_cases, Lg.
  replace (firstn 4 g) with g by (rewrite <- Lg; symmetry; apply firstn_all).
  assert (Hall : forallb (fun l => l <? 10) g = true).
  { apply forallb_forall. intros l Hl. apply Nat.ltb_lt.
    exact (proj1 (Forall_forall _ g) Rg l Hl). }
  rewrite Hall. reflexivity.
Qed.

Lemma print_guess_succeeds_witness :
  exists g,
    Display.guess (Model.demo_parameters 0) (Model.demo_images 4) = Ok g /\
    Display.print_guess (Model.demo_parameters 0) (Model.demo_images 4) =
      Ok (Display.join " " (map (fun l => nth l Notebook.classes EmptyString) g)).
Proof.
  apply (print_guess_succeeds (Model.demo_parameters 0) (Model.demo_images 4)).
  reflexivity.
Defined.

Section TrainingEdges.

Import Torch Model Notebook Training.
Context {F : Type} {SF : Scalar F} {T : Backend F}.

Lemma train_batch_fails (m ep i : Z) (data : Batch F) (s : State F) (e : exn) :
  forward (CNN_init (cnn s)) (inputs data) = Raise e \/
  (exists outputs,
     forward (CNN_init (cnn s)) (inputs data) = Ok outputs /\
     criterion outputs (labels data) = Raise e) ->
  train_batch m ep i data s =
    (set_autograd (optimizer_zero_grad (autograd s)) s, Raise e).
Proof.
  unfold train_batch, Notebook.bind, modify, call_cnn, lift.
  cbn [cnn set_autograd set_model].
  intros [E | (outputs & E & Ec)]; rewrite E; [reflexivity|].
  rewrite Ec. reflexivity.
Qed.

Lemma sgd_step_fails (data : Batch F) (s : State F)
  (pa : Parameters F * Autograd) (e : exn) :
  sgd_step data (cnn s, autograd s) = (pa, Raise e) ->
  pa = (cnn s, optimizer_zero_grad (autograd s)) /\
  (forward (CNN_init (cnn s)) (inputs data) = Raise e \/
   exists outputs,
     forward (CNN_init (cnn s)) (inputs data) = Ok outputs /\
     criterion outputs (labels data) = Raise e).
Proof.
  unfold sgd_step. cbn [fst snd].
  destruct (forward (CNN_init (cnn s)) (inputs data)) as [outputs|e1].
  - destruct (criterion outputs (labels data)) as [l|e2] eqn:Ec; [discriminate|].
    intros [= <- <-]. split; [reflexivity|].
    right. exists outputs. split; [reflexivity | exact Ec].
  - intros [= <- <-]. split; [reflexivity|]. left. reflexivity.
Qed.

Lemma train_batch_zero_interval (ep i : Z) (data : Batch F) (s : State F)
  (pa : Parameters F * Autograd) (loss : F) :
  sgd_step data (cnn s, autograd s) = (pa, Ok loss) ->
  train_batch 0 ep i data s =
    (mk_State (fst pa) (snd pa) (fadd (running_loss s) loss) (correct s) (total s)
              (correct_class s) (total_class s) (stdout s),
     Raise ZeroDivisionError).
Proof.
  unfold sgd_step. cbn [fst snd]. intros E.
  unfold train_batch, Notebook.bind, modify, call_cnn, lift, get, print, modify.
  cbn [cnn autograd set_autograd set_model].
  destruct (forward (CNN_init (cnn s)) (inputs data)) as [outputs|]; [|discriminate].
  destruct (criterion outputs (labels data)) as [l|]; [|discriminate].
  injection E as <- <-.
  destruct (optimizer_step _ _) as [p a]. reflexivity.
Qed.

Lemma report_scan_negative (m ep : Z) (ls : list F) :
  (m < 0)%Z ->
  forall (i : Z) (acc : F),
  report_scan m ep i acc ls = ([], fold_left fadd ls acc).
Proof.
  intros Hm. induction ls as [|l rest IH]; intros i acc; cbn [report_scan fold_left].
  - reflexivity.
  - pose proof (Z.mod_neg_bound i m Hm).
    destruct (Z.eqb_spec (i mod m) (m - 1)); [lia|]. apply IH.
Qed.

(** The model after the batches of an epoch, and whether they completed,
    whatever the report interval. *)
Lemma train_batches_model (m ep : Z) (loader : list (Batch F)) :
  m <> 0%Z ->
  forall (i : Z) (s : State F),
  let r := for_each (enumerate loader i)
                    (fun id => train_batch m ep (fst id) (snd id)) s in
  (cnn (fst r), autograd (fst r)) =
    fst (epoch_losses loader (cnn s, autograd s)) /\
  snd r = outcome (snd (epoch_losses loader (cnn s, autograd s))).
Proof.
  intros Hm. induction loader as [|d rest IH]; intros i s; cbn zeta.
  - cbn. split; reflexivity.
  - cbn [enumerate for_each fst snd epoch_losses].
    destruct (sgd_step d (cnn s, autograd s)) as [pa1 [l|e]] eqn:E1.
    + pose proof (train_batch_step m ep i d s pa1 l Hm E1) as Hstep.
      destruct (i mod m =? m - 1)%Z;
        rewrite (bind_ok _ _ s _ tt Hstep);
        match goal with
        | |- context [for_each _ _ ?s1] =>
            specialize (IH (i + 1)%Z s1); cbn zeta in IH;
            cbn [cnn autograd] in IH;
            replace (fst pa1, snd pa1) with pa1 in IH by (destruct pa1; reflexivity);
            destruct (epoch_losses rest pa1) as [pa2 [ls|e]];
            exact IH
        end.
    + destruct (sgd_step_fails d s pa1 e E1) as [-> Hf].
      rewrite (bind_raise _ _ s _ e (train_batch_fails m ep i d s e Hf)).
      split; reflexivity.
Qed.

End TrainingEdges.

Section TrainingEpochs.

Import Torch Model Notebook Training.
Context {F : Type} {SF : Scalar F} {T : Backend F}.

Lemma enumerate_app {X} (a b : list X) :
  forall i, enumerate (a ++ b) i =
            enumerate a i ++ enumerate b (i + Z.of_nat (length a)).
Proof.
  induction a as [|x a IH]; intros i; cbn [app enumerate length].
  - cbn. rewrite Z.add_0_r. reflexivity.
  - rewrite IH. do 3 f_equal. lia.
Qed.

Lemma for_each_app {X} (a b : list X) (body : X -> Cell F unit) :
  forall s, for_each (a ++ b) body s =
            Notebook.bind (for_each a body) (fun _ => for_each b body) s.
Proof.
  induction a as [|x a IH]; intros s; cbn [app for_each].
  - reflexivity.
  - unfold Notebook.bind in IH |- *.
    destruct (body x s) as [s1 [[]|e]]; [|reflexivity].
    apply IH.
Qed.

Lemma epoch_losses_length (loader : list (Batch F)) :
  forall pa pa' ls,
  epoch_losses loader pa = (pa', Ok ls) -> length ls = length loader.
Proof.
  induction loader as [|d rest IH]; intros pa pa' ls E; cbn [epoch_losses] in E.
  - injection E as <- <-. reflexivity.
  - destruct (sgd_step d pa) as [pa1 [l|]]; [|discriminate].
    destruct (epoch_losses rest pa1) as [pa2 [ls'|]] eqn:E2; [|discriminate].
    injection E as <- <-. cbn [length]. f_equal. exact (IH _ _ _ E2).
Qed.

(** An epoch in closed form. *)
Lemma train_epoch_closed (m : Z) (loader : list (Batch F)) (ep : Z)
  (s : State F) (pa : Parameters F * Autograd) (ls : list F) :
  (0 < m)%Z ->
  epoch_losses loader (cnn s, autograd s) = (pa, Ok ls) ->
  train_epoch m loader ep s =
    (mk_State (fst pa) (snd pa) (pending_loss m ls)
       (correct s) (total s) (correct_class s) (total_class s)
       (stdout s ++ interval_lines m ep 0 ls),
     Ok tt).
Proof.
  intros Hm E. unfold train_epoch.
  rewrite (bind_ok _ _ s (set_running_loss f0 s) tt eq_refl).
  rewrite (train_batches_scan m ep loader) with (pa := pa) (ls := ls);
    [| lia | exact E].
  cbn [running_loss set_running_loss correct total correct_class total_class
       stdout].
  pose proof (report_scan_closed m ep Hm ls [] 0) as C.
  cbn [length Z.of_nat app] in C.
  change (accumulate []) with (@f0 F SF) in C.
  rewrite Z.mul_0_l, Z.add_0_r in C.
  rewrite C by lia. reflexivity.
Qed.

Lemma last_cons {X} (x d : X) (l : list X) : last (x :: l) d = last l x.
Proof.
  revert x d. induction l as [|y l IH]; intros x d; [reflexivity|].
  change (last (x :: y :: l) d) with (last (y :: l) d).
  rewrite !IH. reflexivity.
Qed.

Lemma train_epochs_closed (m : Z) (loader : nat -> list (Batch F)) :
  (0 < m)%Z ->
  forall (epochs : list nat) (s : State F) (pa : Parameters F * Autograd)
         (all : list (list F)),
  training_losses epochs loader (cnn s, autograd s) = (pa, Ok all) ->
  for_each epochs
    (fun epoch => train_epoch m (loader epoch) (Z.of_nat epoch)) s =
    (mk_State (fst pa) (snd pa)
       (last (map (pending_loss m) all) (running_loss s))
       (correct s) (total s) (correct_class s) (total_class s)
       (stdout s ++ training_lines m epochs all),
     Ok tt).
Proof.
  intros Hm. induction epochs as [|ep rest IH]; intros s pa all E.
  - cbn in E. injection E as <- <-. cbn. rewrite app_nil_r.
    destruct s; reflexivity.
  - cbn [training_losses] in E.
    destruct (epoch_losses (loader ep) (cnn s, autograd s)) as [pa1 [ls|]] eqn:E1;
      [|discriminate].
    destruct (training_losses rest loader pa1) as [pa2 [all'|]] eqn:E2;
      [|discriminate].
    injection E as <- <-.
    cbn [for_each].
    rewrite (bind_ok _ _ s _ tt (train_epoch_closed m (loader ep) (Z.of_nat ep)
                                   s pa1 ls Hm E1)).
    rewrite IH with (pa := pa2) (all := all');
      [| cbn [cnn autograd]; destruct pa1; exact E2].
    cbn [running_loss correct total correct_class total_class stdout map].
    rewrite last_cons.
    unfold training_lines. cbn [combine map concat fst snd].
    rewrite <- app_assoc. reflexivity.
Qed.

End TrainingEpochs.

(** X17. With a report interval of 0 the first batch of an epoch is
    trained in full (optimizer step taken, its loss added to the
    accumulator) and the test of the interval then raises
    [ZeroDivisionError]: nothing is printed and the batches after it are
    not visited. *)
Theorem train_zero_interval_raises {F : Type} {SF : Torch.Scalar F}
  {T : Notebook.Backend F}
  (data : Notebook.Batch F) (rest : list (Notebook.Batch F)) (epoch : Z)
  (s : Notebook.State F)
  (pa : Model.Parameters F * Notebook.Autograd) (loss : F) :
  Notebook.sgd_step data (Notebook.cnn s, Notebook.autograd s) = (pa, Ok loss) ->
  Notebook.train_epoch 0 (data :: rest) epoch s =
    (Notebook.mk_State (fst pa) (snd pa) (Torch.fadd Torch.f0 loss)
       (Notebook.correct s) (Notebook.total s)
       (Notebook.correct_class s) (Notebook.total_class s)
       (Notebook.stdout s),
     Raise ZeroDivisionError).
Proof.
  intros E. unfold Notebook.train_epoch.
  rewrite (bind_ok _ _ s (Notebook.set_running_loss Torch.f0 s) tt eq_refl).
  cbn [Notebook.enumerate Notebook.for_each fst snd].
  rewrite (bind_raise _ _ _ _ ZeroDivisionError
             (train_batch_zero_interval epoch 0 data
                (Notebook.set_running_loss Torch.f0 s) pa loss E)).
  reflexivity.
Qed.

Lemma train_zero_interval_raises_witness :
  Notebook.train_epoch 0 Notebook.demo_loader3 0 Notebook.demo_state =
    (Notebook.mk_State (Model.demo_parameters 0) 1 1%Z 0%Z 0%Z [] [] [],
     Raise ZeroDivisionError).
Proof.
  refine (train_zero_interval_raises (Notebook.demo_batch [0])
            [Notebook.demo_batch [1]; Notebook.demo_batch [2]] 0
            Notebook.demo_state (Model.demo_parameters 0, 1) 1%Z _).
  apply (demo_sgd_step [0] 0). simpl. lia.
Defined.

(** X18. With a negative report interval an epoch never reports: every
    batch is trained, nothing is printed, and the accumulator ends at
    the sum of the losses of all the batches of the epoch. *)
Theorem train_negative_interval_silent {F : Type} {SF : Torch.Scalar F}
  {T : Notebook.Backend F}
  (minibatches : Z) (train_loader : list (Notebook.Batch F)) (epoch : Z)
  (s : Notebook.State F)
  (pa : Model.Parameters F * Notebook.Autograd) (losses : list F) :
  (minibatches < 0)%Z ->
  Notebook.epoch_losses train_loader (Notebook.cnn s, Notebook.autograd s) =
    (pa, Ok losses) ->
  Notebook.train_epoch minibatches train_loader epoch s =
    (Notebook.mk_State (fst pa) (snd pa) (Notebook.accumulate losses)
       (Notebook.correct s) (Notebook.total s)
       (Notebook.correct_class s) (Notebook.total_class s)
       (Notebook.stdout s),
     Ok tt).
Proof.
  intros Hm E. unfold Notebook.train_epoch.
  rewrite (bind_ok _ _ s (Notebook.set_running_loss Torch.f0 s) tt eq_refl).
  rewrite (train_batches_scan minibatches epoch train_loader)
    with (pa := pa) (ls := losses); [| lia | exact E].
  rewrite (report_scan_negative minibatches epoch losses Hm).
  cbn [fst snd Notebook.running_loss Notebook.set_running_loss Notebook.correct
       Notebook.total Notebook.correct_class Notebook.total_class
       Notebook.stdout].
  rewrite app_nil_r. reflexivity.
Qed.

Lemma train_negative_interval_silent_witness :
  Notebook.train_epoch (-1) Notebook.demo_loader3 0 Notebook.demo_state =
    (Notebook.mk_State (Model.demo_parameters 0) 3 3%Z 0%Z 0%Z [] [] [],
     Ok tt).
Proof.
  refine (train_negative_interval_silent (-1) Notebook.demo_loader3 0
            Notebook.demo_state (Model.demo_parameters 0, 3) [1; 1; 1]%Z _ _).
  - lia.
  - apply demo_epoch_losses3.
Defined.

(** X19. What an epoch does to the model does not depend on the
    reporting: for any report interval other than 0, any epoch number
    and any state of the accumulator and of the output, the parameters
    and the optimizer state after the epoch are those of the optimizer
    steps of its batches alone, and the epoch raises exactly when one
    of these steps raises, with the same exception. *)
Theorem train_epoch_model {F : Type} {SF : Torch.Scalar F}
  {T : Notebook.Backend F}
  (minibatches : Z) (train_loader : list (Notebook.Batch F)) (epoch : Z)
  (s : Notebook.State F) :
  minibatches <> 0%Z ->
  (Notebook.cnn (fst (Notebook.train_epoch minibatches train_loader epoch s)),
   Notebook.autograd (fst (Notebook.train_epoch minibatches train_loader epoch s))) =
    fst (Notebook.epoch_losses train_loader
           (Notebook.cnn s, Notebook.autograd s)) /\
  snd (Notebook.train_epoch minibatches train_loader epoch s) =
    Training.outcome
      (snd (Notebook.epoch_losses train_loader
              (Notebook.cnn s, Notebook.autograd s))).
Proof.
  intros Hm. unfold Notebook.train_epoch.
  rewrite (bind_ok _ _ s (Notebook.set_running_loss Torch.f0 s) tt eq_refl).
  exact (train_batches_model minibatches epoch train_loader Hm 0
           (Notebook.set_running_loss Torch.f0 s)).
Qed.

Lemma train_epoch_model_witness :
  (Notebook.cnn (fst (Notebook.train_epoch 2 Notebook.demo_loader3 7
                        Notebook.demo_state)),
   Notebook.autograd (fst (Notebook.train_epoch 2 Notebook.demo_loader3 7
                             Notebook.demo_state))) =
    fst (Notebook.epoch_losses Notebook.demo_loader3
           (Model.demo_parameters 0, 0)) /\
  snd (Notebook.train_epoch 2 Notebook.demo_loader3 7 Notebook.demo_state) =
    Training.outcome
      (snd (Notebook.epoch_losses Notebook.demo_loader3
              (Model.demo_parameters 0, 0))).
Proof.
  refine (train_epoch_model 2 Notebook.demo_loader3 7 Notebook.demo_state _).
  lia.
Defined.

(** X20. An epoch stops at the first batch on which the forward pass or
    the loss raises, with that exception.  The reports of the batches
    before it stay printed and the accumulator holds their losses since
    the last report; the parameters are those after the batches before
    it, with the gradient buffers zeroed; the failing batch adds
    nothing to the accumulator and the batches after it are not
    visited. *)
Theorem train_epoch_stops_at_failure {F : Type} {SF : Torch.Scalar F}
  {T : Notebook.Backend F}
  (minibatches : Z) (before : list (Notebook.Batch F)) (data : Notebook.Batch F)
  (after : list (Notebook.Batch F)) (epoch : Z) (s : Notebook.State F)
  (pa : Model.Parameters F * Notebook.Autograd) (losses : list F) (e : exn) :
  (0 < minibatches)%Z ->
  Notebook.epoch_losses before (Notebook.cnn s, Notebook.autograd s) =
    (pa, Ok losses) ->
  Model.forward (Model.CNN_init (fst pa)) (Notebook.inputs data) = Raise e \/
  (exists outputs,
     Model.forward (Model.CNN_init (fst pa)) (Notebook.inputs data) = Ok outputs /\
     Notebook.criterion outputs (Notebook.labels data) = Raise e) ->
  Notebook.train_epoch minibatches (before ++ data :: after) epoch s =
    (Notebook.mk_State (fst pa) (Notebook.optimizer_zero_grad (snd pa))
       (Notebook.pending_loss minibatches losses)
       (Notebook.correct s) (Notebook.total s)
       (Notebook.correct_class s) (Notebook.total_class s)
       (Notebook.stdout s ++ Notebook.interval_lines minibatches epoch 0 losses),
     Raise e).
Proof.
  intros Hm E Hf. unfold Notebook.train_epoch.
  rewrite (bind_ok _ _ s (Notebook.set_running_loss Torch.f0 s) tt eq_refl).
  rewrite enumerate_app, for_each_app.
  pose proof (train_epoch_closed minibatches before epoch s pa losses Hm E) as C.
  unfold Notebook.train_epoch in C.
  rewrite (bind_ok _ _ s (Notebook.set_running_loss Torch.f0 s) tt eq_refl) in C.
  rewrite (bind_ok _ _ _ _ tt C).
  cbn [Notebook.enumerate Notebook.for_each fst snd].
  match goal with
  | |- Notebook.bind (Notebook.train_batch _ _ ?i _) _ ?s1 = _ =>
      pose proof (train_batch_fails minibatches epoch i data s1 e Hf) as Hb;
      rewrite (bind_raise _ _ s1 _ e Hb)
  end.
  reflexivity.
Qed.

Lemma train_epoch_stops_at_failure_witness :
  Notebook.train_epoch 1
    ([Notebook.demo_batch [0]] ++ Training.demo_bad_batch :: [Notebook.demo_batch [1]])
    0 Notebook.demo_state =
    (Notebook.mk_State (Model.demo_parameters 0) 1 0%Z 0%Z 0%Z [] []
       [Notebook.LossLine 1 1 1%Z],
     Raise RuntimeError).
Proof.
  refine (train_epoch_stops_at_failure 1 [Notebook.demo_batch [0]]
            Training.demo_bad_batch [Notebook.demo_batch [1]] 0
            Notebook.demo_state (Model.demo_parameters 0, 1) [1%Z]
            RuntimeError _ _ _).
  - lia.
  - apply (demo_epoch_losses1 0 0).
  - left. apply (forward_other_channels _ _ 1 3 28 28); [reflexivity|discriminate].
Defined.

(** X21. The whole training cell over its epochs: when every optimizer
    step succeeds, the cell prints, epoch after epoch, the reports of
    the full runs of [minibatches] batches of that epoch and then the
    closing line; the accumulator ends at the losses after the last
    report of the last epoch (or as it was, with no epoch), and the
    model is the one after all the steps.  No run of batches spans two
    epochs. *)
Theorem train_prints_each_epoch {F : Type} {SF : Torch.Scalar F}
  {T : Notebook.Backend F}
  (nb_epochs : nat) (minibatches : Z)
  (train_loader : nat -> list (Notebook.Batch F)) (s : Notebook.State F)
  (pa : Model.Parameters F * Notebook.Autograd) (all : list (list F)) :
  (0 < minibatches)%Z ->
  Training.training_losses (seq 0 nb_epochs) train_loader
    (Notebook.cnn s, Notebook.autograd s) = (pa, Ok all) ->
  Notebook.train nb_epochs minibatches train_loader s =
    (Notebook.mk_State (fst pa) (snd pa)
       (last (map (Notebook.pending_loss minibatches) all)
             (Notebook.running_loss s))
       (Notebook.correct s) (Notebook.total s)
       (Notebook.correct_class s) (Notebook.total_class s)
       (Notebook.stdout s ++
        Training.training_lines minibatches (seq 0 nb_epochs) all ++
        [Notebook.TrainingComplete]),
     Ok tt).
Proof.
  intros Hm E. unfold Notebook.train.
  rewrite (bind_ok _ _ _ _ tt
             (train_epochs_closed minibatches train_loader Hm
                (seq 0 nb_epochs) s pa all E)).
  unfold Notebook.print, Notebook.modify, Notebook.set_stdout.
  cbn [Notebook.cnn Notebook.autograd Notebook.running_loss Notebook.correct
       Notebook.total Notebook.correct_class Notebook.total_class
       Notebook.stdout].
  rewrite <- app_assoc. reflexivity.
Qed.

Lemma train_prints_each_epoch_witness :
  Notebook.train 2 1 (fun _ => Notebook.demo_loader3) Notebook.demo_state =
    (Notebook.mk_State (Model.demo_parameters 0) 6 0%Z 0%Z 0%Z [] []
       [Notebook.LossLine 1 1 1%Z; Notebook.LossLine 1 2 1%Z;
        Notebook.LossLine 1 3 1%Z; Notebook.LossLine 2 1 1%Z;
        Notebook.LossLine 2 2 1%Z; Notebook.LossLine 2 3 1%Z;
        Notebook.TrainingComplete],
     Ok tt).
Proof.
  refine (train_prints_each_epoch 2 1 (fun _ => Notebook.demo_loader3)
            Notebook.demo_state (Model.demo_parameters 0, 6)
            [[1; 1; 1]; [1; 1; 1]]%Z _ _).
  - lia.
  - cbn [seq Training.training_losses].
    rewrite !demo_epoch_losses3. reflexivity.
Defined.

(** X22. An epoch whose optimizer steps succeed prints one report for
    every full run of [minibatches] batches, the whole part of the
    number of batches by the interval of them; when the interval
    divides the number of batches, the accumulator is zero at the end
    of the epoch. *)
Theorem train_epoch_report_count {F : Type} {SF : Torch.Scalar F}
  {T : Notebook.Backend F}
  (minibatches : Z) (train_loader : list (Notebook.Batch F)) (epoch : Z)
  (s : Notebook.State F)
  (pa : Model.Parameters F * Notebook.Autograd) (losses : list F) :
  (0 < minibatches)%Z ->
  Notebook.epoch_losses train_loader (Notebook.cnn s, Notebook.autograd s) =
    (pa, Ok losses) ->
  (exists lines,
     Notebook.stdout (fst (Notebook.train_epoch minibatches train_loader epoch s)) =
       Notebook.stdout s ++ lines /\
     length lines = length train_loader / Z.to_nat minibatches) /\
  (length train_loader mod Z.to_nat minibatches = 0 ->
   Notebook.running_loss
     (fst (Notebook.train_epoch minibatches train_loader epoch s)) = Torch.f0).
Proof.
  intros Hm E.
  rewrite (train_epoch_closed minibatches train_loader epoch s pa losses Hm E).
  cbn [fst Notebook.stdout Notebook.running_loss].
  pose proof (epoch_losses_length train_loader _ _ _ E) as Hlen.
  split.
  - exists (Notebook.interval_lines minibatches epoch 0 losses).
    split; [reflexivity|].
    unfold Notebook.interval_lines. rewrite length_map, length_seq, Hlen.
    reflexivity.
  - intros Hdiv. unfold Notebook.pending_loss.
    rewrite Hlen.
    assert (Hn : length train_loader / Z.to_nat minibatches * Z.to_nat minibatches
                 = length train_loader).
    { pose proof (Nat.div_mod_eq (length train_loader) (Z.to_nat minibatches)) as Hd.
      rewrite Hdiv, Nat.add_0_r, (Nat.mul_comm (Z.to_nat minibatches)) in Hd.
      symmetry. exact Hd. }
    rewrite Hn, <- Hlen, skipn_all. reflexivity.
Qed.

Lemma train_epoch_report_count_witness :
  (exists lines,
     Notebook.stdout (fst (Notebook.train_epoch 3 Notebook.demo_loader3 0
                             Notebook.demo_state)) =
       Notebook.stdout Notebook.demo_state ++ lines /\
     length lines = length Notebook.demo_loader3 / Z.to_nat 3) /\
  (length Notebook.demo_loader3 mod Z.to_nat 3 = 0 ->
   Notebook.running_loss
     (fst (Notebook.train_epoch 3 Notebook.demo_loader3 0 Notebook.demo_state)) =
   Torch.f0).
Proof.
  refine (train_epoch_report_count 3 Notebook.demo_loader3 0 Notebook.demo_state
            (Model.demo_parameters 0, 3) [1; 1; 1]%Z _ _).
  - lia.
  - apply demo_epoch_losses3.
Defined.

Section ScoringCounts.

Import Torch Model Notebook Scoring.

Lemma hits_cons (x : Sample) (l : list Sample) :
  hits (x :: l) = (match_entry x + hits l)%Z.
Proof.
  unfold hits, match_entry, hit. cbn [filter].
  destruct (fst x =? snd x); cbn [length]; lia.
Qed.

Lemma hits_app (l1 l2 : list Sample) :
  hits (l1 ++ l2) = (hits l1 + hits l2)%Z.
Proof.
  unfold hits. rewrite filter_app, length_app. lia.
Qed.

Lemma of_class_app (k : nat) (l1 l2 : list Sample) :
  of_class k (l1 ++ l2) = of_class k l1 ++ of_class k l2.
Proof. apply filter_app. Qed.

Lemma class_total_snoc (k : nat) (l : list Sample) (x : Sample) :
  class_total k (l ++ [x]) =
    if k =? snd x then (class_total k l + 1)%Z else class_total k l.
Proof.
  unfold class_total. rewrite of_class_app, length_app.
  unfold of_class at 2. cbn [filter]. rewrite (Nat.eqb_sym (snd x) k).
  destruct (k =? snd x); cbn [length]; lia.
Qed.

Lemma class_hits_snoc (k : nat) (l : list Sample) (x : Sample) :
  class_hits k (l ++ [x]) =
    if k =? snd x then (class_hits k l + match_entry x)%Z else class_hits k l.
Proof.
  unfold class_hits. rewrite of_class_app, hits_app.
  unfold of_class at 2. cbn [filter]. rewrite (Nat.eqb_sym (snd x) k).
  destruct (k =? snd x).
  - rewrite hits_cons. unfold hits. cbn [filter length]. lia.
  - unfold hits. cbn [filter length]. lia.
Qed.

Lemma hits_bounds (l : list Sample) :
  (0 <= hits l <= Z.of_nat (length l))%Z.
Proof.
  unfold hits. pose proof (filter_length_le hit l). lia.
Qed.

Lemma class_hits_bounds (k : nat) (l : list Sample) :
  (0 <= class_hits k l <= class_total k l)%Z.
Proof. unfold class_hits, class_total. apply hits_bounds. Qed.

Lemma class_total_bounds (k : nat) (l : list Sample) :
  (0 <= class_total k l <= Z.of_nat (length l))%Z.
Proof.
  unfold class_total, of_class. split; [lia|].
  apply Nat2Z.inj_le, filter_length_le.
Qed.

Lemma tensor_sum_matches (l : list Sample) :
  forall a, fold_left Z.add (map match_entry l) a = (a + hits l)%Z.
Proof.
  induction l as [|x l IH]; intros a; cbn [map fold_left].
  - unfold hits. cbn. lia.
  - rewrite IH, hits_cons. lia.
Qed.

Lemma tensor_sum_ten (f : nat -> Z) :
  tensor_sum (map f (seq 0 10)) =
    Z.add (Z.add (Z.add (Z.add (Z.add (Z.add (Z.add (Z.add (Z.add
      (f 0) (f 1)) (f 2)) (f 3)) (f 4)) (f 5)) (f 6)) (f 7)) (f 8)) (f 9).
Proof. unfold tensor_sum. cbn [seq map fold_left]. lia. Qed.

Lemma class_total_cons (k : nat) (x : Sample) (l : list Sample) :
  class_total k (x :: l) =
    ((if Nat.eqb (snd x) k then 1 else 0) + class_total k l)%Z.
Proof.
  unfold class_total, of_class. cbn [filter].
  destruct (snd x =? k); cbn [length]; lia.
Qed.

Lemma class_hits_cons (k : nat) (x : Sample) (l : list Sample) :
  class_hits k (x :: l) =
    ((if Nat.eqb (snd x) k then match_entry x else 0) + class_hits k l)%Z.
Proof.
  unfold class_hits, of_class. cbn [filter].
  destruct (snd x =? k); [apply hits_cons | lia].
Qed.

Lemma tensor_sum_class_total (l : list Sample) :
  Forall (fun pl => snd pl < 10) l ->
  tensor_sum (map (fun k => class_total k l) (seq 0 10)) = Z.of_nat (length l).
Proof.
  induction 1 as [|x l Hx Hl IH]; [reflexivity|].
  rewrite tensor_sum_ten in IH |- *. rewrite !class_total_cons.
  cbn [length]. rewrite Nat2Z.inj_succ, <- IH.
  destruct x as [p c]. cbn [snd] in Hx |- *.
  do 10 (destruct c as [|c]; [cbn [Nat.eqb]; lia|]). lia.
Qed.

Lemma tensor_sum_class_hits (l : list Sample) :
  Forall (fun pl => snd pl < 10) l ->
  tensor_sum (map (fun k => class_hits k l) (seq 0 10)) = hits l.
Proof.
  induction 1 as [|x l Hx Hl IH]; [reflexivity|].
  rewrite tensor_sum_ten in IH |- *. rewrite !class_hits_cons.
  rewrite hits_cons, <- IH.
  destruct x as [p c]. cbn [snd] in Hx |- *.
  do 10 (destruct c as [|c]; [cbn [Nat.eqb]; lia|]). lia.
Qed.

End ScoringCounts.

Section ScoringLoop.

Import Torch Model Notebook Scoring.
Context {F : Type} {SF : Scalar F} {T : Backend F}.

Lemma fold_left_map {A B C} (f : A -> C -> A) (g : B -> C) (l : list B) :
  forall a, fold_left f (map g l) a = fold_left (fun a b => f a (g b)) l a.
Proof. induction l as [|b l IH]; intros a; cbn [map fold_left]; auto. Qed.

(** The loop over indices is a loop over the samples visited. *)
Lemma count_one_fold (n : nat) :
  forall (predicted labels : list nat) (s : State F),
  length predicted = length labels -> n <= length labels ->
  fold_left (count_one labels (map match_entry (combine predicted labels)))
            (seq 0 n) s =
    fold_left count_pair (firstn n (combine predicted labels)) s.
Proof.
  induction n as [|n IH]; intros predicted labels s Hlen Hn; [reflexivity|].
  destruct labels as [|l labels]; [cbn in Hn; lia|].
  destruct predicted as [|p predicted]; [discriminate|].
  cbn [seq combine map firstn fold_left].
  rewrite <- seq_shift, fold_left_map.
  cbn in Hlen, Hn.
  exact (IH predicted labels _ (eq_add_S _ _ Hlen) (le_S_n _ _ Hn)).
Qed.

Lemma bump_ten (f : nat -> Z) (l : nat) (v : Z) :
  l < 10 ->
  bump (map f (seq 0 10)) l v =
    map (fun k => if k =? l then (f k + v)%Z else f k) (seq 0 10).
Proof.
  intros Hl. do 10 (destruct l as [|l]; [reflexivity|]). lia.
Qed.

Lemma count_pair_tallied (s : State F) (seen visited : list Sample) (x : Sample) :
  snd x < 10 ->
  count_pair (tallied s seen visited) x = tallied s seen (visited ++ [x]).
Proof.
  intros Hx. unfold count_pair, tallied, set_total_class, set_correct_class.
  cbn [cnn autograd running_loss correct total correct_class total_class stdout].
  rewrite !bump_ten by exact Hx.
  f_equal; apply map_ext; intros k.
  - rewrite class_hits_snoc. reflexivity.
  - rewrite class_total_snoc. reflexivity.
Qed.

Lemma count_pairs_tallied (l : list Sample) :
  Forall (fun pl => snd pl < 10) l ->
  forall (s : State F) (seen visited : list Sample),
  fold_left count_pair l (tallied s seen visited) =
    tallied s seen (visited ++ l).
Proof.
  induction 1 as [|x l Hx Hl IH]; intros s seen visited; cbn [fold_left].
  - rewrite app_nil_r. reflexivity.
  - rewrite count_pair_tallied by exact Hx. rewrite IH, <- app_assoc.
    reflexivity.
Qed.

Lemma combine_labels_range (predicted labels : list nat) :
  Forall (fun l => l < 10) labels ->
  Forall (fun pl : Sample => snd pl < 10) (combine predicted labels).
Proof.
  intros Hl. apply Forall_forall. intros [p l] Hin.
  apply in_combine_r in Hin.
  exact (proj1 (Forall_forall _ labels) Hl l Hin).
Qed.

Lemma batch_samples_guess (p : Parameters F) (data : Batch F) :
  counted_batch data ->
  exists out predicted,
    forward (CNN_init p) (inputs data) = Ok out /\
    argmax_rows out = Ok predicted /\
    length predicted = length (labels data) /\
    batch_samples p data = combine predicted (labels data).
Proof.
  intros (Hs & H4 & Hr).
  destruct (guess_ok p (inputs data) (length (labels data)) Hs) as (g & Eg & Lg & _);
    [lia|].
  unfold batch_samples. rewrite Eg.
  unfold Display.guess in Eg.
  destruct (forward (CNN_init p) (inputs data)) as [out|]; [|discriminate].
  exists out, g. repeat split; assumption.
Qed.

(** One pass of [for data in test_loader] on a batch of at least four
    samples. *)
Lemma evaluate_batch_tallied (data : Batch F) (s : State F)
  (seen visited : list Sample) :
  counted_batch data ->
  evaluate_batch data (tallied s seen visited) =
    (tallied s (seen ++ batch_samples (cnn s) data)
               (visited ++ firstn 4 (batch_samples (cnn s) data)),
     Ok tt).
Proof.
  intros Hb.
  destruct (batch_samples_guess (cnn s) data Hb) as (out & g & Ef & Eg & Lg & ->).
  destruct Hb as (Hs & H4 & Hr).
  rewrite (evaluate_batch_scores data _ out) by exact Ef.
  assert (Em : tensor_eq g (labels data) =
               Ok (map match_entry (combine g (labels data)))).
  { unfold tensor_eq. rewrite Lg, Nat.eqb_refl. reflexivity. }
  rewrite (tally_unfold data out g _ Eg Em).
  rewrite (count_samples_complete (labels data) _
             (tensor_eq_length _ _ _ Em) Hr 4 0);
    [| lia | split; reflexivity].
  rewrite count_one_fold by (assumption || lia).
  unfold tensor_sum. rewrite tensor_sum_matches.
  assert (Hc : Forall (fun pl : Sample => snd pl < 10)
                      (firstn 4 (combine g (labels data)))).
  { apply Forall_forall. intros x Hx.
    apply (proj1 (Forall_forall _ _) (combine_labels_range g _ Hr)).
    rewrite <- (firstn_skipn 4 (combine g (labels data))).
    apply in_or_app. left. exact Hx. }
  pose proof (count_pairs_tallied _ Hc s (seen ++ combine g (labels data)) visited)
    as Hfold.
  f_equal. etransitivity; [|exact Hfold]. f_equal.
  unfold tallied, set_correct, set_total.
  cbn [cnn autograd running_loss correct total correct_class total_class stdout].
  rewrite hits_app, length_app, length_combine, Lg, Nat.min_id.
  f_equal; lia.
Qed.

Lemma evaluate_loop_tallied (test_loader : list (Batch F)) (s : State F) :
  Forall counted_batch test_loader ->
  forall seen visited,
  for_each test_loader evaluate_batch (tallied s seen visited) =
    (tallied s (seen ++ samples (cnn s) test_loader)
               (visited ++ counted (cnn s) test_loader),
     Ok tt).
Proof.
  induction 1 as [|data rest Hd Hrest IH]; intros seen visited;
    cbn [for_each samples counted flat_map].
  - rewrite !app_nil_r. reflexivity.
  - rewrite (bind_ok _ _ _ _ tt (evaluate_batch_tallied data s seen visited Hd)).
    rewrite IH, <- !app_assoc. reflexivity.
Qed.

Lemma getitem_map_seq {X} (f : nat -> X) (n k : nat) :
  k < n -> list_getitem (map f (seq 0 n)) k = Ok (f k).
Proof.
  intros Hk.
  rewrite (list_getitem_in_range _ k (f 0))
    by (rewrite length_map, length_seq; exact Hk).
  rewrite (map_nth f), seq_nth by exact Hk. reflexivity.
Qed.

(** The loop [for i in range(10)] over the classes [ks]. *)
Lemma report_classes_tallied (s : State F) (seen visited : list Sample)
  (ks : list nat) :
  Forall (fun k => k < 10) ks ->
  forall out,
  for_each ks report_class (set_stdout out (tallied s seen visited)) =
    (set_stdout (out ++ fst (class_report ks visited)) (tallied s seen visited),
     snd (class_report (F := F) ks visited)).
Proof.
  induction 1 as [|k ks Hk Hks IH]; intros out; cbn [for_each class_report].
  - cbn. rewrite app_nil_r. reflexivity.
  - unfold Notebook.bind at 1. unfold report_class at 1.
    unfold Notebook.bind, get, lift, print, modify.
    cbn [correct_class total_class set_stdout tallied stdout cnn autograd
         running_loss correct total].
    rewrite class_lookup.
    destruct (Nat.ltb_spec k 10) as [_|]; [|lia].
    rewrite !getitem_map_seq by exact Hk.
    unfold py_div_percent.
    destruct (class_total k visited =? 0)%Z; [cbn; rewrite app_nil_r; reflexivity|].
    etransitivity; [exact (IH (out ++ [class_line visited k]))|].
    destruct (class_report ks visited) as [lines r]. cbn [fst snd].
    rewrite <- app_assoc. reflexivity.
Qed.

(** The cell in closed form, on batches of at least four samples. *)
Lemma evaluate_closed (test_loader : list (Batch F)) (s : State F) :
  Forall counted_batch test_loader ->
  evaluate test_loader s =
    (set_stdout
       (stdout s ++ fst (report (samples (cnn s) test_loader)
                                (counted (cnn s) test_loader)))
       (tallied s (samples (cnn s) test_loader) (counted (cnn s) test_loader)),
     snd (report (F := F) (samples (cnn s) test_loader)
                          (counted (cnn s) test_loader))).
Proof.
  intros Hl. unfold evaluate.
  do 4 (rewrite (bind_ok _ _ _ _ tt eq_refl)).
  change (set_total_class (repeat 0%Z 10)
            (set_correct_class (repeat 0%Z 10)
               (set_total 0%Z (set_correct 0%Z s))))
    with (tallied s [] []).
  rewrite (bind_ok _ _ _ _ tt (evaluate_loop_tallied test_loader s Hl [] [])).
  cbn [app].
  set (S := samples (cnn s) test_loader).
  set (C := counted (cnn s) test_loader).
  unfold Notebook.bind at 1. unfold get.
  unfold Notebook.bind at 1. unfold lift, py_div_percent, report.
  cbn [total correct tallied].
  destruct (Z.of_nat (length S) =? 0)%Z.
  - cbn [fst snd]. rewrite app_nil_r. destruct s; reflexivity.
  - unfold Notebook.bind at 1. unfold print, modify.
    cbn [stdout].
    assert (Hks : Forall (fun k => k < 10) (seq 0 10)).
    { apply Forall_forall. intros k Hk. apply in_seq in Hk. lia. }
    etransitivity;
      [exact (report_classes_tallied s S C (seq 0 10) Hks
                (stdout s ++ [accuracy_line S]))|].
    destruct (class_report (seq 0 10) C) as [lines r]. cbn [fst snd].
    rewrite <- app_assoc. reflexivity.
Qed.

End ScoringLoop.

Section ScoringBatch.

Import Torch Model Notebook Scoring.
Context {F : Type} {SF : Scalar F} {T : Backend F}.

Lemma bump_length (counts : list Z) (label : nat) (v : Z) :
  label < length counts -> length (bump counts label v) = length counts.
Proof. intros Hl. unfold bump. apply list_setitem_length. exact Hl. Qed.

(** The counters after the samples [l] have been counted, from any
    counters of ten entries. *)
Lemma count_pairs_nth (l : list Sample) :
  Forall (fun pl => snd pl < 10) l ->
  forall s : State F, ten_classes s ->
  forall k,
    nth k (total_class (fold_left count_pair l s)) 0%Z =
      (nth k (total_class s) 0 + class_total k l)%Z /\
    nth k (correct_class (fold_left count_pair l s)) 0%Z =
      (nth k (correct_class s) 0 + class_hits k l)%Z.
Proof.
  induction 1 as [|x l Hx Hl IH]; intros s [Hcc Htc] k; cbn [fold_left].
  - unfold class_total, class_hits, hits. cbn. split; lia.
  - destruct (IH (count_pair s x)) with (k := k) as [H1 H2].
    { unfold ten_classes, count_pair.
      cbn [correct_class total_class set_total_class set_correct_class].
      rewrite !bump_length by lia. split; assumption. }
    rewrite H1, H2. unfold count_pair.
    cbn [correct_class total_class set_total_class set_correct_class].
    rewrite !nth_bump by lia.
    rewrite class_total_cons, class_hits_cons, (Nat.eqb_sym (snd x) k).
    destruct (k =? snd x); split; lia.
Qed.

(** The globals after a batch of at most four samples, whether the
    batch completes or not. *)
Lemma evaluate_batch_short_or_full (data : Batch F) (s : State F)
  (out : Tensor F) (g : list nat) :
  ten_classes s ->
  forward (CNN_init (cnn s)) (inputs data) = Ok out ->
  argmax_rows out = Ok g ->
  length g = length (labels data) ->
  length (labels data) <= 4 ->
  Forall (fun l => l < 10) (labels data) ->
  fst (evaluate_batch data s) =
    fold_left count_pair (combine g (labels data))
      (set_correct (correct s + tensor_sum (map match_entry
                                             (combine g (labels data))))
         (set_total (total s + Z.of_nat (length (labels data))) s)).
Proof.
  intros Hs Ef Eg Lg H4 Hr.
  assert (Em : tensor_eq g (labels data) =
               Ok (map match_entry (combine g (labels data)))).
  { unfold tensor_eq. rewrite Lg, Nat.eqb_refl. reflexivity. }
  rewrite (evaluate_batch_scores data s out Ef).
  transitivity
    (fold_left count_pair
       (firstn (length (labels data)) (combine g (labels data)))
       (set_correct (correct s + tensor_sum (map match_entry
                                              (combine g (labels data))))
          (set_total (total s + Z.of_nat (length (labels data))) s)));
    [|rewrite firstn_all2 by (rewrite length_combine; lia); reflexivity].
  rewrite <- count_one_fold by (assumption || lia).
  destruct (Nat.eq_dec (length (labels data)) 4) as [E4|N4].
  - rewrite (tally_full_batch data out g _ Eg Em Hr s E4 Hs).
    rewrite E4. reflexivity.
  - rewrite (tally_short_batch data out g _ Eg Em Hr s) by (lia || exact Hs).
    reflexivity.
Qed.

End ScoringBatch.

(** C3. For every batch the loader of the notebook can yield, of one to
    four samples with labels among the ten classes, and whatever the
    counters held before, the body of the evaluation loop counts every
    sample of the batch: for each class, [total_class] grows by the
    number of samples of the batch whose true label is this class, and
    [correct_class] by the number of these whose predicted class, the
    position of the largest output of the network, is their label.
    This holds for a last batch of fewer than four samples as well, on
    which the body then stops with an exception. *)
Theorem evaluate_batch_counts_every_sample {F : Type} {SF : Torch.Scalar F}
  {T : Notebook.Backend F}
  (data : Notebook.Batch F) (s : Notebook.State F) :
  Notebook.ten_classes s ->
  shape (Notebook.inputs data) =
    [length (Notebook.labels data); 1; 28; 28] ->
  1 <= length (Notebook.labels data) <= 4 ->
  Forall (fun l => l < 10) (Notebook.labels data) ->
  exists predicted,
    Display.guess (Notebook.cnn s) (Notebook.inputs data) = Ok predicted /\
    length predicted = length (Notebook.labels data) /\
    forall k,
      nth k (Notebook.total_class (fst (Notebook.evaluate_batch data s))) 0%Z =
        (nth k (Notebook.total_class s) 0 +
         Scoring.class_total k (combine predicted (Notebook.labels data)))%Z /\
      nth k (Notebook.correct_class (fst (Notebook.evaluate_batch data s))) 0%Z =
        (nth k (Notebook.correct_class s) 0 +
         Scoring.class_hits k (combine predicted (Notebook.labels data)))%Z.
Proof.
  intros Hs Hshape Hn Hr.
  destruct (guess_ok (Notebook.cnn s) (Notebook.inputs data)
              (length (Notebook.labels data)) Hshape) as (g & Eg & Lg & _);
    [lia|].
  exists g. split; [exact Eg|]. split; [exact Lg|].
  unfold Display.guess in Eg.
  destruct (Model.forward (Model.CNN_init (Notebook.cnn s)) (Notebook.inputs data))
    as [out|] eqn:Ef; [|discriminate].
  cbn [Py.bind] in Eg.
  rewrite (evaluate_batch_short_or_full data s out g Hs Ef Eg Lg) by (lia || exact Hr).
  intros k.
  match goal with
  | |- context [fold_left Scoring.count_pair _ ?st] =>
      exact (count_pairs_nth _ (combine_labels_range g _ Hr) st Hs k)
  end.
Qed.

Lemma evaluate_batch_counts_every_sample_witness :
  let data := Notebook.demo_batch [0; 1] in
  let s := Scoring.demo_counting_state in
  exists predicted,
    Display.guess (Notebook.cnn s) (Notebook.inputs data) = Ok predicted /\
    length predicted = length (Notebook.labels data) /\
    forall k,
      nth k (Notebook.total_class (fst (Notebook.evaluate_batch data s))) 0%Z =
        (nth k (Notebook.total_class s) 0 +
         Scoring.class_total k (combine predicted (Notebook.labels data)))%Z /\
      nth k (Notebook.correct_class (fst (Notebook.evaluate_batch data s))) 0%Z =
        (nth k (Notebook.correct_class s) 0 +
         Scoring.class_hits k (combine predicted (Notebook.labels data)))%Z.
Proof.
  apply (evaluate_batch_counts_every_sample (Notebook.demo_batch [0; 1])
           Scoring.demo_counting_state).
  - split; reflexivity.
  - reflexivity.
  - simpl. lia.
  - repeat constructor.
Defined.

Section ScoringSamples.

Import Torch Model Notebook Scoring.
Context {F : Type} {SF : Scalar F} {T : Backend F}.

Lemma full_is_counted (data : Batch F) : full_batch data -> counted_batch data.
Proof.
  intros (Hs & H4 & Hr). unfold counted_batch. rewrite H4.
  repeat split; [exact Hs | lia | exact Hr].
Qed.

Lemma full_are_counted (test_loader : list (Batch F)) :
  Forall full_batch test_loader -> Forall counted_batch test_loader.
Proof. apply Forall_impl. exact full_is_counted. Qed.

Lemma map_snd_combine (predicted labels : list nat) :
  length predicted = length labels ->
  map snd (combine predicted labels) = labels.
Proof.
  revert labels. induction predicted as [|p predicted IH];
    intros [|l labels] Hlen; try discriminate; [reflexivity|].
  cbn [combine map snd]. f_equal. apply IH. exact (eq_add_S _ _ Hlen).
Qed.

Lemma batch_samples_labels (p : Parameters F) (data : Batch F) :
  counted_batch data -> map snd (batch_samples p data) = labels data.
Proof.
  intros Hb.
  destruct (batch_samples_guess p data Hb) as (out & g & _ & _ & Lg & ->).
  exact (map_snd_combine g (labels data) Lg).
Qed.

(** The true labels of the samples are the labels of the batches, in
    order. *)
Lemma samples_labels (p : Parameters F) (test_loader : list (Batch F)) :
  Forall counted_batch test_loader ->
  map snd (samples p test_loader) = flat_map labels test_loader.
Proof.
  induction 1 as [|data rest Hd Hrest IH]; [reflexivity|].
  cbn [samples flat_map]. rewrite map_app, (batch_samples_labels p data Hd).
  f_equal. exact IH.
Qed.

Lemma full_counted_all (p : Parameters F) (test_loader : list (Batch F)) :
  Forall full_batch test_loader ->
  counted p test_loader = samples p test_loader.
Proof.
  induction 1 as [|data rest Hd Hrest IH]; [reflexivity|].
  cbn [samples counted flat_map]. f_equal; [|exact IH].
  apply firstn_all2.
  rewrite <- (length_map snd),
    (batch_samples_labels p data (full_is_counted data Hd)).
  destruct Hd as (_ & H4 & _). rewrite H4. apply le_n.
Qed.

Lemma samples_length (p : Parameters F) (test_loader : list (Batch F)) :
  Forall counted_batch test_loader ->
  length (samples p test_loader) = length (flat_map labels test_loader).
Proof.
  intros Hl. rewrite <- (samples_labels p test_loader Hl), length_map.
  reflexivity.
Qed.

Lemma full_labels_length (test_loader : list (Batch F)) :
  Forall full_batch test_loader ->
  length (flat_map labels test_loader) = 4 * length test_loader.
Proof.
  induction 1 as [|data rest Hd Hrest IH]; [reflexivity|].
  cbn [flat_map length]. rewrite length_app, IH.
  destruct Hd as (_ & H4 & _). rewrite H4. lia.
Qed.

Lemma counted_length (p : Parameters F) (test_loader : list (Batch F)) :
  Forall counted_batch test_loader ->
  length (counted p test_loader) = 4 * length test_loader.
Proof.
  induction 1 as [|data rest Hd Hrest IH]; [reflexivity|].
  cbn [counted flat_map length]. rewrite length_app.
  change (flat_map (fun d => firstn 4 (batch_samples p d)) rest)
    with (counted p rest).
  rewrite IH, length_firstn.
  rewrite <- (length_map snd (batch_samples p data)),
    (batch_samples_labels p data Hd).
  destruct Hd as (_ & H4 & _). lia.
Qed.

Lemma labels_range_flat (test_loader : list (Batch F)) :
  Forall counted_batch test_loader ->
  Forall (fun l => l < 10) (flat_map labels test_loader).
Proof.
  induction 1 as [|data rest Hd Hrest IH]; [constructor|].
  cbn [flat_map]. apply Forall_app. split; [|exact IH].
  destruct Hd as (_ & _ & Hr). exact Hr.
Qed.

Lemma samples_range (p : Parameters F) (test_loader : list (Batch F)) :
  Forall counted_batch test_loader ->
  Forall (fun pl : Sample => snd pl < 10) (samples p test_loader).
Proof.
  intros Hl. pose proof (labels_range_flat test_loader Hl) as Hr.
  rewrite <- (samples_labels p test_loader Hl) in Hr.
  apply Forall_forall. intros x Hx.
  apply (proj1 (Forall_forall _ _) Hr). apply in_map. exact Hx.
Qed.

Lemma counted_range (p : Parameters F) (test_loader : list (Batch F)) :
  Forall counted_batch test_loader ->
  Forall (fun pl : Sample => snd pl < 10) (counted p test_loader).
Proof.
  induction 1 as [|data rest Hd Hrest IH]; [constructor|].
  cbn [counted flat_map]. apply Forall_app. split; [|exact IH].
  pose proof (samples_range p [data] (Forall_cons _ Hd (Forall_nil _))) as Hr.
  cbn [samples flat_map] in Hr. rewrite app_nil_r in Hr.
  apply Forall_forall. intros x Hx.
  apply (proj1 (Forall_forall _ _) Hr).
  rewrite <- (firstn_skipn 4 (batch_samples p data)).
  apply in_or_app. left. exact Hx.
Qed.

(** A class has no sample exactly when no label is this class. *)
Lemma class_total_zero (k : nat) (l : list Sample) :
  class_total k l = 0%Z <-> ~ In k (map snd l).
Proof.
  induction l as [|x l IH].
  - cbn. split; [intros _ [] | reflexivity].
  - rewrite class_total_cons. cbn [map In].
    pose proof (class_total_bounds k l) as Hb.
    destruct (Nat.eqb_spec (snd x) k) as [E|E].
    + split; [lia | intros H; exfalso; apply H; left; exact E].
    + rewrite Z.add_0_l, IH. split.
      * intros H [H1|H1]; [exact (E H1) | exact (H H1)].
      * intros H H1. apply H. right. exact H1.
Qed.

Lemma class_report_complete (visited : list Sample) (ks : list nat) :
  (forall k, In k ks -> In k (map snd visited)) ->
  class_report (F := F) ks visited = (map (class_line visited) ks, Ok tt).
Proof.
  induction ks as [|k ks IH]; intros Hall; cbn [class_report map]; [reflexivity|].
  destruct (Z.eqb_spec (class_total k visited) 0) as [E|_].
  - apply class_total_zero in E. exfalso. apply E, Hall. left. reflexivity.
  - rewrite IH; [reflexivity|]. intros j Hj. apply Hall. right. exact Hj.
Qed.

Lemma class_report_missing (visited : list Sample) (k n : nat) :
  ~ In k (map snd visited) ->
  forall i, i <= k < i + n ->
  snd (class_report (F := F) (seq i n) visited) = Raise ZeroDivisionError /\
  length (fst (class_report (F := F) (seq i n) visited)) <= k - i.
Proof.
  intros Hk. induction n as [|n IH]; intros i Hi; [lia|].
  cbn [seq class_report].
  destruct (Z.eqb_spec (class_total i visited) 0) as [E|E].
  - cbn. split; [reflexivity | lia].
  - assert (i <> k).
    { intros ->. apply E. apply class_total_zero. exact Hk. }
    destruct (IH (S i)) as [H1 H2]; [lia|].
    destruct (class_report (seq (S i) n) visited) as [lines r].
    cbn [fst snd length] in *. split; [exact H1 | lia].
Qed.

End ScoringSamples.

(** X23. On a test loader whose batches all hold exactly four 28 by 28
    images with labels among the ten classes, the evaluation cell ends,
    however it ends, with the right counts: [total] is the number of
    test samples, four per batch; [correct] the number of samples whose
    predicted class, the position of the largest output of the network,
    is their label; for each class, [total_class] the number of samples
    of this label and [correct_class] the number of these predicted
    as labelled.  The running loss is left as it was. *)
Theorem evaluate_counts {F : Type} {SF : Torch.Scalar F}
  {T : Notebook.Backend F}
  (test_loader : list (Notebook.Batch F)) (s : Notebook.State F) :
  Forall Scoring.full_batch test_loader ->
  let seen := Scoring.samples (Notebook.cnn s) test_loader in
  let s' := fst (Notebook.evaluate test_loader s) in
  map snd seen = flat_map Notebook.labels test_loader /\
  Notebook.total s' = (4 * Z.of_nat (length test_loader))%Z /\
  Notebook.total s' = Z.of_nat (length seen) /\
  Notebook.correct s' = Scoring.hits seen /\
  Notebook.total_class s' =
    map (fun k => Scoring.class_total k seen) (seq 0 10) /\
  Notebook.correct_class s' =
    map (fun k => Scoring.class_hits k seen) (seq 0 10) /\
  Notebook.running_loss s' = Notebook.running_loss s.
Proof.
  intros Hl. cbn zeta.
  pose proof (full_are_counted test_loader Hl) as Hc.
  rewrite (evaluate_closed test_loader s Hc).
  rewrite (full_counted_all (Notebook.cnn s) test_loader Hl).
  cbn [fst Notebook.set_stdout Scoring.tallied Notebook.total Notebook.correct
       Notebook.total_class Notebook.correct_class Notebook.running_loss].
  split; [exact (samples_labels _ _ Hc)|].
  rewrite (samples_length _ test_loader Hc), (full_labels_length test_loader Hl).
  repeat split. lia.
Qed.

Lemma evaluate_counts_witness :
  let seen := Scoring.samples (Notebook.cnn Notebook.demo_state)
                Scoring.demo_loader_all in
  let s' := fst (Notebook.evaluate Scoring.demo_loader_all Notebook.demo_state) in
  map snd seen = flat_map Notebook.labels Scoring.demo_loader_all /\
  Notebook.total s' = (4 * Z.of_nat (length Scoring.demo_loader_all))%Z /\
  Notebook.total s' = Z.of_nat (length seen) /\
  Notebook.correct s' = Scoring.hits seen /\
  Notebook.total_class s' =
    map (fun k => Scoring.class_total k seen) (seq 0 10) /\
  Notebook.correct_class s' =
    map (fun k => Scoring.class_hits k seen) (seq 0 10) /\
  Notebook.running_loss s' = Notebook.running_loss Notebook.demo_state.
Proof.
  apply (evaluate_counts Scoring.demo_loader_all Notebook.demo_state).
  unfold Scoring.demo_loader_all, Scoring.full_batch.
  repeat (apply Forall_cons || apply Forall_nil);
    (split; [reflexivity | split; [reflexivity|]]);
    repeat (apply Forall_cons || apply Forall_nil); lia.
Defined.

(** X24. The counters the evaluation cell leaves are consistent, on a
    loader of batches of four: [correct] lies between 0 and [total],
    every class has between 0 and its [total_class] correct
    predictions, the per-class totals add up to [total] and the
    per-class correct counts to [correct]. *)
Theorem evaluate_counters_consistent {F : Type} {SF : Torch.Scalar F}
  {T : Notebook.Backend F}
  (test_loader : list (Notebook.Batch F)) (s : Notebook.State F) :
  Forall Scoring.full_batch test_loader ->
  let s' := fst (Notebook.evaluate test_loader s) in
  (0 <= Notebook.correct s' <= Notebook.total s')%Z /\
  (forall k, (0 <= nth k (Notebook.correct_class s') 0
                <= nth k (Notebook.total_class s') 0)%Z) /\
  Notebook.tensor_sum (Notebook.total_class s') = Notebook.total s' /\
  Notebook.tensor_sum (Notebook.correct_class s') = Notebook.correct s'.
Proof.
  intros Hl. cbn zeta.
  pose proof (full_are_counted test_loader Hl) as Hc.
  rewrite (evaluate_closed test_loader s Hc).
  rewrite (full_counted_all (Notebook.cnn s) test_loader Hl).
  cbn [fst Notebook.set_stdout Scoring.tallied Notebook.total Notebook.correct
       Notebook.total_class Notebook.correct_class].
  pose proof (samples_range (Notebook.cnn s) test_loader Hc) as Hr.
  split; [apply hits_bounds|]. split.
  - intros k.
    pose proof (class_hits_bounds k (Scoring.samples (Notebook.cnn s) test_loader)).
    do 10 (destruct k as [|k]; [exact H|]).
    cbn [seq map nth]. destruct k; lia.
  - split; [apply tensor_sum_class_total | apply tensor_sum_class_hits]; exact Hr.
Qed.

Lemma evaluate_counters_consistent_witness :
  let s' := fst (Notebook.evaluate Scoring.demo_loader_some Notebook.demo_state) in
  (0 <= Notebook.correct s' <= Notebook.total s')%Z /\
  (forall k, (0 <= nth k (Notebook.correct_class s') 0
                <= nth k (Notebook.total_class s') 0)%Z) /\
  Notebook.tensor_sum (Notebook.total_class s') = Notebook.total s' /\
  Notebook.tensor_sum (Notebook.correct_class s') = Notebook.correct s'.
Proof.
  apply (evaluate_counters_consistent Scoring.demo_loader_some Notebook.demo_state).
  unfold Scoring.demo_loader_some, Scoring.full_batch.
  repeat (apply Forall_cons || apply Forall_nil);
    (split; [reflexivity | split; [reflexivity|]]);
    repeat (apply Forall_cons || apply Forall_nil); lia.
Defined.

(** X25. When the batches hold four samples each and every one of the
    ten classes occurs among the labels of the test set, the cell
    completes and prints eleven lines: the number of test samples with
    the accuracy in percent, 100 * correct / total truncated, and then,
    in the order of [classes], the name of each class with
    100 * correct_class / total_class truncated. *)
Theorem evaluate_completes {F : Type} {SF : Torch.Scalar F}
  {T : Notebook.Backend F}
  (test_loader : list (Notebook.Batch F)) (s : Notebook.State F) :
  Forall Scoring.full_batch test_loader ->
  (forall k, k < 10 -> In k (flat_map Notebook.labels test_loader)) ->
  let seen := Scoring.samples (Notebook.cnn s) test_loader in
  snd (Notebook.evaluate test_loader s) = Ok tt /\
  Notebook.stdout (fst (Notebook.evaluate test_loader s)) =
    Notebook.stdout s ++
    Notebook.AccuracyLine (Z.of_nat (length seen))
      (Z.quot (100 * Scoring.hits seen) (Z.of_nat (length seen))) ::
    map (fun k => Notebook.ClassLine (nth k Notebook.classes EmptyString)
                    (Z.quot (100 * Scoring.class_hits k seen)
                            (Scoring.class_total k seen)))
        (seq 0 10).
Proof.
  intros Hl Hall. cbn zeta.
  pose proof (full_are_counted test_loader Hl) as Hc.
  rewrite (evaluate_closed test_loader s Hc).
  rewrite (full_counted_all (Notebook.cnn s) test_loader Hl).
  cbn [fst snd Notebook.set_stdout Notebook.stdout].
  unfold Scoring.report.
  destruct (Z.eqb_spec
              (Z.of_nat (length (Scoring.samples (Notebook.cnn s) test_loader))) 0)
    as [E|_].
  - exfalso.
    rewrite (samples_length _ test_loader Hc) in E.
    specialize (Hall 0 ltac:(lia)).
    destruct (flat_map Notebook.labels test_loader); [exact Hall | cbn in E; lia].
  - rewrite class_report_complete.
    + split; reflexivity.
    + intros k Hk. rewrite (samples_labels _ test_loader Hc).
      apply Hall. apply in_seq in Hk. lia.
Qed.

Lemma evaluate_completes_witness :
  let seen := Scoring.samples (Notebook.cnn Notebook.demo_state)
                Scoring.demo_loader_all in
  snd (Notebook.evaluate Scoring.demo_loader_all Notebook.demo_state) = Ok tt /\
  Notebook.stdout (fst (Notebook.evaluate Scoring.demo_loader_all
                          Notebook.demo_state)) =
    Notebook.stdout Notebook.demo_state ++
    Notebook.AccuracyLine (Z.of_nat (length seen))
      (Z.quot (100 * Scoring.hits seen) (Z.of_nat (length seen))) ::
    map (fun k => Notebook.ClassLine (nth k Notebook.classes EmptyString)
                    (Z.quot (100 * Scoring.class_hits k seen)
                            (Scoring.class_total k seen)))
        (seq 0 10).
Proof.
  apply (evaluate_completes Scoring.demo_loader_all Notebook.demo_state).
  - unfold Scoring.demo_loader_all, Scoring.full_batch.
    repeat (apply Forall_cons || apply Forall_nil);
      (split; [reflexivity | split; [reflexivity|]]);
      repeat (apply Forall_cons || apply Forall_nil); lia.
  - intros k Hk.
    do 10 (destruct k as [|k]; [cbn; tauto|]). lia.
Defined.

(** X26. When a class has no sample in a non-empty test set of batches
    of four, the cell does not complete: it prints the accuracy line,
    then at most one line for each class before that class, and raises
    [ZeroDivisionError] on a division by a [total_class] of zero. *)
Theorem evaluate_missing_class {F : Type} {SF : Torch.Scalar F}
  {T : Notebook.Backend F}
  (test_loader : list (Notebook.Batch F)) (s : Notebook.State F) (k : nat) :
  Forall Scoring.full_batch test_loader ->
  test_loader <> [] ->
  k < 10 ->
  ~ In k (flat_map Notebook.labels test_loader) ->
  let seen := Scoring.samples (Notebook.cnn s) test_loader in
  snd (Notebook.evaluate test_loader s) = Raise ZeroDivisionError /\
  exists lines,
    Notebook.stdout (fst (Notebook.evaluate test_loader s)) =
      Notebook.stdout s ++
      Notebook.AccuracyLine (Z.of_nat (length seen))
        (Z.quot (100 * Scoring.hits seen) (Z.of_nat (length seen))) :: lines /\
    length lines <= k.
Proof.
  intros Hl Hne Hk Hno. cbn zeta.
  pose proof (full_are_counted test_loader Hl) as Hc.
  rewrite (evaluate_closed test_loader s Hc).
  rewrite (full_counted_all (Notebook.cnn s) test_loader Hl).
  cbn [fst snd Notebook.set_stdout Notebook.stdout].
  unfold Scoring.report.
  destruct (Z.eqb_spec
              (Z.of_nat (length (Scoring.samples (Notebook.cnn s) test_loader))) 0)
    as [E|_].
  - exfalso.
    rewrite (samples_length _ test_loader Hc),
      (full_labels_length test_loader Hl) in E.
    destruct test_loader; [exact (Hne eq_refl) | cbn [length] in E; lia].
  - rewrite <- (samples_labels (Notebook.cnn s) test_loader Hc) in Hno.
    destruct (class_report_missing (F := F) _ k 10 Hno 0 ltac:(lia)) as [H1 H2].
    destruct (Scoring.class_report (seq 0 10)
                (Scoring.samples (Notebook.cnn s) test_loader)) as [lines r].
    cbn [fst snd] in *. split; [exact H1|].
    exists lines. split; [reflexivity | lia].
Qed.

Lemma evaluate_missing_class_witness :
  let seen := Scoring.samples (Notebook.cnn Notebook.demo_state)
                Scoring.demo_loader_some in
  snd (Notebook.evaluate Scoring.demo_loader_some Notebook.demo_state) =
    Raise ZeroDivisionError /\
  exists lines,
    Notebook.stdout (fst (Notebook.evaluate Scoring.demo_loader_some
                            Notebook.demo_state)) =
      Notebook.stdout Notebook.demo_state ++
      Notebook.AccuracyLine (Z.of_nat (length seen))
        (Z.quot (100 * Scoring.hits seen) (Z.of_nat (length seen))) :: lines /\
    length lines <= 4.
Proof.
  apply (evaluate_missing_class Scoring.demo_loader_some Notebook.demo_state 4).
  - unfold Scoring.demo_loader_some, Scoring.full_batch.
    repeat (apply Forall_cons || apply Forall_nil);
      (split; [reflexivity | split; [reflexivity|]]);
      repeat (apply Forall_cons || apply Forall_nil); lia.
  - discriminate.
  - lia.
  - cbn. intros H. repeat (destruct H as [H|H]; [discriminate H|]). exact H.
Defined.

(** X27. The loop over [range(4)] visits only the first four samples of
    a batch.  On a loader whose batches hold four samples or more,
    [total] counts every sample and [correct] every sample predicted
    as labelled, while the per-class counters count four samples per
    batch: their totals add up to four times the number of batches,
    which is less than [total] as soon as a batch holds more than
    four. *)
Theorem evaluate_visits_four_per_batch {F : Type} {SF : Torch.Scalar F}
  {T : Notebook.Backend F}
  (test_loader : list (Notebook.Batch F)) (s : Notebook.State F) :
  Forall Scoring.counted_batch test_loader ->
  let s' := fst (Notebook.evaluate test_loader s) in
  Notebook.total s' =
    Z.of_nat (length (flat_map Notebook.labels test_loader)) /\
  Notebook.correct s' =
    Scoring.hits (Scoring.samples (Notebook.cnn s) test_loader) /\
  Notebook.tensor_sum (Notebook.total_class s') =
    (4 * Z.of_nat (length test_loader))%Z /\
  Notebook.tensor_sum (Notebook.correct_class s') =
    Scoring.hits (Scoring.counted (Notebook.cnn s) test_loader).
Proof.
  intros Hc. cbn zeta.
  rewrite (evaluate_closed test_loader s Hc).
  cbn [fst Notebook.set_stdout Scoring.tallied Notebook.total Notebook.correct
       Notebook.total_class Notebook.correct_class].
  pose proof (counted_range (Notebook.cnn s) test_loader Hc) as Hr.
  rewrite (samples_length _ test_loader Hc).
  rewrite (tensor_sum_class_total _ Hr), (tensor_sum_class_hits _ Hr).
  rewrite (counted_length _ test_loader Hc).
  repeat split. lia.
Qed.

Lemma evaluate_visits_four_per_batch_witness :
  let s' := fst (Notebook.evaluate Scoring.demo_loader_wide Notebook.demo_state) in
  Notebook.total s' =
    Z.of_nat (length (flat_map Notebook.labels Scoring.demo_loader_wide)) /\
  Notebook.correct s' =
    Scoring.hits (Scoring.samples (Notebook.cnn Notebook.demo_state)
                    Scoring.demo_loader_wide) /\
  Notebook.tensor_sum (Notebook.total_class s') =
    (4 * Z.of_nat (length Scoring.demo_loader_wide))%Z /\
  Notebook.tensor_sum (Notebook.correct_class s') =
    Scoring.hits (Scoring.counted (Notebook.cnn Notebook.demo_state)
                    Scoring.demo_loader_wide).
Proof.
  apply (evaluate_visits_four_per_batch Scoring.demo_loader_wide
           Notebook.demo_state).
  unfold Scoring.demo_loader_wide, Scoring.counted_batch.
  repeat (apply Forall_cons || apply Forall_nil);
    (split; [reflexivity | split; [cbn; lia|]]);
    repeat (apply Forall_cons || apply Forall_nil); lia.
Defined.

(** X28. A label outside the ten classes makes the cell raise
    [IndexError] on [correct_class[label]]: when the first label of the
    first batch is 10 or more, the batch has been added to [total],
    no sample has entered the per-class counters and nothing is
    printed. *)
Theorem evaluate_label_out_of_range {F : Type} {SF : Torch.Scalar F}
  {T : Notebook.Backend F}
  (data : Notebook.Batch F) (rest : list (Notebook.Batch F))
  (s : Notebook.State F) (label : nat) (others : list nat) :
  shape (Notebook.inputs data) = [length (Notebook.labels data); 1; 28; 28] ->
  Notebook.labels data = label :: others ->
  10 <= label ->
  let r := Notebook.evaluate (data :: rest) s in
  snd r = Raise IndexError /\
  Notebook.total (fst r) = Z.of_nat (length (Notebook.labels data)) /\
  Notebook.total_class (fst r) = repeat 0%Z 10 /\
  Notebook.correct_class (fst r) = repeat 0%Z 10 /\
  Notebook.stdout (fst r) = Notebook.stdout s.
Proof.
  intros Hs Hlab Hl. cbn zeta.
  destruct (guess_ok (Notebook.cnn s) (Notebook.inputs data)
              (length (Notebook.labels data)) Hs) as (g & Eg & Lg & _).
  { rewrite Hlab. cbn [length]. lia. }
  unfold Display.guess in Eg.
  destruct (Model.forward (Model.CNN_init (Notebook.cnn s)) (Notebook.inputs data))
    as [out|] eqn:Ef; [|discriminate].
  cbn [Py.bind] in Eg.
  assert (Em : Notebook.tensor_eq g (Notebook.labels data) =
               Ok (map Scoring.match_entry (combine g (Notebook.labels data)))).
  { unfold Notebook.tensor_eq. rewrite Lg, Nat.eqb_refl. reflexivity. }
  rewrite (evaluate_first_batch_raises data rest s
             (Notebook.set_correct
                (0 + Notebook.tensor_sum
                       (map Scoring.match_entry (combine g (Notebook.labels data))))
                (Notebook.set_total
                   (0 + Z.of_nat (length (Notebook.labels data)))
                   (Notebook.set_total_class (repeat 0%Z 10)
                      (Notebook.set_correct_class (repeat 0%Z 10)
                         (Notebook.set_total 0%Z (Notebook.set_correct 0%Z s))))))
             IndexError).
  - cbn [fst snd Notebook.total Notebook.total_class Notebook.correct_class
         Notebook.stdout Notebook.set_correct Notebook.set_total
         Notebook.set_total_class Notebook.set_correct_class].
    repeat split.
  - rewrite (evaluate_batch_scores data _ out) by exact Ef.
    rewrite (tally_unfold data out g _ Eg Em).
    cbn [seq Notebook.for_each].
    apply bind_raise.
    unfold Notebook.count_sample, Notebook.bind, Notebook.lift, Notebook.get.
    rewrite Hlab. cbn [Notebook.list_getitem nth_error].
    rewrite list_getitem_out_of_range; [reflexivity|].
    cbn [Notebook.correct_class Notebook.set_correct Notebook.set_total
         Notebook.set_total_class Notebook.set_correct_class].
    rewrite repeat_length. exact Hl.
Qed.

Lemma evaluate_label_out_of_range_witness :
  let r := Notebook.evaluate [Notebook.demo_batch [10; 0; 1; 2]]
             Notebook.demo_state in
  snd r = Raise IndexError /\
  Notebook.total (fst r) =
    Z.of_nat (length (Notebook.labels (Notebook.demo_batch [10; 0; 1; 2]))) /\
  Notebook.total_class (fst r) = repeat 0%Z 10 /\
  Notebook.correct_class (fst r) = repeat 0%Z 10 /\
  Notebook.stdout (fst r) = Notebook.stdout Notebook.demo_state.
Proof.
  apply (evaluate_label_out_of_range (Notebook.demo_batch [10; 0; 1; 2]) []
           Notebook.demo_state 10 [0; 1; 2]).
  - reflexivity.
  - reflexivity.
  - lia.
Defined.
